(** * RSP dollar-cost-averaging monitor: monthly trigger state machine

    A shallow embedding of the rule evaluation of [rsp_dca_monitor.py]
    (live monitor), [rsp_backtest_monitor.py] (historical replay) and
    [market_breadth_fetcher.py] (breadth provider), with the properties
    the design document states about them.

    Conventions of the embedding:
    - a Python [float] is an IEEE-754 binary64 value, modelled by the
      Standard Library's [spec_float] with [prec = 53], [emax = 1024];
      every arithmetic operation is the correctly rounded one
      ([SFadd], [SFsub], [SFmul], [SFdiv]) and every comparison is
      [SFcompare]-based, so NaN compares false with everything;
    - a [datetime.date] is a record of year, month and day; the weekday
      is computed from the proleptic Gregorian ordinal as CPython does;
    - the state dictionary with its fixed keys is a record;
    - the pandas frame of daily bars is a list of rows in date order;
    - a message of the live monitor is the record of the values its text
      is formatted from; sending and logging are left out;
    - the global generator of [random] is an explicit state, with the
      generator itself ([random.seed], [random.random]) a parameter;
    - a call that may raise has an explicit [outcome]; the one loop of the
      sources that is not a plain iteration over rows runs on fuel and
      answers [None] when the fuel is spent (shown never to happen);
    - the state file between two runs is the dictionary last saved, and a
      run of the program is [main] applied to what that day brings; the
      quote service, [Series.std] and [groupby] are parameters.

    The first part holds the definitions, in the order of the sources;
    the second part the properties: the closed form of one evaluation,
    the invariants of a month, re-evaluation, the month check, the third
    Friday and the breadth providers with the rounding facts they need;
    then what a completed check leaves behind, the stages over the runs of
    a month, the result of a backtest month, the backtest run with its
    summary and saved records, and the requests for historical data. *)

From Stdlib Require Import String Ascii.
From Stdlib Require Import ZArith List Bool Lia Sorted.
From Stdlib Require Import Floats.SpecFloat.
Import ListNotations.
Local Open Scope Z_scope.

(** ** Outcomes of code that may raise *)

Inductive outcome (A : Type) : Type :=
| Returned (a : A)
| Raised.
Arguments Returned {A} a.
Arguments Raised {A}.

(** ** Python floats *)

Module PyFloat.

Definition float := spec_float.
Definition prec : Z := 53.
Definition emax : Z := 1024.

Definition add : float -> float -> float := SFadd prec emax.
Definition sub : float -> float -> float := SFsub prec emax.
Definition mul : float -> float -> float := SFmul prec emax.
Definition div : float -> float -> float := SFdiv prec emax.

(** [x < y], [x <= y], [x >= y] of Python. *)
Definition ltb (x y : float) : bool := SFltb x y.
Definition leb (x y : float) : bool := SFleb x y.
Definition geb (x y : float) : bool := SFleb y x.

(** The float of an integer literal or of an [int] operand. *)
Definition of_Z (z : Z) : float := binary_normalize prec emax z 0 false.

Definition zero : float := S754_zero false.

(** [pd.isna] on a float cell. *)
Definition isna (x : float) : bool :=
  match x with S754_nan => true | _ => false end.

(** Truth value of a float in a condition: only the two zeros are false. *)
Definition truthy (x : float) : bool :=
  match x with S754_zero _ => false | _ => true end.

(** The builtins [min(a, b)] and [max(a, b)]: the second argument replaces
    the first only when it compares strictly below (above) it. *)
Definition py_min (a b : float) : float := if ltb b a then b else a.
Definition py_max (a b : float) : float := if ltb a b then b else a.

(** Python's [x / y] on floats raises [ZeroDivisionError] when [y] is a
    zero and is the IEEE quotient otherwise. *)
Definition truediv (x y : float) : outcome float :=
  match y with
  | S754_zero _ => Raised
  | _ => Returned (div x y)
  end.

(** Decimal literals of the sources, as the binary64 values they denote
    ([float.hex] gives the mantissa and exponent). *)
Definition f0_05 : float := S754_finite false 7205759403792794 (-57).
Definition f0_01 : float := S754_finite false 5764607523034235 (-59).
Definition fm0_01 : float := S754_finite true 5764607523034235 (-59).
Definition fm0_02 : float := S754_finite true 5764607523034235 (-58).
Definition f5 : float := S754_finite false 5629499534213120 (-50).
Definition f10 : float := S754_finite false 5629499534213120 (-49).
Definition fm10 : float := S754_finite true 5629499534213120 (-49).
Definition f15 : float := S754_finite false 8444249301319680 (-49).
Definition f12_5 : float := S754_finite false 7036874417766400 (-49).
Definition f0_125 : float := S754_finite false 4503599627370496 (-55).
Definition f1 : float := S754_finite false 4503599627370496 (-52).
Definition fm15 : float := S754_finite true 8444249301319680 (-49).
Definition f20 : float := S754_finite false 5629499534213120 (-48).
Definition f25 : float := S754_finite false 7036874417766400 (-48).
Definition f30 : float := S754_finite false 8444249301319680 (-48).
Definition f45 : float := S754_finite false 6333186975989760 (-47).
Definition f50 : float := S754_finite false 7036874417766400 (-47).
Definition f100 : float := S754_finite false 7036874417766400 (-46).

End PyFloat.
Import PyFloat.

(** ** Calendar dates *)

Module Calendar.

Record date : Type := mkdate { year : Z; month : Z; day : Z }.

Definition date_eqb (a b : date) : bool :=
  (year a =? year b) && (month a =? month b) && (day a =? day b).

Definition MINYEAR : Z := 1.
Definition MAXYEAR : Z := 9999.

Definition is_leap (y : Z) : bool :=
  (y mod 4 =? 0) && (negb (y mod 100 =? 0) || (y mod 400 =? 0)).

Definition days_in_month (y m : Z) : Z :=
  if m =? 2 then (if is_leap y then 29 else 28)
  else if (m =? 4) || (m =? 6) || (m =? 9) || (m =? 11) then 30
  else 31.

(** Number of days before January 1st of year [y]. *)
Definition days_before_year (y : Z) : Z :=
  let p := y - 1 in p * 365 + p / 4 - p / 100 + p / 400.

(** Number of days of year [y] before the first of month [m]. *)
Definition days_before_month (y m : Z) : Z :=
  nth (Z.to_nat m) [0; 0; 31; 59; 90; 120; 151; 181; 212; 243; 273; 304; 334] 0
  + (if (2 <? m) && is_leap y then 1 else 0).

(** [date.toordinal()]: January 1st of year 1 is day 1. *)
Definition toordinal (d : date) : Z :=
  days_before_year (year d) + days_before_month (year d) (month d) + day d.

(** [date.weekday()]: Monday is 0, Friday is 4, Sunday is 6. *)
Definition weekday (d : date) : Z := (toordinal d + 6) mod 7.

Definition valid_month (y m : Z) : bool :=
  (MINYEAR <=? y) && (y <=? MAXYEAR) && (1 <=? m) && (m <=? 12).

(** The values a [datetime.date] object can hold. *)
Definition valid_date (d : date) : bool :=
  valid_month (year d) (month d)
  && (1 <=? day d) && (day d <=? days_in_month (year d) (month d)).

(** [date(year, month, 1)]: raises [ValueError] outside the supported range. *)
Definition first_of_month (y m : Z) : outcome date :=
  if valid_month y m then Returned (mkdate y m 1) else Raised.

(** [d + timedelta(days=1)]: the next calendar day; past [date.max]
    (9999-12-31) the addition raises [OverflowError]. *)
Definition add_one_day (d : date) : outcome date :=
  if day d <? days_in_month (year d) (month d)
  then Returned (mkdate (year d) (month d) (day d + 1))
  else if month d <? 12
  then Returned (mkdate (year d) (month d + 1) 1)
  else if year d <? MAXYEAR
  then Returned (mkdate (year d + 1) 1 1)
  else Raised.

(** The [while current_date.month == month] loop of [is_third_friday]:
    appends every Friday met to [fridays] and steps one day. [None] means
    the fuel ran out before the loop ended. *)
Fixpoint collect_fridays (fuel : nat) (month0 : Z) (current_date : date)
    (fridays : list date) : option (outcome (list date)) :=
  match fuel with
  | O => None
  | S fuel' =>
      if month current_date =? month0 then
        let fridays' :=
          if weekday current_date =? 4
          then fridays ++ [current_date] else fridays in
        match add_one_day current_date with
        | Returned next => collect_fridays fuel' month0 next fridays'
        | Raised => Some Raised
        end
      else Some (Returned fridays)
  end.

(** The body of the [try] block up to the list of Fridays. A month has at
    most 31 days, so 32 iterations always reach the loop exit. *)
Definition month_fridays (y m : Z) : option (outcome (list date)) :=
  match first_of_month y m with
  | Returned first => collect_fridays 32 m first []
  | Raised => Some Raised
  end.

(** [is_third_friday], the same in [RSPMonitor] and [RSPBacktestMonitor]:
    any exception inside the [try] block is logged and answered [False]. *)
Definition is_third_friday (d : date) : bool :=
  match month_fridays (year d) (month d) with
  | Some (Returned fridays) =>
      if 3 <=? Z.of_nat (length fridays)
      then match nth_error fridays 2 with
           | Some f => date_eqb d f
           | None => false
           end
      else match fridays with
           | [] => false
           | f0 :: rest => date_eqb d (last rest f0)
           end
  | Some Raised => false
  | None => false
  end.

(** [strftime] with the formats the sources use, for four-digit years. *)
Definition digit (n : Z) : ascii := ascii_of_nat (48 + Z.to_nat (n mod 10)).

Definition pad2 (n : Z) : string :=
  String (digit (n / 10)) (String (digit n) EmptyString).

Definition pad4 (n : Z) : string :=
  String (digit (n / 1000)) (String (digit (n / 100)) (pad2 n)).

Definition strftime_Ym (d : date) : string :=
  (pad4 (year d) ++ "-" ++ pad2 (month d))%string.

Definition strftime_Ymd (d : date) : string :=
  (pad4 (year d) ++ "-" ++ pad2 (month d) ++ "-" ++ pad2 (day d))%string.

(** [int(d.strftime('%Y%m%d'))]. *)
Definition date_number (d : date) : Z :=
  year d * 10000 + month d * 100 + day d.

(** *** Specification side: the Fridays of a month, in ascending order *)

Definition month_days (y m : Z) : list date :=
  map (fun k => mkdate y m (Z.of_nat k))
      (seq 1 (Z.to_nat (days_in_month y m))).

Definition is_friday (d : date) : bool := weekday d =? 4.

Definition fridays_of_month (y m : Z) : list date :=
  filter is_friday (month_days y m).

(** [d] is the third Friday of its month, or the last one when the month
    has fewer than three. *)
Definition third_or_last_friday (d : date) : Prop :=
  let fr := fridays_of_month (year d) (month d) in
  (3 <= length fr)%nat /\ nth_error fr 2 = Some d
  \/ (length fr < 3)%nat /\ fr <> [] /\ last fr d = d.

End Calendar.
Import Calendar.

(** ** Rows and trigger records *)

(** One row of the frame built by [get_rsp_data] / [get_historical_data]. *)
Record bar : Type := mkbar {
  bar_date : date;
  bar_open : float;
  bar_high : float;
  bar_low : float;
  bar_close : float;
  bar_volume : float;
  bar_daily_return : float   (* NaN on the first row of the frame *)
}.

Inductive trigger_type : Type :=
| first_dip | monthly_deadline | second_dip | third_dip.

(** A fired condition: the backtest's [trigger] dictionary; for the live
    monitor, the values its message text is formatted from. *)
Record trigger : Type := mktrigger {
  t_date : date;
  t_type : trigger_type;
  t_daily_return : float;
  t_price : float;
  t_cumulative_decline : float;
  t_market_breadth : option float
}.

(** ** The [random] module *)

(** The global generator: [random.seed(n)] replaces its state,
    [random.random()] draws from it and advances it. *)
Class Rng : Type := {
  rng_state : Type;
  rng_seed : Z -> rng_state;
  rng_random : rng_state -> float * rng_state
}.

(** [random.random()] answers a float in the half-open interval [0.0, 1.0);
    the proofs only use its lower end. *)
Definition random_nonneg (R : Rng) : Prop :=
  forall g : rng_state, leb zero (fst (rng_random g)) = true.

(** [random.uniform(a, b)] is [a + (b - a) * self.random()]. *)
Definition uniform {R : Rng} (a b : float) (g : rng_state)
    : float * rng_state :=
  let (r, g') := rng_random g in (add a (mul (sub b a) r), g').

(** A generator whose every draw is [r], whatever the seed. *)
Definition constant_rng (r : float) : Rng :=
  {| rng_state := unit;
     rng_seed := fun _ => tt;
     rng_random := fun g => (r, g) |}.

(** ** market_breadth_fetcher.py *)

Module MarketBreadthFetcher.
Section WithRng.
Context {R : Rng}.

(** [_get_simulated_breadth]: [now] is [datetime.now()]. *)
Definition _get_simulated_breadth (now : date) (g : rng_state)
    : float * rng_state :=
  let seed := date_number now mod 1000 in
  let g1 := rng_seed seed in
  let base_breadth := f25 in
  let (variation, g2) := uniform fm10 f10 g1 in
  let breadth := py_max f5 (py_min f45 (add base_breadth variation)) in
  (breadth, g2).

(** The [for source in self.data_sources] loop: [results] holds what
    [get_market_breadth_from_source] answers for each source in order
    ([None] when the request or the parsing failed). *)
Fixpoint first_available (results : list (option float)) : option float :=
  match results with
  | [] => None
  | Some breadth :: _ => Some breadth
  | None :: rest => first_available rest
  end.

(** [get_market_breadth]: the first source that answers, else the
    simulated value; [loop] is [Raised] when the loop itself raised, which
    the handler answers with the simulated value too. *)
Definition get_market_breadth (loop : outcome (list (option float)))
    (now : date) (g : rng_state) : float * rng_state :=
  match loop with
  | Returned results =>
      match first_available results with
      | Some breadth => (breadth, g)
      | None => _get_simulated_breadth now g
      end
  | Raised => _get_simulated_breadth now g
  end.

End WithRng.

(** [validate_breadth_value] on a float: the [isinstance] test is true and
    the chained comparison [0 <= breadth <= 100] decides. *)
Definition validate_breadth_value (breadth : float) : bool :=
  leb zero breadth && leb breadth f100.

End MarketBreadthFetcher.

(** The class [rsp_dca_monitor.py] defines in place of the fetcher when
    importing [market_breadth_fetcher] fails. *)
Module SubstituteFetcher.
Section WithRng.
Context {R : Rng}.

Definition get_market_breadth (g : rng_state) : float * rng_state :=
  uniform f10 f30 g.

End WithRng.
End SubstituteFetcher.

(** ** rsp_dca_monitor.py *)

Module RSPMonitor.

(** The [self.state] dictionary. *)
Record state : Type := mkstate {
  current_month : string;
  first_dip_triggered : bool;
  monthly_deadline_triggered : bool;
  second_dip_triggered : bool;
  third_dip_triggered : bool;
  month_start_price : option float;
  month_low_price : option float;
  last_check_date : string;
  monthly_returns : list float
}.

Definition default_state : state :=
  {| current_month := "";
     first_dip_triggered := false;
     monthly_deadline_triggered := false;
     second_dip_triggered := false;
     third_dip_triggered := false;
     month_start_price := None;
     month_low_price := None;
     last_check_date := "";
     monthly_returns := [] |}.

Definition set_first_dip_triggered (st : state) (v : bool) : state :=
  mkstate (current_month st) v (monthly_deadline_triggered st)
    (second_dip_triggered st) (third_dip_triggered st)
    (month_start_price st) (month_low_price st)
    (last_check_date st) (monthly_returns st).

Definition set_monthly_deadline_triggered (st : state) (v : bool) : state :=
  mkstate (current_month st) (first_dip_triggered st) v
    (second_dip_triggered st) (third_dip_triggered st)
    (month_start_price st) (month_low_price st)
    (last_check_date st) (monthly_returns st).

Definition set_second_dip_triggered (st : state) (v : bool) : state :=
  mkstate (current_month st) (first_dip_triggered st)
    (monthly_deadline_triggered st) v (third_dip_triggered st)
    (month_start_price st) (month_low_price st)
    (last_check_date st) (monthly_returns st).

Definition set_third_dip_triggered (st : state) (v : bool) : state :=
  mkstate (current_month st) (first_dip_triggered st)
    (monthly_deadline_triggered st) (second_dip_triggered st) v
    (month_start_price st) (month_low_price st)
    (last_check_date st) (monthly_returns st).

Definition set_month_start_price (st : state) (v : option float) : state :=
  mkstate (current_month st) (first_dip_triggered st)
    (monthly_deadline_triggered st) (second_dip_triggered st)
    (third_dip_triggered st) v (month_low_price st)
    (last_check_date st) (monthly_returns st).

Definition set_month_low_price (st : state) (v : option float) : state :=
  mkstate (current_month st) (first_dip_triggered st)
    (monthly_deadline_triggered st) (second_dip_triggered st)
    (third_dip_triggered st) (month_start_price st) v
    (last_check_date st) (monthly_returns st).

Definition set_last_check_date (st : state) (v : string) : state :=
  mkstate (current_month st) (first_dip_triggered st)
    (monthly_deadline_triggered st) (second_dip_triggered st)
    (third_dip_triggered st) (month_start_price st) (month_low_price st)
    v (monthly_returns st).

(** [get_market_breadth]: [call] is the outcome of
    [self.breadth_fetcher.get_market_breadth()]. *)
Definition get_market_breadth (call : outcome float) : float :=
  match call with
  | Returned breadth => breadth
  | Raised => f20
  end.

(** [reset_monthly_state]: [self.state.update] of seven keys. *)
Definition reset_monthly_state (st : state) (month_key : string) : state :=
  {| current_month := month_key;
     first_dip_triggered := false;
     monthly_deadline_triggered := false;
     second_dip_triggered := false;
     third_dip_triggered := false;
     month_start_price := None;
     month_low_price := None;
     last_check_date := last_check_date st;
     monthly_returns := monthly_returns st |}.

(** What one call of [check_triggers] does: the state dictionary it leaves
    in memory, the messages handed to [send_wechat] in order, and the
    dictionary [save_state] wrote, if it was called. *)
Record run : Type := mkrun {
  state_after : state;
  messages : list trigger;
  saved : option state
}.

(** The month check at the head of [check_triggers]. *)
Definition month_rollover (st : state) (df : list bar) (today : date)
    : state :=
  let month_key := strftime_Ym today in
  if negb (String.eqb (current_month st) month_key) then
    let st' := reset_monthly_state st month_key in
    let month_start_data :=
      filter (fun b => String.eqb (strftime_Ym (bar_date b)) month_key) df in
    match month_start_data with
    | [] => st'
    | first :: _ => set_month_start_price st' (Some (bar_open first))
    end
  else st.

(** The pieces of [check_triggers] after today's row is found, in source
    order: the running low, the cumulative decline, then the three stages.
    [fired ty breadth] builds the message of a stage that fires. *)
Definition update_month_low (st : state) (today_close : float) : state :=
  match month_low_price st with
  | None => set_month_low_price st (Some today_close)
  | Some low => set_month_low_price st (Some (py_min low today_close))
  end.

Definition cumulative_decline_of (st : state) (today_close : float) : float :=
  match month_start_price st with
  | Some p => if truthy p then div (sub p today_close) p else zero
  | None => zero
  end.

(** Conditions 1 and 2: the [if] / [elif] pair. *)
Definition stage_first (st : state)
    (fired : trigger_type -> option float -> trigger)
    (today : date) (today_return : float) : state * list trigger :=
  if negb (first_dip_triggered st)
     && negb (monthly_deadline_triggered st)
     && leb today_return fm0_01
  then (set_first_dip_triggered st true, [fired first_dip None])
  else if negb (first_dip_triggered st)
          && negb (monthly_deadline_triggered st)
          && is_third_friday today
  then (set_monthly_deadline_triggered st true, [fired monthly_deadline None])
  else (st, []).

(** Condition 3. *)
Definition stage_second (st : state)
    (fired : trigger_type -> option float -> trigger)
    (cumulative_decline : float) : state * list trigger :=
  if negb (second_dip_triggered st) && geb cumulative_decline f0_05
  then (set_second_dip_triggered st true, [fired second_dip None])
  else (st, []).

(** Condition 4: the breadth is asked for only inside the outer test. *)
Definition stage_third (st : state)
    (fired : trigger_type -> option float -> trigger)
    (call : outcome float) : state * list trigger :=
  if second_dip_triggered st && negb (third_dip_triggered st) then
    let market_breadth := get_market_breadth call in
    if ltb market_breadth f15
    then (set_third_dip_triggered st true,
          [fired third_dip (Some market_breadth)])
    else (st, [])
  else (st, []).

Definition evaluate (st : state) (today : date) (row : bar)
    (call : outcome float) : run :=
  let today_close := bar_close row in
  let today_return :=
    if negb (isna (bar_daily_return row)) then bar_daily_return row
    else zero in
  let st := update_month_low st today_close in
  let cumulative_decline := cumulative_decline_of st today_close in
  let fired (ty : trigger_type) (breadth : option float) :=
    mktrigger today ty today_return today_close cumulative_decline breadth in
  let '(st, messages1) := stage_first st fired today today_return in
  let '(st, messages2) := stage_second st fired cumulative_decline in
  let '(st, messages3) := stage_third st fired call in
  let st := set_last_check_date st (strftime_Ymd today) in
  {| state_after := st;
     messages := messages1 ++ messages2 ++ messages3;
     saved := Some st |}.

(** [check_triggers]: [df] is what [get_rsp_data] answered (empty when the
    fetch failed), [today] is [datetime.now().date()], [call] the outcome
    of the breadth fetcher should stage 3 ask for it. *)
Definition check_triggers (st : state) (df : list bar) (today : date)
    (call : outcome float) : run :=
  match df with
  | [] => {| state_after := st; messages := []; saved := None |}
  | _ :: _ =>
      let st := month_rollover st df today in
      let today_data := filter (fun b => date_eqb (bar_date b) today) df in
      match today_data with
      | [] => {| state_after := st; messages := []; saved := None |}
      | r0 :: rest => evaluate st today (last rest r0) call
      end
  end.

(** The states a monitor reaches from the default dictionary by daily
    checks. *)
Inductive reachable : state -> Prop :=
| reach_default : reachable default_state
| reach_check (st : state) (df : list bar) (today : date)
    (call : outcome float) :
    reachable st ->
    reachable (state_after (check_triggers st df today call)).

(** The state file between two runs of the program: [None] while it does
    not exist or cannot be read, else the dictionary the last [save_state]
    wrote. The write is taken to succeed, and [json.load] to give back
    what [json.dump] was given. *)
Definition state_file : Type := option state.

(** [load_state]: the default dictionary without a readable file. *)
Definition load_state (file : state_file) : state :=
  match file with
  | Some st => st
  | None => default_state
  end.

(** [run_daily_check]: nothing is checked when [initialize] answers
    [False]. *)
Definition run_daily_check (initialized : bool) (st : state) (df : list bar)
    (today : date) (call : outcome float) : run :=
  if initialized then check_triggers st df today call
  else {| state_after := st; messages := []; saved := None |}.

(** What one run of the program meets: whether the quote service could be
    set up, the frame it answers, the day, and the breadth lookup. *)
Record day_input : Type := mkinput {
  in_initialized : bool;
  in_df : list bar;
  in_today : date;
  in_call : outcome float
}.

(** [main]: a new [RSPMonitor] loads the file and runs the daily check;
    the file is rewritten only by the [save_state] that ends a completed
    check. The result is the file left behind and the messages sent. *)
Definition main (file : state_file) (i : day_input)
    : state_file * list trigger :=
  let st := load_state file in
  let r :=
    run_daily_check (in_initialized i) st (in_df i) (in_today i) (in_call i)
  in
  (match saved r with Some st' => Some st' | None => file end, messages r).

(** The program run once per input, in order. *)
Fixpoint main_runs (file : state_file) (inputs : list day_input)
    : state_file * list trigger :=
  match inputs with
  | [] => (file, [])
  | i :: rest =>
      let (file1, sent1) := main file i in
      let (file2, sent2) := main_runs file1 rest in
      (file2, sent1 ++ sent2)
  end.

End RSPMonitor.

(** ** rsp_backtest_monitor.py *)

Module RSPBacktestMonitor.

(** A Python value passed where a number is expected: a float, or
    something arithmetic raises [TypeError] on. *)
Inductive pyvalue : Type :=
| Num (x : float)
| NonNumeric.

(** The [month_state] dictionary of [analyze_month]. *)
Record month_state : Type := mkmonth {
  month_label : string;
  first_dip_triggered : bool;
  monthly_deadline_triggered : bool;
  second_dip_triggered : bool;
  third_dip_triggered : bool;
  triggers : list trigger;
  month_start_price : option float;
  month_end_price : option float;
  month_return : float;
  max_decline : float;
  trading_days : nat
}.

Definition initial_month_state (month_str : string) (monthly_data : list bar)
    : month_state :=
  {| month_label := month_str;
     first_dip_triggered := false;
     monthly_deadline_triggered := false;
     second_dip_triggered := false;
     third_dip_triggered := false;
     triggers := [];
     month_start_price := None;
     month_end_price := None;
     month_return := zero;
     max_decline := zero;
     trading_days := length monthly_data |}.

Definition set_prices (ms : month_state) (p_start p_end ret : float)
    : month_state :=
  mkmonth (month_label ms) (first_dip_triggered ms)
    (monthly_deadline_triggered ms) (second_dip_triggered ms)
    (third_dip_triggered ms) (triggers ms) (Some p_start) (Some p_end) ret
    (max_decline ms) (trading_days ms).

Definition set_max_decline (ms : month_state) (v : float) : month_state :=
  mkmonth (month_label ms) (first_dip_triggered ms)
    (monthly_deadline_triggered ms) (second_dip_triggered ms)
    (third_dip_triggered ms) (triggers ms) (month_start_price ms)
    (month_end_price ms) (month_return ms) v (trading_days ms).

(** [month_state['triggers'].append(t)] followed by setting one flag. *)
Definition fire_first_dip (ms : month_state) (t : trigger) : month_state :=
  mkmonth (month_label ms) true (monthly_deadline_triggered ms)
    (second_dip_triggered ms) (third_dip_triggered ms) (triggers ms ++ [t])
    (month_start_price ms) (month_end_price ms) (month_return ms)
    (max_decline ms) (trading_days ms).

Definition fire_monthly_deadline (ms : month_state) (t : trigger)
    : month_state :=
  mkmonth (month_label ms) (first_dip_triggered ms) true
    (second_dip_triggered ms) (third_dip_triggered ms) (triggers ms ++ [t])
    (month_start_price ms) (month_end_price ms) (month_return ms)
    (max_decline ms) (trading_days ms).

Definition fire_second_dip (ms : month_state) (t : trigger) : month_state :=
  mkmonth (month_label ms) (first_dip_triggered ms)
    (monthly_deadline_triggered ms) true (third_dip_triggered ms)
    (triggers ms ++ [t]) (month_start_price ms) (month_end_price ms)
    (month_return ms) (max_decline ms) (trading_days ms).

Definition fire_third_dip (ms : month_state) (t : trigger) : month_state :=
  mkmonth (month_label ms) (first_dip_triggered ms)
    (monthly_deadline_triggered ms) (second_dip_triggered ms) true
    (triggers ms ++ [t]) (month_start_price ms) (month_end_price ms)
    (month_return ms) (max_decline ms) (trading_days ms).

Section WithLibraries.
Context {R : Rng}.
(** [Series.std()] of pandas. *)
Variable std : list float -> float.

(** [simulate_market_breadth]: the seed is set first, so it is set on the
    error path too. *)
Definition simulate_market_breadth (date_val : date) (volatility : pyvalue)
    (g : rng_state) : float * rng_state :=
  let seed := date_number date_val mod 10000 in
  let g1 := rng_seed seed in
  match volatility with
  | Num v =>
      let base_breadth := sub f30 (mul v f100) in
      let (variation, g2) := uniform fm15 f15 g1 in
      let breadth := py_max f5 (py_min f50 (add base_breadth variation)) in
      (breadth, g2)
  | NonNumeric => (f25, g1)
  end.

(** The volatility of the last five rows, as stage 3 computes it for the
    row at position [i] of the month. *)
Definition recent_volatility (monthly_data : list bar) (i : nat) : float :=
  if (5 <=? i)%nat then
    let lo := Nat.max 0 (i - 4) in
    let window := firstn (i + 1 - lo) (skipn lo monthly_data) in
    let recent_returns :=
      filter (fun x => negb (isna x)) (map bar_daily_return window) in
    if (1 <? length recent_returns)%nat then std recent_returns else f0_01
  else f0_01.

(** The three stages of the loop body, in source order. [fired ty breadth]
    builds the [trigger] dictionary of a stage that fires. *)
Definition stage_first (ms : month_state)
    (fired : trigger_type -> option float -> trigger)
    (current_date : date) (daily_return : float) : month_state :=
  if negb (first_dip_triggered ms)
     && negb (monthly_deadline_triggered ms)
     && leb daily_return fm0_01
  then fire_first_dip ms (fired first_dip None)
  else if negb (first_dip_triggered ms)
          && negb (monthly_deadline_triggered ms)
          && is_third_friday current_date
  then fire_monthly_deadline ms (fired monthly_deadline None)
  else ms.

Definition stage_second (ms : month_state)
    (fired : trigger_type -> option float -> trigger)
    (cumulative_decline : float) : month_state :=
  if negb (second_dip_triggered ms) && geb cumulative_decline f0_05
  then fire_second_dip ms (fired second_dip None)
  else ms.

Definition stage_third (ms : month_state)
    (fired : trigger_type -> option float -> trigger)
    (monthly_data : list bar) (i : nat) (current_date : date)
    (g : rng_state) : month_state * rng_state :=
  if second_dip_triggered ms && negb (third_dip_triggered ms) then
    let volatility := recent_volatility monthly_data i in
    let (market_breadth, g') :=
      simulate_market_breadth current_date (Num volatility) g in
    if ltb market_breadth f15
    then (fire_third_dip ms (fired third_dip (Some market_breadth)), g')
    else (ms, g')
  else (ms, g).

(** One iteration of the [for i, (idx, row) in enumerate(...)] loop. *)
Definition analyze_day (monthly_data : list bar) (i : nat) (row : bar)
    (acc : month_state * rng_state) : outcome (month_state * rng_state) :=
  let '(ms, g) := acc in
  let current_date := bar_date row in
  let current_close := bar_close row in
  let daily_return :=
    if negb (isna (bar_daily_return row)) then bar_daily_return row
    else zero in
  match month_start_price ms with
  | None => Raised
  | Some p =>
      match truediv (sub p current_close) p with
      | Raised => Raised
      | Returned cumulative_decline =>
          let ms :=
            set_max_decline ms (py_max (max_decline ms) cumulative_decline) in
          let fired (ty : trigger_type) (breadth : option float) :=
            mktrigger current_date ty daily_return current_close
              cumulative_decline breadth in
          let ms := stage_first ms fired current_date daily_return in
          let ms := stage_second ms fired cumulative_decline in
          Returned (stage_third ms fired monthly_data i current_date g)
      end
  end.

(** The loop over the rows still to visit, [i] being the position of the
    first of them. *)
Fixpoint analyze_days (monthly_data : list bar) (i : nat) (rows : list bar)
    (acc : month_state * rng_state) : outcome (month_state * rng_state) :=
  match rows with
  | [] => Returned acc
  | row :: rest =>
      match analyze_day monthly_data i row acc with
      | Returned acc' => analyze_days monthly_data (S i) rest acc'
      | Raised => Raised
      end
  end.

(** The dictionary as it stands when the loop starts: prices and the
    month's return are filled in, which raises on a zero opening price. *)
Definition month_state_at_start (monthly_data : list bar)
    (month_str : string) : outcome month_state :=
  match monthly_data with
  | [] => Raised
  | first :: rest =>
      let ms := initial_month_state month_str monthly_data in
      let p_start := bar_open first in
      let p_end := bar_close (last rest first) in
      match truediv (sub p_end p_start) p_start with
      | Returned ret => Returned (set_prices ms p_start p_end ret)
      | Raised => Raised
      end
  end.

(** [analyze_month]: [None] for an empty month and for any exception. *)
Definition analyze_month (monthly_data : list bar) (month_str : string)
    (g : rng_state) : option (month_state * rng_state) :=
  match monthly_data with
  | [] => None
  | _ :: _ =>
      match month_state_at_start monthly_data month_str with
      | Raised => None
      | Returned ms =>
          match analyze_days monthly_data 0 monthly_data (ms, g) with
          | Returned result => Some result
          | Raised => None
          end
      end
  end.

(** [self.trigger_summary] and the monitor's two accumulators, as
    [__init__] creates them. *)
Record summary : Type := mksummary {
  count_first_dip : nat;
  count_monthly_deadline : nat;
  count_second_dip : nat;
  count_third_dip : nat;
  total_months : nat
}.

Record backtest : Type := mkbacktest {
  backtest_results : list month_state;
  trigger_summary : summary
}.

Definition new_backtest : backtest :=
  {| backtest_results := [];
     trigger_summary := mksummary 0 0 0 0 0 |}.

(** [if flag: counter += 1]. *)
Definition bump (flag : bool) (n : nat) : nat := if flag then S n else n.

(** The body of [if month_result:] in [run_backtest]. *)
Definition record_month (bt : backtest) (month_result : month_state)
    : backtest :=
  let ts := trigger_summary bt in
  {| backtest_results := backtest_results bt ++ [month_result];
     trigger_summary :=
       {| count_first_dip :=
            bump (first_dip_triggered month_result) (count_first_dip ts);
          count_monthly_deadline :=
            bump (monthly_deadline_triggered month_result)
              (count_monthly_deadline ts);
          count_second_dip :=
            bump (second_dip_triggered month_result) (count_second_dip ts);
          count_third_dip :=
            bump (third_dip_triggered month_result) (count_third_dip ts);
          total_months := S (total_months ts) |} |}.

(** [df.groupby('year_month')] of pandas: the groups the loop visits, each
    with its key. *)
Variable groupby : list bar -> list (string * list bar).

(** One iteration of the loop over the groups. When [analyze_month]
    answers [None] it has failed before its own loop, so the generator is
    as it was. *)
Definition run_backtest_month (acc : backtest * rng_state)
    (group : string * list bar) : backtest * rng_state :=
  let '(bt, g) := acc in
  let '(month_str, monthly_data) := group in
  if (length monthly_data <? 5)%nat then (bt, g)
  else
    match analyze_month monthly_data month_str g with
    | Some (month_result, g') => (record_month bt month_result, g')
    | None => (bt, g)
    end.

(** [run_backtest], up to the report: [df] is what [get_historical_data]
    answered. *)
Definition run_backtest (bt : backtest) (df : list bar) (g : rng_state)
    : backtest * rng_state :=
  match df with
  | [] => (bt, g)
  | _ :: _ => fold_left run_backtest_month (groupby df) (bt, g)
  end.

End WithLibraries.

(** The records [save_backtest_results] writes to the CSV file: the
    month's base record, with the trigger's columns when the month has
    triggers. *)
Record detail : Type := mkdetail {
  d_month : string;
  d_month_start_price : option float;
  d_month_end_price : option float;
  d_month_return : float;
  d_max_decline : float;
  d_trading_days : nat;
  d_total_triggers : nat;
  d_trigger : option trigger
}.

Definition base_record (result : month_state) (t : option trigger) : detail :=
  {| d_month := month_label result;
     d_month_start_price := month_start_price result;
     d_month_end_price := month_end_price result;
     d_month_return := month_return result;
     d_max_decline := max_decline result;
     d_trading_days := trading_days result;
     d_total_triggers := length (triggers result);
     d_trigger := t |}.

Definition detailed_results (results : list month_state) : list detail :=
  flat_map
    (fun result =>
       match triggers result with
       | [] => [base_record result None]
       | _ :: _ => map (fun t => base_record result (Some t)) (triggers result)
       end)
    results.

(** The summary written to the JSON file. *)
Record saved_summary : Type := mksaved {
  backtest_summary : summary;
  total_triggers : nat;
  backtest_period : string
}.

Definition save_backtest_results (bt : backtest)
    : list detail * saved_summary :=
  let results := backtest_results bt in
  (detailed_results results,
   {| backtest_summary := trigger_summary bt;
      total_triggers := list_sum (map (fun r => length (triggers r)) results);
      backtest_period :=
        match results with
        | [] => "No data"
        | first :: rest =>
            (month_label first ++ " to " ++ month_label (last rest first))
              %string
        end |}).

(** The batch loop of [get_historical_data]. [candlesticks batch count]
    is what the request of iteration [batch] for [count] bars gives:
    the rows of the batch, or [Raised] when the request or a conversion
    raised. The loop is run for the [remaining] iterations; next to the
    rows collected it answers the counts it asked for, in order. *)
Section Batches.
Variable row : Type.
Variable candlesticks : nat -> Z -> outcome (list row).

Fixpoint fetch_batches (days : Z) (remaining batch : nat)
    (all_data : list row) (asked : list Z) : list row * list Z :=
  match remaining with
  | O => (all_data, asked)
  | S remaining' =>
      let count := Z.min 200 (days - Z.of_nat (length all_data)) in
      match candlesticks batch count with
      | Raised =>
          fetch_batches days remaining' (S batch) all_data (asked ++ [count])
      | Returned [] => (all_data, asked ++ [count])
      | Returned batch_data =>
          let all_data' := all_data ++ batch_data in
          if Z.of_nat (length all_data') >=? days
          then (all_data', asked ++ [count])
          else fetch_batches days remaining' (S batch) all_data'
                 (asked ++ [count])
      end
  end.

Definition batches_of (days : Z) : Z := Z.max (days / 200) 2.

Definition get_historical_batches (days : Z) : list row * list Z :=
  fetch_batches days (Z.to_nat (batches_of days)) 0 [] [].

End Batches.

End RSPBacktestMonitor.

(** ** Scenarios used to exercise the model *)

Module Scenarios.
Import RSPMonitor.

Definition f90 : float := S754_finite false 6333186975989760 (-46).
Definition f94 : float := S754_finite false 6614661952700416 (-46).
Definition f95 : float := S754_finite false 6685030696878080 (-46).
Definition f99 : float := S754_finite false 6966505673588736 (-46).

Definition jul31 : date := mkdate 2024 7 31.
Definition aug01 : date := mkdate 2024 8 1.
Definition aug02 : date := mkdate 2024 8 2.
Definition aug15 : date := mkdate 2024 8 15.
Definition aug16 : date := mkdate 2024 8 16.
Definition dec17_9999 : date := mkdate 9999 12 17.

(** A row whose high and low are its open and close. *)
Definition row (d : date) (p_open p_close ret : float) : bar :=
  mkbar d p_open p_open p_close p_close f100 ret.

(** A monitor in August 2024 that has fired the second stage only. *)
Definition st_second_fired : state :=
  {| current_month := "2024-08";
     first_dip_triggered := false;
     monthly_deadline_triggered := false;
     second_dip_triggered := true;
     third_dip_triggered := false;
     month_start_price := Some f100;
     month_low_price := Some f94;
     last_check_date := "2024-08-14";
     monthly_returns := [] |}.

Definition df_aug15 : list bar := [row aug15 f95 f95 zero].

(** The first two trading days of August, the monitor first run on the
    second. *)
Definition df_aug02 : list bar :=
  [row aug01 f100 f99 S754_nan; row aug02 f90 f90 zero].

(** A monitor left in July with a fired first stage, and a frame that
    ends on July 31st. *)
Definition st_july : state :=
  {| current_month := "2024-07";
     first_dip_triggered := true;
     monthly_deadline_triggered := false;
     second_dip_triggered := false;
     third_dip_triggered := false;
     month_start_price := Some f100;
     month_low_price := Some f95;
     last_check_date := "2024-07-31";
     monthly_returns := [] |}.

Definition df_jul31 : list bar := [row jul31 f99 f95 zero].

(** A month of six rows falling five percent and more. *)
Definition df_august : list bar :=
  [row aug01 f100 f99 S754_nan; row aug02 f99 f95 fm0_02;
   row (mkdate 2024 8 5) f95 f94 zero; row (mkdate 2024 8 6) f94 f94 zero;
   row (mkdate 2024 8 7) f94 f94 zero; row (mkdate 2024 8 8) f94 f90 zero].

(** A generator whose every draw is one eighth. *)
Definition eighth_rng : Rng := constant_rng f0_125.

End Scenarios.

(** Whether a trigger type resolves stage 1, and how many triggers of a
    list do. *)
Definition is_stage_one (ty : trigger_type) : bool :=
  match ty with
  | first_dip | monthly_deadline => true
  | second_dip | third_dip => false
  end.

Definition stage_one_count (ts : list trigger) : nat :=
  length (filter is_stage_one (map t_type ts)).

(** Stage 1 of the month is resolved at most one way, and the trigger list
    holds one stage-1 entry exactly when it is resolved. *)
Definition resolved_once (ms : RSPBacktestMonitor.month_state) : Prop :=
  RSPBacktestMonitor.first_dip_triggered ms && RSPBacktestMonitor.monthly_deadline_triggered ms = false
  /\ stage_one_count (RSPBacktestMonitor.triggers ms)
     = if RSPBacktestMonitor.first_dip_triggered ms || RSPBacktestMonitor.monthly_deadline_triggered ms
       then 1%nat else 0%nat.

(** A stand-in for [Series.std] that answers 0.01 on every window. *)
Definition flat_std : list float -> float := fun _ => f0_01.

(** Python's truth value of [state['month_start_price']] negated: the key
    holds [None] or a zero. *)
Definition price_unset (p : option float) : bool :=
  match p with
  | None => true
  | Some x => negb (truthy x)
  end.

(** [today_data.iloc[-1]] when [today_data] is not empty. *)
Definition todays_row (df : list bar) (today : date) : option bar :=
  match filter (fun b => date_eqb (bar_date b) today) df with
  | [] => None
  | r0 :: rest => Some (last rest r0)
  end.

(** The days of a month of [dim] days whose first day has weekday [w] that
    fall on a Friday, in ascending order, and the day the third of them
    falls on. *)
Definition friday_days (w dim : Z) : list Z :=
  filter (fun k => (w + (k - 1)) mod 7 =? 4)
    (map Z.of_nat (seq 1 (Z.to_nat dim))).

Definition third_friday_day (w : Z) : Z := (4 - w) mod 7 + 15.

(** The float a rounded mantissa [m], between 0 and [2 ^ 53], and its
    exponent [e] stand for: a mantissa of 54 bits is halved, and an
    exponent above 971 overflows to an infinity. *)
Definition finalize (sx : bool) (m e : Z) : float :=
  if m =? 0 then S754_zero sx
  else if m =? 2 ^ 53 then
    if e + 1 <=? 971 then S754_finite sx (Z.to_pos (2 ^ 52)) (e + 1)
    else S754_infinity sx
  else
    if e <=? 971 then S754_finite sx (Z.to_pos m) e
    else S754_infinity sx.

(** A float that is zero or above: a zero of either sign, a positive
    finite number or the positive infinity. *)
Definition nonneg (x : float) : Prop :=
  match x with
  | S754_zero _ | S754_infinity false | S754_finite false _ _ => True
  | _ => False
  end.

(** A float that is -10 or above: as before, or a negative finite number
    [m * 2 ^ e] of magnitude at most 10, with the exponent every binary64
    below 16 has. *)
Definition at_least_m10 (x : float) : Prop :=
  match x with
  | S754_zero _ | S754_infinity false | S754_finite false _ _ => True
  | S754_finite true m e => e <= -49 /\ Zpos m <= 10 * 2 ^ (- e)
  | _ => False
  end.

(** The stage of the plan a trigger type belongs to, how many triggers of
    a list belong to a stage, and whether the state dictionary records the
    stage as done for the month. *)
Definition stage_of (ty : trigger_type) : nat :=
  match ty with
  | first_dip | monthly_deadline => 1
  | second_dip => 2
  | third_dip => 3
  end.

Definition stage_count (s : nat) (ts : list trigger) : nat :=
  length (filter (fun ty => Nat.eqb (stage_of ty) s) (map t_type ts)).

Definition stage_done (s : nat) (st : RSPMonitor.state) : bool :=
  match s with
  | 1%nat => RSPMonitor.first_dip_triggered st
             || RSPMonitor.monthly_deadline_triggered st
  | 2%nat => RSPMonitor.second_dip_triggered st
  | 3%nat => RSPMonitor.third_dip_triggered st
  | _ => false
  end.

(** The flag of the state dictionary that a trigger type sets. *)
Definition flag_of (ty : trigger_type) (st : RSPMonitor.state) : bool :=
  match ty with
  | first_dip => RSPMonitor.first_dip_triggered st
  | monthly_deadline => RSPMonitor.monthly_deadline_triggered st
  | second_dip => RSPMonitor.second_dip_triggered st
  | third_dip => RSPMonitor.third_dip_triggered st
  end.

(** Two state dictionaries that differ at most in [last_check_date] and
    [monthly_returns]. *)
Definition same_month_record (a b : RSPMonitor.state) : Prop :=
  RSPMonitor.current_month a = RSPMonitor.current_month b
  /\ RSPMonitor.first_dip_triggered a = RSPMonitor.first_dip_triggered b
  /\ RSPMonitor.monthly_deadline_triggered a
     = RSPMonitor.monthly_deadline_triggered b
  /\ RSPMonitor.second_dip_triggered a = RSPMonitor.second_dip_triggered b
  /\ RSPMonitor.third_dip_triggered a = RSPMonitor.third_dip_triggered b
  /\ RSPMonitor.month_start_price a = RSPMonitor.month_start_price b
  /\ RSPMonitor.month_low_price a = RSPMonitor.month_low_price b.

(** The record of stage [s] for the month [month_key] that a run of the
    program finds in the state file: 1 when the file is of that month and
    has the stage done, else 0. *)
Definition carried (month_key : string) (s : nat)
    (file : RSPMonitor.state_file) : nat :=
  if String.eqb (RSPMonitor.current_month (RSPMonitor.load_state file))
       month_key
  then Nat.b2n (stage_done s (RSPMonitor.load_state file)) else 0%nat.

(** How many triggers of a list have a given type, and the flag of the
    backtest's month dictionary that the type sets. *)
Definition trigger_type_eqb (a b : trigger_type) : bool :=
  match a, b with
  | first_dip, first_dip | monthly_deadline, monthly_deadline
  | second_dip, second_dip | third_dip, third_dip => true
  | _, _ => false
  end.

Definition type_count (ty : trigger_type) (ts : list trigger) : nat :=
  length (filter (trigger_type_eqb ty) (map t_type ts)).

Definition month_flag_of (ty : trigger_type)
    (ms : RSPBacktestMonitor.month_state) : bool :=
  match ty with
  | first_dip => RSPBacktestMonitor.first_dip_triggered ms
  | monthly_deadline => RSPBacktestMonitor.monthly_deadline_triggered ms
  | second_dip => RSPBacktestMonitor.second_dip_triggered ms
  | third_dip => RSPBacktestMonitor.third_dip_triggered ms
  end.

(** What makes a trigger of a backtest month legitimate: it is dated on a
    row of the month and carries that row's close and daily return (0 for
    a missing one) and the decline of the close from the start price [p];
    and the condition of its type held on that row. *)
Definition justified (monthly_data : list bar) (p : float) (t : trigger)
    : Prop :=
  exists row,
    In row monthly_data
    /\ t_date t = bar_date row
    /\ t_price t = bar_close row
    /\ t_daily_return t
       = (if isna (bar_daily_return row) then zero else bar_daily_return row)
    /\ t_cumulative_decline t = div (sub p (bar_close row)) p
    /\ match t_type t with
       | first_dip =>
           leb (t_daily_return t) fm0_01 = true
           /\ t_market_breadth t = None
       | monthly_deadline =>
           leb (t_daily_return t) fm0_01 = false
           /\ is_third_friday (t_date t) = true
           /\ t_market_breadth t = None
       | second_dip =>
           geb (t_cumulative_decline t) f0_05 = true
           /\ t_market_breadth t = None
       | third_dip =>
           exists breadth,
             t_market_breadth t = Some breadth
             /\ leb f5 breadth = true
             /\ ltb breadth f15 = true
       end.

(** A month result as [analyze_month] builds them and [run_backtest]
    keeps them: stage 1 resolved one way at most, stage 3 only after
    stage 2, one trigger per flag set, and at least five rows. *)
Definition well_formed_month (ms : RSPBacktestMonitor.month_state) : Prop :=
  RSPBacktestMonitor.first_dip_triggered ms
  && RSPBacktestMonitor.monthly_deadline_triggered ms = false
  /\ negb (RSPBacktestMonitor.third_dip_triggered ms)
     || RSPBacktestMonitor.second_dip_triggered ms = true
  /\ length (RSPBacktestMonitor.triggers ms)
     = (Nat.b2n (RSPBacktestMonitor.first_dip_triggered ms)
        + Nat.b2n (RSPBacktestMonitor.monthly_deadline_triggered ms)
        + Nat.b2n (RSPBacktestMonitor.second_dip_triggered ms)
        + Nat.b2n (RSPBacktestMonitor.third_dip_triggered ms))%nat
  /\ (5 <= RSPBacktestMonitor.trading_days ms)%nat.

(** How many results have a flag set. *)
Definition months_with (flag : RSPBacktestMonitor.month_state -> bool)
    (results : list RSPBacktestMonitor.month_state) : nat :=
  length (filter flag results).

(** The counters of the summary agree with the list of results, and every
    result is well formed. *)
Definition backtest_consistent (bt : RSPBacktestMonitor.backtest) : Prop :=
  let ts := RSPBacktestMonitor.trigger_summary bt in
  let results := RSPBacktestMonitor.backtest_results bt in
  RSPBacktestMonitor.total_months ts = length results
  /\ RSPBacktestMonitor.count_first_dip ts
     = months_with RSPBacktestMonitor.first_dip_triggered results
  /\ RSPBacktestMonitor.count_monthly_deadline ts
     = months_with RSPBacktestMonitor.monthly_deadline_triggered results
  /\ RSPBacktestMonitor.count_second_dip ts
     = months_with RSPBacktestMonitor.second_dip_triggered results
  /\ RSPBacktestMonitor.count_third_dip ts
     = months_with RSPBacktestMonitor.third_dip_triggered results
  /\ Forall well_formed_month results.

(** A fixed stand-in for [groupby]: the whole frame as the one group of
    August 2024. *)
Definition one_group (df : list bar) : list (string * list bar) :=
  [("2024-08"%string, df)].

(** A quote service that answers the [count] latest of 250 rows and
    refuses a negative count. *)
Definition latest_of_250 (batch : nat) (count : Z) : outcome (list nat) :=
  if count <? 0 then Raised
  else Returned (firstn (Z.to_nat count) (seq 0 250)).

(** The triggers the rows of the CSV file carry, in order, and whether a
    month result has none. *)
Definition row_triggers (rows : list RSPBacktestMonitor.detail)
    : list trigger :=
  flat_map
    (fun d =>
       match RSPBacktestMonitor.d_trigger d with
       | Some t => [t]
       | None => []
       end)
    rows.

Definition no_triggers (r : RSPBacktestMonitor.month_state) : bool :=
  match RSPBacktestMonitor.triggers r with
  | [] => true
  | _ :: _ => false
  end.

(** A quote service that answers no more rows than it is asked for. *)
Definition honours_count {row : Type}
    (candlesticks : nat -> Z -> outcome (list row)) : Prop :=
  forall batch count,
    match candlesticks batch count with
    | Returned batch_data => Z.of_nat (length batch_data) <= count
    | Raised => True
    end.

(** A generator whose state is a counter started at the seed and whose
    draw is one eighth on even counts, zero on odd ones. *)
Definition parity_rng : Rng :=
  {| rng_state := Z;
     rng_seed := fun n => n;
     rng_random := fun g => (if Z.even g then f0_125 else zero, g + 1) |}.





(** * Properties *)

(** ** The model at work *)

Module Checks.

(** The literals are the floats the decimal notation denotes: each is the
    correctly rounded quotient or the exact integer. *)
Example literal_0_05 : div (of_Z 5) (of_Z 100) = f0_05.
Proof. vm_compute. reflexivity. Qed.

Example literal_0_01 : div (of_Z 1) (of_Z 100) = f0_01.
Proof. vm_compute. reflexivity. Qed.

Example literal_m0_01 : div (of_Z (-1)) (of_Z 100) = fm0_01.
Proof. vm_compute. reflexivity. Qed.

Example literal_integers :
  map of_Z [1; 5; 10; -10; 15; -15; 20; 25; 30; 45; 50; 100]
  = [f1; f5; f10; fm10; f15; fm15; f20; f25; f30; f45; f50; f100].
Proof. vm_compute. reflexivity. Qed.

Example literal_0_125 : div (of_Z 1) (of_Z 8) = f0_125.
Proof. vm_compute. reflexivity. Qed.

Example weekday_2024_08_16 : weekday Scenarios.aug16 = 4.
Proof. reflexivity. Qed.

Example ordinal_2024_08_16 : toordinal Scenarios.aug16 = 739114.
Proof. reflexivity. Qed.

Example stamp_2024_08_16 :
  strftime_Ymd Scenarios.aug16 = "2024-08-16"%string
  /\ strftime_Ym Scenarios.aug16 = "2024-08"%string.
Proof. split; reflexivity. Qed.

(** A first run on August 2nd, 2024 with a day's fall of 2 percent on a
    month that opened at 100 and now stands at 90: the first and the
    second stage fire, in this order, and the lookup that raises keeps the
    third from firing. *)
Example first_and_second_stage_fire :
  map t_type
    (RSPMonitor.messages
       (RSPMonitor.check_triggers RSPMonitor.default_state
          [Scenarios.row Scenarios.aug01 f100 Scenarios.f99 S754_nan;
           Scenarios.row Scenarios.aug02 Scenarios.f99 Scenarios.f90 fm0_02]
          Scenarios.aug02 Raised))
  = [first_dip; second_dip].
Proof. vm_compute. reflexivity. Qed.

(** A flat month reaches its third Friday with no flag set: the deadline
    fires, alone. *)
Example deadline_fires_on_third_friday :
  map t_type
    (RSPMonitor.messages
       (RSPMonitor.check_triggers RSPMonitor.default_state
          [Scenarios.row Scenarios.aug01 f100 f100 S754_nan;
           Scenarios.row Scenarios.aug16 f100 f100 zero]
          Scenarios.aug16 Raised))
  = [monthly_deadline].
Proof. vm_compute. reflexivity. Qed.

(** The backtest on six rows of August 2024: the fall of 2 percent on the
    second row fires the first stage, the close of 95 against an open of
    100 the second; the simulated breadth stays at 15 or above. *)
Example backtest_of_august :
  option_map
    (fun r => map t_type (RSPBacktestMonitor.triggers (fst r)))
    (@RSPBacktestMonitor.analyze_month Scenarios.eighth_rng flat_std
       Scenarios.df_august "2024-08" tt)
  = Some [first_dip; second_dip].
Proof. vm_compute. reflexivity. Qed.

End Checks.

(** ** The live monitor *)

Module LiveFacts.
Import RSPMonitor.

Lemma evaluate_transition st today row call :
  let today_return :=
    if negb (isna (bar_daily_return row)) then bar_daily_return row
    else zero in
  let decline := cumulative_decline_of st (bar_close row) in
  let fired ty breadth :=
    mktrigger today ty today_return (bar_close row) decline breadth in
  let dip := leb today_return fm0_01 in
  let friday := is_third_friday today in
  let deep := geb decline f0_05 in
  let breadth := get_market_breadth call in
  let open1 :=
    negb (first_dip_triggered st) && negb (monthly_deadline_triggered st) in
  let r := evaluate st today row call in
  first_dip_triggered (state_after r)
    = first_dip_triggered st || (open1 && dip)
  /\ monthly_deadline_triggered (state_after r)
    = monthly_deadline_triggered st || (open1 && negb dip && friday)
  /\ second_dip_triggered (state_after r) = second_dip_triggered st || deep
  /\ third_dip_triggered (state_after r)
    = third_dip_triggered st
      || ((second_dip_triggered st || deep) && ltb breadth f15)
  /\ messages r
    = (if open1 && dip then [fired first_dip None]
       else if open1 && friday then [fired monthly_deadline None] else [])
      ++ (if negb (second_dip_triggered st) && deep
          then [fired second_dip None] else [])
      ++ (if (second_dip_triggered st || deep)
             && negb (third_dip_triggered st) && ltb breadth f15
          then [fired third_dip (Some breadth)] else [])
  /\ month_start_price (state_after r) = month_start_price st
  /\ current_month (state_after r) = current_month st
  /\ saved r = Some (state_after r).
Proof.
  intros today_return decline fired dip friday deep breadth open1 r.
  assert (Hdec : cumulative_decline_of (update_month_low st (bar_close row))
                   (bar_close row) = decline).
  { unfold decline, cumulative_decline_of, update_month_low.
    destruct (month_low_price st); reflexivity. }
  subst r. unfold evaluate. fold today_return. rewrite Hdec. fold fired.
  unfold stage_first. fold dip friday.
  assert (Hlow : forall c, first_dip_triggered (update_month_low st c) = first_dip_triggered st
     /\ monthly_deadline_triggered (update_month_low st c) = monthly_deadline_triggered st
     /\ second_dip_triggered (update_month_low st c) = second_dip_triggered st
     /\ third_dip_triggered (update_month_low st c) = third_dip_triggered st
     /\ month_start_price (update_month_low st c) = month_start_price st
     /\ current_month (update_month_low st c) = current_month st).
  { intros c. unfold update_month_low. destruct (month_low_price st); cbn; auto 7. }
  destruct (Hlow (bar_close row)) as (L1 & L2 & L3 & L4 & L5 & L6).
  generalize dependent (update_month_low st (bar_close row)). intros st1 _ L1 L2 L3 L4 L5 L6.
  rewrite L1, L2. fold open1.
  unfold stage_second, stage_third. fold deep breadth.
  clearbody dip friday deep breadth fired. 
  destruct st as [cm fd md sd td msp mlp lcd mr], st1 as [cm1 fd1 md1 sd1 td1 msp1 mlp1 lcd1 mr1].
  cbn in L1, L2, L3, L4, L5, L6, open1. subst. subst open1.
  generalize (ltb breadth f15) (strftime_Ymd today). intros low stamp.
  destruct fd, md, sd, td, dip, friday, deep, low; cbn; repeat split.
Qed.
End LiveFacts.

(** ** The backtest *)

Module BacktestFacts.
Import RSPBacktestMonitor.

Section WithLibraries.
Context {R : Rng}.
Variable std : list float -> float.

Lemma analyze_day_transition monthly_data i row ms g ms' g' :
  analyze_day std monthly_data i row (ms, g) = Returned (ms', g') ->
  exists p decline,
    month_start_price ms = Some p
    /\ truediv (sub p (bar_close row)) p = Returned decline
    /\ let daily_return :=
         if negb (isna (bar_daily_return row)) then bar_daily_return row
         else zero in
       let fired ty breadth :=
         mktrigger (bar_date row) ty daily_return (bar_close row) decline
           breadth in
       let dip := leb daily_return fm0_01 in
       let friday := is_third_friday (bar_date row) in
       let deep := geb decline f0_05 in
       let breadth :=
         fst (simulate_market_breadth (bar_date row)
                (Num (recent_volatility std monthly_data i)) g) in
       let open1 :=
         negb (first_dip_triggered ms)
         && negb (monthly_deadline_triggered ms) in
       first_dip_triggered ms' = first_dip_triggered ms || (open1 && dip)
       /\ monthly_deadline_triggered ms'
          = monthly_deadline_triggered ms || (open1 && negb dip && friday)
       /\ second_dip_triggered ms' = second_dip_triggered ms || deep
       /\ third_dip_triggered ms'
          = third_dip_triggered ms
            || ((second_dip_triggered ms || deep) && ltb breadth f15)
       /\ triggers ms'
          = triggers ms
            ++ (if open1 && dip then [fired first_dip None]
                else if open1 && friday then [fired monthly_deadline None]
                else [])
            ++ (if negb (second_dip_triggered ms) && deep
                then [fired second_dip None] else [])
            ++ (if (second_dip_triggered ms || deep)
                   && negb (third_dip_triggered ms) && ltb breadth f15
                then [fired third_dip (Some breadth)] else [])
       /\ month_start_price ms' = month_start_price ms.
Proof.
  unfold analyze_day.
  destruct (month_start_price ms) as [p|] eqn:Hp; [|discriminate].
  destruct (truediv (sub p (bar_close row)) p) as [decline|] eqn:Hd;
    [|discriminate].
  intros H. injection H as H. exists p, decline.
  split; [reflexivity|]. split; [exact Hd|].
  revert H. unfold stage_third, stage_second, stage_first.
  destruct (simulate_market_breadth (bar_date row)
              (Num (recent_volatility std monthly_data i)) g)
    as [breadth g2] eqn:Hb.
  cbn [fst].
  generalize (ltb breadth f15) (is_third_friday (bar_date row))
    (geb decline f0_05).
  generalize (py_max (max_decline ms) decline).
  generalize (if negb (isna (bar_daily_return row))
              then bar_daily_return row else zero).
  intros ret mx low friday deep.
  generalize (leb ret fm0_01). intros dip.
  destruct ms as [lbl fd md sd td ts msp mep mret mdec days].
  cbn in Hp. subst msp.
  destruct fd, md, sd, td, dip, friday, deep, low; cbn;
    intros H; injection H as <- <-; cbn;
    rewrite <- ?app_assoc, ?app_nil_r; repeat split.
Qed.

End WithLibraries.
End BacktestFacts.

(** ** The daily check as a whole *)

Module CheckFacts.
Import RSPMonitor LiveFacts.

Lemma last_cons_default {A : Type} (l : list A) (a d : A) :
  last (a :: l) d = last l a.
Proof.
  revert a d. induction l as [|b l IH]; intros a d; [reflexivity|].
  change (last (a :: b :: l) d) with (last (b :: l) d).
  rewrite (IH b d), (IH b a). reflexivity.
Qed.

Lemma last_in_cons {A : Type} (l : list A) (a : A) : In (last l a) (a :: l).
Proof.
  revert a. induction l as [|b l IH]; intros a; [left; reflexivity|].
  right. rewrite last_cons_default. apply IH.
Qed.

(** The three ways a daily check ends. *)
Lemma check_triggers_cases st df today call :
  (df = [] /\ check_triggers st df today call = mkrun st [] None)
  \/ (df <> []
      /\ filter (fun b => date_eqb (bar_date b) today) df = []
      /\ check_triggers st df today call
         = mkrun (month_rollover st df today) [] None)
  \/ (exists row,
        In row df /\ date_eqb (bar_date row) today = true
        /\ check_triggers st df today call
           = evaluate (month_rollover st df today) today row call).
Proof.
  unfold check_triggers. destruct df as [|b df']; [left; auto|].
  right.
  destruct (filter _ (b :: df')) as [|r0 rest] eqn:Hf.
  - left. repeat split. discriminate.
  - right. exists (last rest r0).
    pose proof (last_in_cons rest r0) as Hin.
    rewrite <- Hf in Hin. apply filter_In in Hin.
    destruct Hin as [Hin Hd]. auto.
Qed.

(** The month check either leaves the dictionary alone or clears the four
    flags. *)
Lemma month_rollover_cases st df today :
  (current_month st = strftime_Ym today /\ month_rollover st df today = st)
  \/ (current_month st <> strftime_Ym today
      /\ current_month (month_rollover st df today) = strftime_Ym today
      /\ first_dip_triggered (month_rollover st df today) = false
      /\ monthly_deadline_triggered (month_rollover st df today) = false
      /\ second_dip_triggered (month_rollover st df today) = false
      /\ third_dip_triggered (month_rollover st df today) = false
      /\ month_start_price (month_rollover st df today)
         = option_map bar_open
             (hd_error
                (filter (fun b => String.eqb (strftime_Ym (bar_date b))
                                    (strftime_Ym today)) df))
      /\ last_check_date (month_rollover st df today) = last_check_date st).
Proof.
  unfold month_rollover.
  destruct (String.eqb (current_month st) (strftime_Ym today)) eqn:E.
  - left. apply String.eqb_eq in E. auto.
  - right. apply String.eqb_neq in E. split; [exact E|].
    destruct (filter _ df); cbn; auto 8.
Qed.

Lemma month_rollover_current st df today :
  current_month (month_rollover st df today) = strftime_Ym today.
Proof.
  destruct (month_rollover_cases st df today) as [[H ->]|[_ [H _]]]; auto.
Qed.

Lemma month_rollover_idem st df today :
  month_rollover (month_rollover st df today) df today
  = month_rollover st df today.
Proof.
  destruct (month_rollover_cases (month_rollover st df today) df today)
    as [[_ H]|[H _]]; [exact H|].
  elim H. apply month_rollover_current.
Qed.

End CheckFacts.

(** ** Invariants of a month's evaluation sequence *)

Module Invariants.

(** A property of the month dictionary that holds when the loop starts and
    that every iteration keeps, holds when [analyze_month] returns. *)
Section BacktestInduction.
Import RSPBacktestMonitor BacktestFacts.
Context {R : Rng}.
Variable std : list float -> float.
Variable P : month_state -> Prop.
Hypothesis P_step :
  forall monthly_data i row ms g ms' g',
    P ms ->
    analyze_day std monthly_data i row (ms, g) = Returned (ms', g') ->
    P ms'.

Lemma analyze_days_invariant monthly_data rows :
  forall i acc acc',
    P (fst acc) ->
    analyze_days std monthly_data i rows acc = Returned acc' ->
    P (fst acc').
Proof.
  induction rows as [|row rest IH]; intros i acc acc' Hacc Hrun.
  - cbn in Hrun. injection Hrun as <-. exact Hacc.
  - cbn in Hrun.
    destruct (analyze_day std monthly_data i row acc) as [[ms1 g1]|] eqn:Hday;
      [|discriminate].
    destruct acc as [ms g].
    apply (IH (S i) (ms1, g1) acc'); [|exact Hrun].
    apply (P_step monthly_data i row ms g ms1 g1); assumption.
Qed.

Hypothesis P_start :
  forall monthly_data month_str ms,
    month_state_at_start monthly_data month_str = Returned ms -> P ms.

Lemma analyze_month_invariant monthly_data month_str g ms g' :
  analyze_month std monthly_data month_str g = Some (ms, g') -> P ms.
Proof.
  unfold analyze_month. destruct monthly_data as [|first rest] eqn:Hd;
    [discriminate|]. rewrite <- Hd.
  destruct (month_state_at_start monthly_data month_str) as [ms0|] eqn:Hs;
    [|discriminate].
  destruct (analyze_days std monthly_data 0 monthly_data (ms0, g))
    as [acc|] eqn:Hrun; [|discriminate].
  intros H. injection H as ->.
  apply (analyze_days_invariant monthly_data monthly_data 0 (ms0, g) (ms, g'));
    [exact (P_start _ _ _ Hs) | exact Hrun].
Qed.

End BacktestInduction.

Lemma month_state_at_start_flags monthly_data month_str ms :
  RSPBacktestMonitor.month_state_at_start monthly_data month_str = Returned ms ->
  RSPBacktestMonitor.first_dip_triggered ms = false
  /\ RSPBacktestMonitor.monthly_deadline_triggered ms = false
  /\ RSPBacktestMonitor.second_dip_triggered ms = false
  /\ RSPBacktestMonitor.third_dip_triggered ms = false
  /\ RSPBacktestMonitor.triggers ms = []
  /\ exists first rest,
       monthly_data = first :: rest
       /\ RSPBacktestMonitor.month_start_price ms = Some (bar_open first).
Proof.
  unfold RSPBacktestMonitor.month_state_at_start.
  destruct monthly_data as [|first rest]; [discriminate|].
  destruct (truediv _ _); [|discriminate].
  intros H. injection H as <-. cbn. repeat split; eauto.
Qed.

Lemma stage_one_count_app ts us :
  stage_one_count (ts ++ us) = (stage_one_count ts + stage_one_count us)%nat.
Proof.
  unfold stage_one_count. rewrite map_app, filter_app, length_app.
  reflexivity.
Qed.

End Invariants.

(** ** Stage 1 resolves at most once; stage 3 follows stage 2 *)

Module Ordering.
Import Invariants.

Section Live.
Import RSPMonitor LiveFacts CheckFacts.

(** The types of the messages of one evaluation, in order. *)
Lemma evaluate_message_types st today row call :
  let today_return :=
    if negb (isna (bar_daily_return row)) then bar_daily_return row
    else zero in
  let dip := leb today_return fm0_01 in
  let friday := is_third_friday today in
  let deep := geb (cumulative_decline_of st (bar_close row)) f0_05 in
  let low := ltb (get_market_breadth call) f15 in
  let open1 :=
    negb (first_dip_triggered st) && negb (monthly_deadline_triggered st) in
  map t_type (messages (evaluate st today row call))
  = (if open1 && dip then [first_dip]
     else if open1 && friday then [monthly_deadline] else [])
    ++ (if negb (second_dip_triggered st) && deep then [second_dip] else [])
    ++ (if (second_dip_triggered st || deep)
           && negb (third_dip_triggered st) && low
        then [third_dip] else []).
Proof.
  intros today_return dip friday deep low open1.
  destruct (evaluate_transition st today row call)
    as (_ & _ & _ & _ & Hm & _).
  rewrite Hm. fold today_return dip friday deep low open1.
  rewrite !map_app.
  destruct (open1 && dip), (open1 && friday),
    (negb (second_dip_triggered st) && deep),
    ((second_dip_triggered st || deep) && negb (third_dip_triggered st)
     && low); reflexivity.
Qed.

Lemma evaluate_exclusive st today row call :
  first_dip_triggered st && monthly_deadline_triggered st = false ->
  let r := evaluate st today row call in
  first_dip_triggered (state_after r)
  && monthly_deadline_triggered (state_after r) = false
  /\ (stage_one_count (messages r) <= 1)%nat
  /\ (first_dip_triggered st || monthly_deadline_triggered st = true ->
      stage_one_count (messages r) = 0%nat).
Proof.
  intros Hinv r. subst r.
  destruct (evaluate_transition st today row call)
    as (Hf & Hd & _).
  unfold stage_one_count. rewrite evaluate_message_types, Hf, Hd.
  clear Hf Hd. revert Hinv.
  generalize (leb (if negb (isna (bar_daily_return row))
                   then bar_daily_return row else zero) fm0_01)
    (is_third_friday today)
    (geb (cumulative_decline_of st (bar_close row)) f0_05)
    (ltb (get_market_breadth call) f15).
  intros dip friday deep low.
  destruct (first_dip_triggered st), (monthly_deadline_triggered st),
    (second_dip_triggered st), (third_dip_triggered st),
    dip, friday, deep, low; cbn; intros H; repeat split;
    try discriminate; try lia; auto.
Qed.

Lemma evaluate_third_after_second st today row call :
  negb (third_dip_triggered st) || second_dip_triggered st = true ->
  let r := evaluate st today row call in
  negb (third_dip_triggered (state_after r))
  || second_dip_triggered (state_after r) = true.
Proof.
  intros Hinv r. subst r.
  destruct (evaluate_transition st today row call)
    as (_ & _ & Hs & Ht & _).
  rewrite Hs, Ht. clear Hs Ht. revert Hinv.
  generalize (geb (cumulative_decline_of st (bar_close row)) f0_05)
    (ltb (get_market_breadth call) f15).
  intros deep low.
  destruct (second_dip_triggered st), (third_dip_triggered st), deep, low;
    cbn; auto.
Qed.

(** What the daily check does to a property of the four flags that the
    month reset establishes and an evaluation keeps. *)
Lemma check_triggers_invariant (P : state -> Prop) :
  (forall st df today,
     current_month st <> strftime_Ym today ->
     P (month_rollover st df today)) ->
  (forall st today row call,
     P st -> P (state_after (evaluate st today row call))) ->
  forall st df today call,
    P st -> P (state_after (check_triggers st df today call)).
Proof.
  intros Hreset Heval st df today call Hst.
  assert (Hroll : P (month_rollover st df today)).
  { destruct (month_rollover_cases st df today) as [[_ ->]|[Hne _]]; auto. }
  destruct (check_triggers_cases st df today call)
    as [[_ ->]|[(_ & _ & ->)|(row & _ & _ & ->)]]; cbn; auto.
Qed.

Lemma check_triggers_exclusive st df today call :
  first_dip_triggered st && monthly_deadline_triggered st = false ->
  first_dip_triggered (state_after (check_triggers st df today call))
  && monthly_deadline_triggered (state_after (check_triggers st df today call))
  = false.
Proof.
  apply (check_triggers_invariant
           (fun s => first_dip_triggered s && monthly_deadline_triggered s
                     = false)).
  - intros s d t Hne.
    destruct (month_rollover_cases s d t) as [[He _]|(_ & _ & -> & _)];
      [contradiction|reflexivity].
  - intros s t row c Hs. apply (evaluate_exclusive s t row c Hs).
Qed.

Lemma check_triggers_third_after_second st df today call :
  negb (third_dip_triggered st) || second_dip_triggered st = true ->
  negb (third_dip_triggered (state_after (check_triggers st df today call)))
  || second_dip_triggered (state_after (check_triggers st df today call))
  = true.
Proof.
  apply (check_triggers_invariant
           (fun s => negb (third_dip_triggered s) || second_dip_triggered s
                     = true)).
  - intros s d t Hne.
    destruct (month_rollover_cases s d t)
      as [[He _]|(_ & _ & _ & _ & _ & -> & _)];
      [contradiction|reflexivity].
  - intros s t row c Hs. apply (evaluate_third_after_second s t row c Hs).
Qed.

Lemma check_triggers_stage_one_messages st df today call :
  first_dip_triggered st && monthly_deadline_triggered st = false ->
  (stage_one_count (messages (check_triggers st df today call)) <= 1)%nat.
Proof.
  intros Hinv.
  destruct (check_triggers_cases st df today call)
    as [[_ ->]|[(_ & _ & ->)|(row & _ & _ & ->)]]; cbn; try lia.
  apply evaluate_exclusive.
  destruct (month_rollover_cases st df today)
    as [[_ ->]|(_ & _ & -> & _)]; auto.
Qed.

End Live.

Section Backtest.
Import RSPBacktestMonitor BacktestFacts.
Context {R : Rng}.
Variable std : list float -> float.

Lemma analyze_day_resolved_once monthly_data i row ms g ms' g' :
  resolved_once ms ->
  analyze_day std monthly_data i row (ms, g) = Returned (ms', g') ->
  resolved_once ms'.
Proof.
  intros [Hx Hc] Hday.
  destruct (analyze_day_transition std _ _ _ _ _ _ _ Hday)
    as (p & decline & _ & _ & Hf & Hd & _ & _ & Ht & _).
  unfold resolved_once. rewrite Hf, Hd, Ht, !stage_one_count_app, Hc.
  clear Hf Hd Ht Hc Hday. revert Hx.
  generalize (leb (if negb (isna (bar_daily_return row))
                   then bar_daily_return row else zero) fm0_01)
    (is_third_friday (bar_date row)) (geb decline f0_05).
  generalize (ltb (fst (simulate_market_breadth (bar_date row)
                          (Num (recent_volatility std monthly_data i)) g))
                f15).
  intros low dip friday deep.
  destruct (first_dip_triggered ms), (monthly_deadline_triggered ms),
    (second_dip_triggered ms), (third_dip_triggered ms),
    dip, friday, deep, low; cbn; intros H; split;
    try discriminate; reflexivity.
Qed.

Lemma analyze_day_third_after_second monthly_data i row ms g ms' g' :
  negb (third_dip_triggered ms) || second_dip_triggered ms = true ->
  analyze_day std monthly_data i row (ms, g) = Returned (ms', g') ->
  negb (third_dip_triggered ms') || second_dip_triggered ms' = true.
Proof.
  intros Hinv Hday.
  destruct (analyze_day_transition std _ _ _ _ _ _ _ Hday)
    as (p & decline & _ & _ & _ & _ & Hs & Ht & _).
  rewrite Hs, Ht. clear Hs Ht Hday. revert Hinv.
  generalize (geb decline f0_05).
  generalize (ltb (fst (simulate_market_breadth (bar_date row)
                          (Num (recent_volatility std monthly_data i)) g))
                f15).
  intros low deep.
  destruct (second_dip_triggered ms), (third_dip_triggered ms), deep, low;
    cbn; auto.
Qed.

End Backtest.
End Ordering.

(** * The claims about the state machine *)

(** C1. The flags [first_dip_triggered] and [monthly_deadline_triggered]
    are never both true: not in any state the live monitor reaches from
    its default dictionary, not after a daily check of a state where they
    are not both true, and not in the month dictionary of the backtest,
    after any day and when [analyze_month] returns. One check emits at
    most one stage-1 message, none when a flag is already set for the
    month checked, and a backtest month holds at most one stage-1
    trigger. *)
Theorem stage_one_flags_exclusive :
  (forall st, RSPMonitor.reachable st ->
     RSPMonitor.first_dip_triggered st
     && RSPMonitor.monthly_deadline_triggered st = false)
  /\ (forall st df today call,
        RSPMonitor.first_dip_triggered st
        && RSPMonitor.monthly_deadline_triggered st = false ->
        let r := RSPMonitor.check_triggers st df today call in
        RSPMonitor.first_dip_triggered (RSPMonitor.state_after r)
        && RSPMonitor.monthly_deadline_triggered (RSPMonitor.state_after r)
           = false
        /\ (stage_one_count (RSPMonitor.messages r) <= 1)%nat)
  /\ (forall st today row call,
        RSPMonitor.first_dip_triggered st
        || RSPMonitor.monthly_deadline_triggered st = true ->
        stage_one_count
          (RSPMonitor.messages (RSPMonitor.evaluate st today row call))
        = 0%nat)
  /\ (forall (R : Rng) std monthly_data i row ms g ms' g',
        resolved_once ms ->
        RSPBacktestMonitor.analyze_day std monthly_data i row (ms, g)
        = Returned (ms', g') ->
        resolved_once ms')
  /\ (forall (R : Rng) std monthly_data month_str g ms g',
        RSPBacktestMonitor.analyze_month std monthly_data month_str g
        = Some (ms, g') ->
        RSPBacktestMonitor.first_dip_triggered ms
        && RSPBacktestMonitor.monthly_deadline_triggered ms = false
        /\ (stage_one_count (RSPBacktestMonitor.triggers ms) <= 1)%nat).
Proof.
  split; [|split; [|split; [|split]]].
  - intros st Hreach. induction Hreach as [|st df today call _ IH].
    + reflexivity.
    + apply Ordering.check_triggers_exclusive, IH.
  - intros st df today call Hinv r. split.
    + apply Ordering.check_triggers_exclusive, Hinv.
    + apply Ordering.check_triggers_stage_one_messages, Hinv.
  - intros st today row call Hset.
    unfold stage_one_count. rewrite Ordering.evaluate_message_types.
    assert (Hopen : negb (RSPMonitor.first_dip_triggered st)
                    && negb (RSPMonitor.monthly_deadline_triggered st)
                    = false).
    { destruct (RSPMonitor.first_dip_triggered st),
        (RSPMonitor.monthly_deadline_triggered st);
        [reflexivity..|discriminate]. }
    rewrite Hopen. cbn [andb app].
    repeat match goal with
           | |- context [if ?c then _ else _] => destruct c
           end; reflexivity.
  - intros R std monthly_data i row ms g ms' g'.
    apply Ordering.analyze_day_resolved_once.
  - intros R std monthly_data month_str g ms g' Hrun.
    assert (Hres : resolved_once ms).
    { refine (Invariants.analyze_month_invariant std resolved_once
                _ _ _ _ _ _ _ Hrun).
      - intros. eapply Ordering.analyze_day_resolved_once; eassumption.
      - intros data label ms0 Hs.
        destruct (Invariants.month_state_at_start_flags _ _ _ Hs)
          as (Hf & Hd & _ & _ & Ht & _).
        unfold resolved_once. rewrite Hf, Hd, Ht. split; reflexivity. }
    destruct Hres as [Hx Hc]. split; [exact Hx|]. rewrite Hc.
    destruct (_ || _); lia.
Qed.

Lemma stage_one_flags_exclusive_witness :
  (let r := RSPMonitor.check_triggers RSPMonitor.default_state
              Scenarios.df_aug02 Scenarios.aug02 Raised in
   RSPMonitor.first_dip_triggered (RSPMonitor.state_after r)
   && RSPMonitor.monthly_deadline_triggered (RSPMonitor.state_after r)
      = false
   /\ (stage_one_count (RSPMonitor.messages r) <= 1)%nat)
  /\ exists ms g',
       @RSPBacktestMonitor.analyze_month Scenarios.eighth_rng flat_std
         Scenarios.df_august "2024-08" tt = Some (ms, g')
       /\ RSPBacktestMonitor.first_dip_triggered ms
          && RSPBacktestMonitor.monthly_deadline_triggered ms = false
       /\ (stage_one_count (RSPBacktestMonitor.triggers ms) <= 1)%nat.
Proof.
  split.
  - apply (proj1 (proj2 stage_one_flags_exclusive)
             RSPMonitor.default_state Scenarios.df_aug02 Scenarios.aug02
             Raised).
    reflexivity.
  - eexists. eexists. split.
    + vm_compute. reflexivity.
    + eapply (proj2 (proj2 (proj2 (proj2 stage_one_flags_exclusive)))
                Scenarios.eighth_rng flat_std Scenarios.df_august "2024-08"%string
                tt).
      vm_compute. reflexivity.
Defined.

(** C2. [third_dip_triggered] is true only if [second_dip_triggered] is:
    in every state the live monitor reaches from its default dictionary,
    after a daily check of any state where it holds, after any day of the
    backtest loop and when [analyze_month] returns. Stage 3 fires in an
    evaluation only with the second flag set in the resulting state. *)
Theorem third_dip_requires_second_dip :
  (forall st, RSPMonitor.reachable st ->
     RSPMonitor.third_dip_triggered st = true ->
     RSPMonitor.second_dip_triggered st = true)
  /\ (forall st df today call,
        (RSPMonitor.third_dip_triggered st = true ->
         RSPMonitor.second_dip_triggered st = true) ->
        let st' :=
          RSPMonitor.state_after (RSPMonitor.check_triggers st df today call)
        in
        RSPMonitor.third_dip_triggered st' = true ->
        RSPMonitor.second_dip_triggered st' = true)
  /\ (forall st today row call,
        let r := RSPMonitor.evaluate st today row call in
        In third_dip (map t_type (RSPMonitor.messages r)) ->
        RSPMonitor.third_dip_triggered st = false
        /\ RSPMonitor.second_dip_triggered (RSPMonitor.state_after r) = true)
  /\ (forall (R : Rng) std monthly_data i row ms g ms' g',
        (RSPBacktestMonitor.third_dip_triggered ms = true ->
         RSPBacktestMonitor.second_dip_triggered ms = true) ->
        RSPBacktestMonitor.analyze_day std monthly_data i row (ms, g)
        = Returned (ms', g') ->
        RSPBacktestMonitor.third_dip_triggered ms' = true ->
        RSPBacktestMonitor.second_dip_triggered ms' = true)
  /\ (forall (R : Rng) std monthly_data month_str g ms g',
        RSPBacktestMonitor.analyze_month std monthly_data month_str g
        = Some (ms, g') ->
        RSPBacktestMonitor.third_dip_triggered ms = true ->
        RSPBacktestMonitor.second_dip_triggered ms = true).
Proof.
  assert (Himp : forall a b : bool,
            (a = true -> b = true) <-> negb a || b = true).
  { intros [|] [|]; cbn; intuition discriminate. }
  split; [|split; [|split; [|split]]].
  - intros st Hreach. apply Himp.
    induction Hreach as [|st df today call _ IH].
    + reflexivity.
    + apply Ordering.check_triggers_third_after_second, IH.
  - intros st df today call Hinv st'. apply Himp.
    apply Ordering.check_triggers_third_after_second, Himp, Hinv.
  - intros st today row call r. subst r.
    rewrite Ordering.evaluate_message_types.
    destruct (LiveFacts.evaluate_transition st today row call)
      as (_ & _ & Hs & _).
    rewrite Hs. clear Hs.
    generalize (geb (RSPMonitor.cumulative_decline_of st (bar_close row))
                  f0_05).
    intros deep.
    repeat match goal with
           | |- context [if ?c then _ else _] =>
               let E := fresh "E" in destruct c eqn:E
           end; cbn; intros H;
      repeat match goal with
             | H : _ \/ _ |- _ => destruct H
             | H : False |- _ => destruct H
             end; try discriminate;
      destruct (RSPMonitor.second_dip_triggered st),
        (RSPMonitor.third_dip_triggered st), deep; cbn in *;
      try discriminate; auto.
  - intros R std monthly_data i row ms g ms' g' Hinv Hday. apply Himp.
    apply (Ordering.analyze_day_third_after_second std _ _ _ _ _ _ _
             (proj1 (Himp _ _) Hinv) Hday).
  - intros R std monthly_data month_str g ms g' Hrun. apply Himp.
    refine (Invariants.analyze_month_invariant std
              (fun ms => negb (RSPBacktestMonitor.third_dip_triggered ms)
                         || RSPBacktestMonitor.second_dip_triggered ms = true)
              _ _ _ _ _ _ _ Hrun).
    + intros. eapply Ordering.analyze_day_third_after_second; eassumption.
    + intros data label ms0 Hs.
      destruct (Invariants.month_state_at_start_flags _ _ _ Hs)
        as (_ & _ & _ & -> & _).
      reflexivity.
Qed.

Lemma third_dip_requires_second_dip_witness :
  RSPMonitor.third_dip_triggered
    (RSPMonitor.state_after
       (RSPMonitor.check_triggers Scenarios.st_second_fired
          Scenarios.df_aug15 Scenarios.aug15 (Returned f10))) = true
  /\ RSPMonitor.second_dip_triggered
       (RSPMonitor.state_after
          (RSPMonitor.check_triggers Scenarios.st_second_fired
             Scenarios.df_aug15 Scenarios.aug15 (Returned f10))) = true.
Proof.
  split; [reflexivity|].
  apply (proj1 (proj2 third_dip_requires_second_dip)
           Scenarios.st_second_fired Scenarios.df_aug15 Scenarios.aug15
           (Returned f10)).
  - intros _. reflexivity.
  - reflexivity.
Defined.

Lemma cumulative_decline_unset st today_close :
  price_unset (RSPMonitor.month_start_price st) = true ->
  RSPMonitor.cumulative_decline_of st today_close = zero.
Proof.
  unfold price_unset, RSPMonitor.cumulative_decline_of.
  destruct (RSPMonitor.month_start_price st) as [p|]; [|reflexivity].
  destruct (truthy p); [discriminate|reflexivity].
Qed.

(** C3. While [month_start_price] is unset ([None], or a zero) the
    cumulative decline is computed as 0, which is not at or above 0.05:
    the evaluation then leaves [second_dip_triggered] as it was and sends
    no second-dip message, and a daily check that ends with the price
    unset cannot have turned the flag on. *)
Theorem second_dip_needs_month_start_price :
  (forall st today row call,
     price_unset (RSPMonitor.month_start_price st) = true ->
     let r := RSPMonitor.evaluate st today row call in
     RSPMonitor.cumulative_decline_of st (bar_close row) = zero
     /\ geb (RSPMonitor.cumulative_decline_of st (bar_close row)) f0_05
        = false
     /\ RSPMonitor.second_dip_triggered (RSPMonitor.state_after r)
        = RSPMonitor.second_dip_triggered st
     /\ ~ In second_dip (map t_type (RSPMonitor.messages r)))
  /\ (forall st df today call,
        let r := RSPMonitor.check_triggers st df today call in
        price_unset (RSPMonitor.month_start_price (RSPMonitor.state_after r))
        = true ->
        (RSPMonitor.second_dip_triggered (RSPMonitor.state_after r) = true ->
         RSPMonitor.second_dip_triggered st = true)
        /\ ~ In second_dip (map t_type (RSPMonitor.messages r))).
Proof.
  assert (Heval : forall st today row call,
     price_unset (RSPMonitor.month_start_price st) = true ->
     RSPMonitor.cumulative_decline_of st (bar_close row) = zero
     /\ geb (RSPMonitor.cumulative_decline_of st (bar_close row)) f0_05
        = false
     /\ RSPMonitor.second_dip_triggered
          (RSPMonitor.state_after (RSPMonitor.evaluate st today row call))
        = RSPMonitor.second_dip_triggered st
     /\ ~ In second_dip
            (map t_type
               (RSPMonitor.messages (RSPMonitor.evaluate st today row call)))).
  { intros st today row call Hunset.
    pose proof (cumulative_decline_unset st (bar_close row) Hunset) as Hz.
    assert (Hdeep : geb (RSPMonitor.cumulative_decline_of st (bar_close row))
                      f0_05 = false) by (rewrite Hz; reflexivity).
    destruct (LiveFacts.evaluate_transition st today row call)
      as (_ & _ & Hs & _).
    rewrite Ordering.evaluate_message_types, Hs, Hdeep.
    rewrite orb_false_r, andb_false_r.
    repeat split; auto.
    repeat match goal with
           | |- context [if ?c then _ else _] => destruct c
           end; cbn; intuition discriminate. }
  split; [exact Heval|].
  intros st df today call r. subst r.
  destruct (CheckFacts.check_triggers_cases st df today call)
    as [[_ ->]|[(_ & _ & ->)|(row & _ & _ & ->)]]; cbn.
  - intros _. split; auto.
  - intros _. split; [|auto].
    destruct (CheckFacts.month_rollover_cases st df today)
      as [[_ ->]|(_ & _ & _ & _ & -> & _)]; [auto|discriminate].
  - destruct (LiveFacts.evaluate_transition
                (RSPMonitor.month_rollover st df today) today row call)
      as (_ & _ & _ & _ & _ & Hp & _).
    rewrite Hp. intros Hunset.
    destruct (Heval _ today row call Hunset) as (_ & _ & Hs & Hm).
    split; [|exact Hm]. rewrite Hs.
    destruct (CheckFacts.month_rollover_cases st df today)
      as [[_ ->]|(_ & _ & _ & _ & -> & _)]; [auto|discriminate].
Qed.

Lemma second_dip_needs_month_start_price_witness :
  RSPMonitor.second_dip_triggered
    (RSPMonitor.state_after
       (RSPMonitor.evaluate RSPMonitor.default_state Scenarios.aug02
          (Scenarios.row Scenarios.aug02 Scenarios.f90 Scenarios.f90 fm0_02)
          (Returned f10))) = false.
Proof.
  apply (proj1 second_dip_needs_month_start_price
           RSPMonitor.default_state Scenarios.aug02
           (Scenarios.row Scenarios.aug02 Scenarios.f90 Scenarios.f90 fm0_02)
           (Returned f10)).
  reflexivity.
Defined.

(** C10. A missing (NaN) daily return is replaced by 0 in the live
    evaluation and in the backtest loop. 0 is not at or below -0.01, so on
    such a row the first-dip branch does not run: its flag keeps its value
    and no first-dip trigger is produced, every trigger of the row carries
    the return 0, and stage 1 is decided by the third-Friday test alone. *)
Theorem missing_daily_return_counts_as_zero :
  leb zero fm0_01 = false
  /\ (forall st today row call,
        isna (bar_daily_return row) = true ->
        let r := RSPMonitor.evaluate st today row call in
        RSPMonitor.first_dip_triggered (RSPMonitor.state_after r)
        = RSPMonitor.first_dip_triggered st
        /\ ~ In first_dip (map t_type (RSPMonitor.messages r))
        /\ (forall t, In t (RSPMonitor.messages r) -> t_daily_return t = zero)
        /\ RSPMonitor.monthly_deadline_triggered (RSPMonitor.state_after r)
           = RSPMonitor.monthly_deadline_triggered st
             || (negb (RSPMonitor.first_dip_triggered st)
                 && negb (RSPMonitor.monthly_deadline_triggered st)
                 && is_third_friday today)
        /\ (In monthly_deadline (map t_type (RSPMonitor.messages r)) <->
            negb (RSPMonitor.first_dip_triggered st)
            && negb (RSPMonitor.monthly_deadline_triggered st)
            && is_third_friday today = true))
  /\ (forall (R : Rng) std monthly_data i row ms g ms' g',
        isna (bar_daily_return row) = true ->
        RSPBacktestMonitor.analyze_day std monthly_data i row (ms, g)
        = Returned (ms', g') ->
        RSPBacktestMonitor.first_dip_triggered ms'
        = RSPBacktestMonitor.first_dip_triggered ms
        /\ RSPBacktestMonitor.monthly_deadline_triggered ms'
           = RSPBacktestMonitor.monthly_deadline_triggered ms
             || (negb (RSPBacktestMonitor.first_dip_triggered ms)
                 && negb (RSPBacktestMonitor.monthly_deadline_triggered ms)
                 && is_third_friday (bar_date row))
        /\ exists fired,
             RSPBacktestMonitor.triggers ms'
             = RSPBacktestMonitor.triggers ms ++ fired
             /\ ~ In first_dip (map t_type fired)
             /\ forall t, In t fired -> t_daily_return t = zero).
Proof.
  split; [reflexivity|]. split.
  - intros st today row call Hna r. subst r.
    destruct (LiveFacts.evaluate_transition st today row call)
      as (Hf & Hd & _ & _ & Hm & _).
    rewrite Ordering.evaluate_message_types, Hf, Hd, Hm. clear Hf Hd Hm.
    rewrite Hna.
    change (leb (if negb true then bar_daily_return row else zero) fm0_01)
      with false.
    rewrite !andb_false_r, orb_false_r. cbn [negb].
    rewrite andb_true_r.
    split; [reflexivity|].
    split; [|split; [|split; [reflexivity|]]].
    + repeat match goal with
             | |- context [if ?c then _ else _] => destruct c
             end; cbn; intuition discriminate.
    + intros t Ht.
      repeat match type of Ht with
             | context [if ?c then _ else _] => destruct c
             end; cbn [app In] in Ht;
        repeat match goal with
               | H : _ \/ _ |- _ => destruct H
               | H : False |- _ => destruct H
               end; subst; reflexivity.
    + destruct (negb (RSPMonitor.first_dip_triggered st)
                && negb (RSPMonitor.monthly_deadline_triggered st)
                && is_third_friday today).
      * split; [reflexivity|]. intros _. left. reflexivity.
      * split; [|discriminate].
        repeat match goal with
               | |- context [if ?c then _ else _] => destruct c
               end; cbn; intuition discriminate.
  - intros R std monthly_data i row ms g ms' g' Hna Hday.
    destruct (BacktestFacts.analyze_day_transition std _ _ _ _ _ _ _ Hday)
      as (p & decline & _ & _ & Hf & Hd & _ & _ & Ht & _).
    rewrite Hf, Hd, Ht. clear Hf Hd Ht. rewrite Hna.
    change (leb (if negb true then bar_daily_return row else zero) fm0_01)
      with false.
    rewrite !andb_false_r, orb_false_r. cbn [negb].
    rewrite andb_true_r.
    split; [reflexivity|]. split; [reflexivity|].
    eexists. split; [reflexivity|]. split.
    + rewrite !map_app.
      repeat match goal with
             | |- context [if ?c then _ else _] => destruct c
             end; cbn; intuition discriminate.
    + intros t Ht.
      repeat match type of Ht with
             | context [if ?c then _ else _] => destruct c
             end; cbn [app In] in Ht;
        repeat match goal with
               | H : _ \/ _ |- _ => destruct H
               | H : False |- _ => destruct H
               end; subst; reflexivity.
Qed.

Lemma missing_daily_return_counts_as_zero_witness :
  RSPMonitor.first_dip_triggered
    (RSPMonitor.state_after
       (RSPMonitor.evaluate RSPMonitor.default_state Scenarios.aug01
          (Scenarios.row Scenarios.aug01 f100 Scenarios.f99 S754_nan)
          Raised)) = false.
Proof.
  exact (proj1 (proj1 (proj2 missing_daily_return_counts_as_zero)
                  RSPMonitor.default_state Scenarios.aug01
                  (Scenarios.row Scenarios.aug01 f100 Scenarios.f99 S754_nan)
                  Raised eq_refl)).
Defined.

(** ** Evaluating the same day twice *)

Module Reevaluation.

Section Live.
Import RSPMonitor LiveFacts CheckFacts.

Lemma check_triggers_by_row st df today call :
  check_triggers st df today call
  = match df, todays_row df today with
    | [], _ => mkrun st [] None
    | _ :: _, None => mkrun (month_rollover st df today) [] None
    | _ :: _, Some row => evaluate (month_rollover st df today) today row call
    end.
Proof.
  unfold check_triggers, todays_row. destruct df as [|b df']; [reflexivity|].
  destruct (filter _ (b :: df')); reflexivity.
Qed.

Lemma cumulative_decline_of_ext a b c :
  month_start_price a = month_start_price b ->
  cumulative_decline_of a c = cumulative_decline_of b c.
Proof. unfold cumulative_decline_of. intros ->. reflexivity. Qed.

(** The second of two evaluations of one row can only fire stage 3, and
    only on a reading below 15 after a first reading that was not. *)
Lemma evaluate_twice_types st today row call1 call2 :
  map t_type
    (messages
       (evaluate (state_after (evaluate st today row call1)) today row call2))
  = if (second_dip_triggered st
        || geb (cumulative_decline_of st (bar_close row)) f0_05)
       && negb (third_dip_triggered st)
       && negb (ltb (get_market_breadth call1) f15)
       && ltb (get_market_breadth call2) f15
    then [third_dip] else [].
Proof.
  destruct (evaluate_transition st today row call1)
    as (Hf & Hd & Hs & Ht & _ & Hp & _).
  rewrite Ordering.evaluate_message_types, Hf, Hd, Hs, Ht.
  rewrite (cumulative_decline_of_ext _ st _ Hp).
  generalize (leb (if negb (isna (bar_daily_return row))
                   then bar_daily_return row else zero) fm0_01)
    (is_third_friday today)
    (geb (cumulative_decline_of st (bar_close row)) f0_05)
    (ltb (get_market_breadth call1) f15)
    (ltb (get_market_breadth call2) f15).
  intros dip friday deep low1 low2.
  destruct (first_dip_triggered st), (monthly_deadline_triggered st),
    (second_dip_triggered st), (third_dip_triggered st),
    dip, friday, deep, low1, low2; reflexivity.
Qed.

Lemma check_triggers_twice_types st df today call1 call2 :
  map t_type
    (messages
       (check_triggers (state_after (check_triggers st df today call1))
          df today call2))
  = match df, todays_row df today with
    | _ :: _, Some row =>
        let st0 := month_rollover st df today in
        if (second_dip_triggered st0
            || geb (cumulative_decline_of st0 (bar_close row)) f0_05)
           && negb (third_dip_triggered st0)
           && negb (ltb (get_market_breadth call1) f15)
           && ltb (get_market_breadth call2) f15
        then [third_dip] else []
    | _, _ => []
    end.
Proof.
  rewrite (check_triggers_by_row st df today call1).
  destruct df as [|b df']; [reflexivity|].
  destruct (todays_row (b :: df') today) as [row|] eqn:Hrow.
  - rewrite check_triggers_by_row, Hrow.
    assert (Hsame : month_rollover
                      (state_after
                         (evaluate (month_rollover st (b :: df') today)
                            today row call1)) (b :: df') today
                    = state_after
                        (evaluate (month_rollover st (b :: df') today)
                           today row call1)).
    { destruct (month_rollover_cases
                  (state_after
                     (evaluate (month_rollover st (b :: df') today)
                        today row call1)) (b :: df') today)
        as [[_ H]|[H _]]; [exact H|].
      elim H.
      destruct (evaluate_transition (month_rollover st (b :: df') today)
                  today row call1) as (_ & _ & _ & _ & _ & _ & Hc & _).
      rewrite Hc. apply month_rollover_current. }
    rewrite Hsame. apply evaluate_twice_types.
  - cbn [state_after]. rewrite check_triggers_by_row, Hrow. reflexivity.
Qed.

End Live.

Section Backtest.
Import RSPBacktestMonitor BacktestFacts.
Context {R : Rng}.
Variable std : list float -> float.

(** The simulated breadth does not depend on the state the generator was
    in: the seed replaces it. *)
Lemma simulate_market_breadth_seeded date_val volatility g1 g2 :
  simulate_market_breadth date_val volatility g1
  = simulate_market_breadth date_val volatility g2.
Proof. reflexivity. Qed.

Lemma analyze_day_twice monthly_data i row ms g ms1 g1 :
  analyze_day std monthly_data i row (ms, g) = Returned (ms1, g1) ->
  exists ms2 g2,
    analyze_day std monthly_data i row (ms1, g1) = Returned (ms2, g2)
    /\ triggers ms2 = triggers ms1
    /\ first_dip_triggered ms2 = first_dip_triggered ms1
    /\ monthly_deadline_triggered ms2 = monthly_deadline_triggered ms1
    /\ second_dip_triggered ms2 = second_dip_triggered ms1
    /\ third_dip_triggered ms2 = third_dip_triggered ms1.
Proof.
  intros Hday.
  destruct (analyze_day_transition std _ _ _ _ _ _ _ Hday)
    as (p & decline & Hp & Hdiv & Hf & Hd & Hs & Ht & _ & Hp1).
  destruct (analyze_day std monthly_data i row (ms1, g1))
    as [[ms2 g2]|] eqn:Hday2.
  - exists ms2, g2. split; [reflexivity|].
    destruct (analyze_day_transition std _ _ _ _ _ _ _ Hday2)
      as (p' & decline' & Hp' & Hdiv' & Hf' & Hd' & Hs' & Ht' & Htr' & _).
    assert (p' = p) by congruence. subst p'.
    assert (decline' = decline) by congruence. subst decline'.
    rewrite Hf', Hd', Hs', Ht', Htr'.
    rewrite (simulate_market_breadth_seeded _ _ g1 g).
    rewrite Hf, Hd, Hs, Ht.
    generalize (leb (if negb (isna (bar_daily_return row))
                     then bar_daily_return row else zero) fm0_01)
      (is_third_friday (bar_date row)) (geb decline f0_05).
    generalize (ltb (fst (simulate_market_breadth (bar_date row)
                            (Num (recent_volatility std monthly_data i)) g))
                  f15).
    intros low dip friday deep.
    destruct (first_dip_triggered ms), (monthly_deadline_triggered ms),
      (second_dip_triggered ms), (third_dip_triggered ms),
      dip, friday, deep, low; cbn [negb andb orb app];
      rewrite ?app_nil_r; repeat split.
  - exfalso. revert Hday2. unfold analyze_day. rewrite Hp1, Hp, Hdiv.
    discriminate.
Qed.

End Backtest.
End Reevaluation.

(** C5, as stated, fails on the live monitor: the breadth is looked up
    afresh by every evaluation. With the second stage fired and the third
    not, a check that reads a breadth of 20 sends nothing, and a second
    check of the same state, rows and date that reads 10 sends the
    third-dip message. *)
Lemma reevaluation_fires_on_lower_breadth :
  RSPMonitor.messages
    (RSPMonitor.check_triggers Scenarios.st_second_fired Scenarios.df_aug15
       Scenarios.aug15 (Returned f20)) = []
  /\ map t_type
       (RSPMonitor.messages
          (RSPMonitor.check_triggers
             (RSPMonitor.state_after
                (RSPMonitor.check_triggers Scenarios.st_second_fired
                   Scenarios.df_aug15 Scenarios.aug15 (Returned f20)))
             Scenarios.df_aug15 Scenarios.aug15 (Returned f10)))
     = [third_dip].
Proof. split; vm_compute; reflexivity. Qed.

(** C5, amended. Checking the same state, rows and date a second time
    sends no message when the breadth lookup answers as it did the first
    time, or answers any value not below 15; whatever it answers, the second
    check can only send the third-dip message. In the backtest, where the
    breadth is a function of the row, running the loop body twice on a row
    succeeds the second time and adds no trigger and changes no flag. *)
Theorem reevaluation_is_silent_for_equal_breadth :
  (forall st df today call,
     RSPMonitor.messages
       (RSPMonitor.check_triggers
          (RSPMonitor.state_after
             (RSPMonitor.check_triggers st df today call))
          df today call) = [])
  /\ (forall st df today call1 call2,
        ltb (RSPMonitor.get_market_breadth call2) f15 = false ->
        RSPMonitor.messages
          (RSPMonitor.check_triggers
             (RSPMonitor.state_after
                (RSPMonitor.check_triggers st df today call1))
             df today call2) = [])
  /\ (forall st df today call1 call2 ty,
        In ty
          (map t_type
             (RSPMonitor.messages
                (RSPMonitor.check_triggers
                   (RSPMonitor.state_after
                      (RSPMonitor.check_triggers st df today call1))
                   df today call2))) ->
        ty = third_dip)
  /\ (forall (R : Rng) std monthly_data i row ms g ms1 g1,
        RSPBacktestMonitor.analyze_day std monthly_data i row (ms, g)
        = Returned (ms1, g1) ->
        exists ms2 g2,
          RSPBacktestMonitor.analyze_day std monthly_data i row (ms1, g1)
          = Returned (ms2, g2)
          /\ RSPBacktestMonitor.triggers ms2 = RSPBacktestMonitor.triggers ms1
          /\ RSPBacktestMonitor.first_dip_triggered ms2
             = RSPBacktestMonitor.first_dip_triggered ms1
          /\ RSPBacktestMonitor.monthly_deadline_triggered ms2
             = RSPBacktestMonitor.monthly_deadline_triggered ms1
          /\ RSPBacktestMonitor.second_dip_triggered ms2
             = RSPBacktestMonitor.second_dip_triggered ms1
          /\ RSPBacktestMonitor.third_dip_triggered ms2
             = RSPBacktestMonitor.third_dip_triggered ms1).
Proof.
  split; [|split; [|split]].
  - intros st df today call. apply (map_eq_nil t_type).
    rewrite Reevaluation.check_triggers_twice_types.
    destruct df; [reflexivity|].
    destruct (todays_row _ _); [|reflexivity].
    cbv zeta. destruct (ltb (RSPMonitor.get_market_breadth call) f15);
      rewrite ?andb_false_r; reflexivity.
  - intros st df today call1 call2 Hhigh. apply (map_eq_nil t_type).
    rewrite Reevaluation.check_triggers_twice_types.
    destruct df; [reflexivity|].
    destruct (todays_row _ _); [|reflexivity].
    cbv zeta. rewrite Hhigh, andb_false_r. reflexivity.
  - intros st df today call1 call2 ty.
    rewrite Reevaluation.check_triggers_twice_types.
    destruct df; [intros []|].
    destruct (todays_row _ _); [|intros []].
    cbv zeta. destruct (_ && _); cbn; intuition.
  - intros R std monthly_data i row ms g ms1 g1.
    apply Reevaluation.analyze_day_twice.
Qed.

Lemma reevaluation_is_silent_for_equal_breadth_witness :
  RSPMonitor.messages
    (RSPMonitor.check_triggers
       (RSPMonitor.state_after
          (RSPMonitor.check_triggers Scenarios.st_second_fired
             Scenarios.df_aug15 Scenarios.aug15 (Returned f10)))
       Scenarios.df_aug15 Scenarios.aug15 (Returned f20)) = [].
Proof.
  exact (proj1 (proj2 reevaluation_is_silent_for_equal_breadth)
           Scenarios.st_second_fired Scenarios.df_aug15 Scenarios.aug15
           (Returned f10) (Returned f20) eq_refl).
Defined.

(** C6, as stated, fails on the live monitor: with the default dictionary
    (start price unset) and a frame holding August 1st (open 100) and
    August 2nd (open 90), the check of August 2nd sets the start price to
    100, the open of the month's first row in the frame, not to the open
    of the row being evaluated. *)
Lemma month_start_price_is_not_todays_open :
  RSPMonitor.month_start_price RSPMonitor.default_state = None
  /\ todays_row Scenarios.df_aug02 Scenarios.aug02
     = Some (Scenarios.row Scenarios.aug02 Scenarios.f90 Scenarios.f90 zero)
  /\ RSPMonitor.month_start_price
       (RSPMonitor.state_after
          (RSPMonitor.check_triggers RSPMonitor.default_state
             Scenarios.df_aug02 Scenarios.aug02 Raised))
     = Some f100
  /\ RSPMonitor.month_start_price
       (RSPMonitor.state_after
          (RSPMonitor.check_triggers RSPMonitor.default_state
             Scenarios.df_aug02 Scenarios.aug02 Raised))
     <> Some (bar_open
                (Scenarios.row Scenarios.aug02 Scenarios.f90 Scenarios.f90
                   zero)).
Proof.
  split; [reflexivity|]. split; [reflexivity|].
  split; [vm_compute; reflexivity|]. vm_compute. discriminate.
Qed.

(** C6, amended. The live monitor assigns [month_start_price] only in its
    month check: when the stored month differs from today's, the price
    becomes the open of the first row of today's month in the fetched
    frame, and stays unset when the frame has no such row; when the stored
    month is today's the dictionary is left as it is. The evaluation that
    follows does not change the price, and every message it sends carries
    the cumulative decline computed from it. The backtest sets the price
    to the open of the month's first row before its loop, and no iteration
    changes it. *)
Theorem month_start_price_set_by_month_check :
  (forall st df today,
     RSPMonitor.current_month st <> strftime_Ym today ->
     RSPMonitor.month_start_price (RSPMonitor.month_rollover st df today)
     = option_map bar_open
         (hd_error
            (filter (fun b => String.eqb (strftime_Ym (bar_date b))
                                (strftime_Ym today)) df)))
  /\ (forall st df today,
        RSPMonitor.current_month st = strftime_Ym today ->
        RSPMonitor.month_rollover st df today = st)
  /\ (forall st df today call row,
        df <> [] ->
        todays_row df today = Some row ->
        let st0 := RSPMonitor.month_rollover st df today in
        let r := RSPMonitor.check_triggers st df today call in
        RSPMonitor.month_start_price (RSPMonitor.state_after r)
        = RSPMonitor.month_start_price st0
        /\ forall t, In t (RSPMonitor.messages r) ->
             t_cumulative_decline t
             = RSPMonitor.cumulative_decline_of st0 (bar_close row))
  /\ (forall monthly_data month_str ms,
        RSPBacktestMonitor.month_state_at_start monthly_data month_str
        = Returned ms ->
        RSPBacktestMonitor.month_start_price ms
        = option_map bar_open (hd_error monthly_data))
  /\ (forall (R : Rng) std monthly_data i row ms g ms' g',
        RSPBacktestMonitor.analyze_day std monthly_data i row (ms, g)
        = Returned (ms', g') ->
        RSPBacktestMonitor.month_start_price ms'
        = RSPBacktestMonitor.month_start_price ms).
Proof.
  split; [|split; [|split; [|split]]].
  - intros st df today Hne.
    destruct (CheckFacts.month_rollover_cases st df today)
      as [[He _]|(_ & _ & _ & _ & _ & _ & Hp & _)];
      [contradiction|exact Hp].
  - intros st df today He.
    destruct (CheckFacts.month_rollover_cases st df today)
      as [[_ H]|[Hne _]]; [exact H|contradiction].
  - intros st df today call row Hdf Hrow st0 r. subst st0 r.
    destruct df as [|b df']; [contradiction|].
    rewrite Reevaluation.check_triggers_by_row, Hrow.
    destruct (LiveFacts.evaluate_transition
                (RSPMonitor.month_rollover st (b :: df') today) today row
                call) as (_ & _ & _ & _ & Hm & Hp & _).
    split; [exact Hp|].
    rewrite Hm. intros t Ht.
    repeat match type of Ht with
           | context [if ?c then _ else _] => destruct c
           end; cbn [app In] in Ht;
      repeat match goal with
             | H : _ \/ _ |- _ => destruct H
             | H : False |- _ => destruct H
             end; subst; reflexivity.
  - intros monthly_data month_str ms Hs.
    destruct (Invariants.month_state_at_start_flags _ _ _ Hs)
      as (_ & _ & _ & _ & _ & first & rest & -> & Hp).
    exact Hp.
  - intros R std monthly_data i row ms g ms' g' Hday.
    destruct (BacktestFacts.analyze_day_transition std _ _ _ _ _ _ _ Hday)
      as (p & decline & _ & _ & _ & _ & _ & _ & _ & Hp).
    exact Hp.
Qed.

Lemma month_start_price_set_by_month_check_witness :
  RSPMonitor.month_start_price
    (RSPMonitor.month_rollover Scenarios.st_july Scenarios.df_aug02
       Scenarios.aug02)
  = Some f100.
Proof.
  refine (eq_trans
            (proj1 month_start_price_set_by_month_check
               Scenarios.st_july Scenarios.df_aug02 Scenarios.aug02 _) _).
  - vm_compute. discriminate.
  - vm_compute. reflexivity.
Defined.

(** C7, as stated, fails: the month check runs before today's row is
    looked for. A monitor left in July with its first-dip flag set, run on
    August 1st with a frame that ends on July 31st, finds no row for
    today, yet leaves the dictionary reset for August with the flag
    cleared. *)
Lemma missing_bar_run_resets_the_month :
  todays_row Scenarios.df_jul31 Scenarios.aug01 = None
  /\ RSPMonitor.first_dip_triggered Scenarios.st_july = true
  /\ RSPMonitor.first_dip_triggered
       (RSPMonitor.state_after
          (RSPMonitor.check_triggers Scenarios.st_july Scenarios.df_jul31
             Scenarios.aug01 Raised)) = false
  /\ RSPMonitor.state_after
       (RSPMonitor.check_triggers Scenarios.st_july Scenarios.df_jul31
          Scenarios.aug01 Raised)
     <> Scenarios.st_july.
Proof.
  split; [reflexivity|]. split; [reflexivity|].
  split; [vm_compute; reflexivity|]. vm_compute. discriminate.
Qed.

(** C7, amended. When today's row is absent from the fetched frame the
    check sends no message and does not call [save_state]. The dictionary
    in memory is what the month check left: untouched when the frame is
    empty or the stored month is today's, reset for the new month
    otherwise. No flag is turned on and [last_check_date] keeps its
    value. *)
Theorem missing_bar_aborts_the_check :
  forall st df today call,
    todays_row df today = None ->
    let r := RSPMonitor.check_triggers st df today call in
    RSPMonitor.messages r = []
    /\ RSPMonitor.saved r = None
    /\ RSPMonitor.state_after r
       = match df with
         | [] => st
         | _ :: _ => RSPMonitor.month_rollover st df today
         end
    /\ (RSPMonitor.current_month st = strftime_Ym today ->
        RSPMonitor.state_after r = st)
    /\ (RSPMonitor.first_dip_triggered (RSPMonitor.state_after r) = true ->
        RSPMonitor.first_dip_triggered st = true)
    /\ (RSPMonitor.monthly_deadline_triggered (RSPMonitor.state_after r)
        = true ->
        RSPMonitor.monthly_deadline_triggered st = true)
    /\ (RSPMonitor.second_dip_triggered (RSPMonitor.state_after r) = true ->
        RSPMonitor.second_dip_triggered st = true)
    /\ (RSPMonitor.third_dip_triggered (RSPMonitor.state_after r) = true ->
        RSPMonitor.third_dip_triggered st = true)
    /\ RSPMonitor.last_check_date (RSPMonitor.state_after r)
       = RSPMonitor.last_check_date st.
Proof.
  intros st df today call Hrow r. subst r.
  destruct df as [|b df'];
    [|rewrite Reevaluation.check_triggers_by_row, Hrow];
    cbn [RSPMonitor.check_triggers RSPMonitor.messages RSPMonitor.saved
         RSPMonitor.state_after].
  - repeat split; auto.
  - destruct (CheckFacts.month_rollover_cases st (b :: df') today)
      as [[He ->]|(Hne & _ & Hf & Hd & Hs & Ht & _ & Hl)].
    + repeat split; auto.
    + rewrite Hf, Hd, Hs, Ht, Hl.
      repeat split; try discriminate. intros He. contradiction.
Qed.

Lemma missing_bar_aborts_the_check_witness :
  RSPMonitor.saved
    (RSPMonitor.check_triggers Scenarios.st_july Scenarios.df_jul31
       Scenarios.aug01 Raised) = None.
Proof.
  exact (proj1 (proj2 (missing_bar_aborts_the_check Scenarios.st_july
                         Scenarios.df_jul31 Scenarios.aug01 Raised
                         eq_refl))).
Defined.

(** ** The third Friday *)

Module CalendarFacts.

Lemma date_eqb_eq a b : date_eqb a b = true <-> a = b.
Proof.
  unfold date_eqb. destruct a as [ya ma da], b as [yb mb db]. cbn. split.
  - intros H. apply andb_prop in H. destruct H as [H Hd].
    apply andb_prop in H. destruct H as [Hy Hm].
    apply Z.eqb_eq in Hy, Hm, Hd. congruence.
  - intros H. injection H as -> -> ->. rewrite !Z.eqb_refl. reflexivity.
Qed.

Lemma valid_month_bounds y m :
  valid_month y m = true -> 1 <= y <= 9999 /\ 1 <= m <= 12.
Proof.
  unfold valid_month, MINYEAR, MAXYEAR. intros H.
  repeat (apply andb_prop in H; destruct H as [H ?]). lia.
Qed.

Lemma days_in_month_range y m : 28 <= days_in_month y m <= 31.
Proof.
  unfold days_in_month.
  destruct (m =? 2); [destruct (is_leap y); lia|].
  destruct (_ || _); lia.
Qed.

(** The weekday advances by one with the day of the month. *)
Lemma weekday_of_day y m k :
  weekday (mkdate y m k) = (weekday (mkdate y m 1) + (k - 1)) mod 7.
Proof.
  unfold weekday, toordinal. cbn [year month day].
  rewrite Z.add_mod_idemp_l by lia. f_equal. lia.
Qed.

Lemma weekday_range d : 0 <= weekday d < 7.
Proof. unfold weekday. apply Z.mod_pos_bound. lia. Qed.

Lemma fridays_of_month_days y m :
  fridays_of_month y m
  = map (mkdate y m)
      (friday_days (weekday (mkdate y m 1)) (days_in_month y m)).
Proof.
  unfold fridays_of_month, month_days, friday_days.
  rewrite <- (map_map Z.of_nat (mkdate y m)), filter_map_swap.
  f_equal. apply filter_ext. intros k. unfold is_friday.
  rewrite weekday_of_day. reflexivity.
Qed.

(** The loop, started on day [k] of a month that is not the last one a
    date can hold, returns the Fridays from day [k] on appended to what it
    was given. *)
Lemma collect_fridays_from y m :
  valid_month y m = true ->
  ~ (y = 9999 /\ m = 12) ->
  forall n k acc fuel,
    (1 <= k)%nat ->
    Z.of_nat (k + n) = days_in_month y m ->
    (n + 1 < fuel)%nat ->
    collect_fridays fuel m (mkdate y m (Z.of_nat k)) acc
    = Some (Returned
              (acc ++ filter is_friday
                        (map (fun j => mkdate y m (Z.of_nat j))
                           (seq k (S n))))).
Proof.
  intros Hvalid Hlast.
  apply valid_month_bounds in Hvalid.
  induction n as [|n IH]; intros k acc fuel Hk Hdim Hfuel.
  - destruct fuel as [|[|fuel]]; try lia.
    cbn [collect_fridays month]. rewrite Z.eqb_refl.
    unfold add_one_day. cbn [year month day].
    replace (Z.of_nat k <? days_in_month y m) with false
      by (symmetry; apply Z.ltb_ge; lia).
    cbn [seq map filter]. unfold is_friday.
    destruct (m <? 12) eqn:Hm.
    + apply Z.ltb_lt in Hm. cbn [collect_fridays month].
      replace (m + 1 =? m) with false by (symmetry; apply Z.eqb_neq; lia).
      destruct (weekday _ =? 4); rewrite ?app_nil_r; reflexivity.
    + apply Z.ltb_ge in Hm. unfold MAXYEAR.
      replace (y <? 9999) with true by (symmetry; apply Z.ltb_lt; lia).
      cbn [collect_fridays month].
      replace (1 =? m) with false by (symmetry; apply Z.eqb_neq; lia).
      destruct (weekday _ =? 4); rewrite ?app_nil_r; reflexivity.
  - destruct fuel as [|fuel]; try lia.
    cbn [collect_fridays month]. rewrite Z.eqb_refl.
    unfold add_one_day. cbn [year month day].
    replace (Z.of_nat k <? days_in_month y m) with true
      by (symmetry; apply Z.ltb_lt; lia).
    replace (Z.of_nat k + 1) with (Z.of_nat (S k)) by lia.
    rewrite (IH (S k)) by lia.
    change (seq k (S (S n))) with (k :: seq (S k) (S n)).
    cbn [map filter]. unfold is_friday at 2.
    destruct (weekday (mkdate y m (Z.of_nat k)) =? 4).
    + rewrite <- app_assoc. reflexivity.
    + reflexivity.
Qed.

Lemma month_fridays_returns y m :
  valid_month y m = true ->
  ~ (y = 9999 /\ m = 12) ->
  month_fridays y m = Some (Returned (fridays_of_month y m)).
Proof.
  intros Hvalid Hlast. unfold month_fridays, first_of_month.
  rewrite Hvalid.
  pose proof (days_in_month_range y m) as Hdim.
  change (mkdate y m 1) with (mkdate y m (Z.of_nat 1)).
  rewrite (collect_fridays_from y m Hvalid Hlast
             (Z.to_nat (days_in_month y m) - 1) 1 [] 32) by lia.
  cbn [app]. unfold fridays_of_month, month_days.
  replace (S (Z.to_nat (days_in_month y m) - 1))
    with (Z.to_nat (days_in_month y m)) by lia.
  reflexivity.
Qed.

End CalendarFacts.

(** ** The calendar model agrees with the ordinal arithmetic of [date] *)

Module DateArithmetic.
Import CalendarFacts.

Lemma is_leap_cases y :
  (is_leap y = true
   /\ y mod 4 = 0 /\ (y mod 100 <> 0 \/ y mod 400 = 0))
  \/ (is_leap y = false
      /\ (y mod 4 <> 0 \/ (y mod 100 = 0 /\ y mod 400 <> 0))).
Proof.
  unfold is_leap.
  destruct (Z.eqb_spec (y mod 4) 0), (Z.eqb_spec (y mod 100) 0),
    (Z.eqb_spec (y mod 400) 0); cbn; intuition.
Qed.

Lemma days_before_next_year y :
  days_before_year (y + 1)
  = days_before_year y + 365 + (if is_leap y then 1 else 0).
Proof.
  unfold days_before_year. cbv zeta.
  replace (y + 1 - 1) with y by lia.
  destruct (is_leap_cases y) as [(-> & H)|(-> & H)];
    Z.to_euclidean_division_equations; lia.
Qed.

Lemma days_before_next_month y m :
  1 <= m < 12 ->
  days_before_month y (m + 1) = days_before_month y m + days_in_month y m.
Proof.
  intros Hm.
  assert (Hc : m = 1 \/ m = 2 \/ m = 3 \/ m = 4 \/ m = 5 \/ m = 6 \/ m = 7
               \/ m = 8 \/ m = 9 \/ m = 10 \/ m = 11) by lia.
  unfold days_before_month, days_in_month.
  repeat (destruct Hc as [Hc|Hc]); subst m; cbn;
    destruct (is_leap y); reflexivity.
Qed.

(** Stepping one day adds one to the ordinal and stays among the valid
    dates; it raises on December 31st, 9999 only. *)
Lemma add_one_day_ordinal d :
  valid_date d = true ->
  match add_one_day d with
  | Returned d' => toordinal d' = toordinal d + 1 /\ valid_date d' = true
  | Raised => d = mkdate 9999 12 31
  end.
Proof.
  destruct d as [y m k]. unfold valid_date. cbn [year month day].
  intros Hvalid.
  apply andb_prop in Hvalid. destruct Hvalid as [Hvalid Hk2].
  apply andb_prop in Hvalid. destruct Hvalid as [Hvalid Hk1].
  pose proof (valid_month_bounds y m Hvalid) as [Hy Hm].
  apply Z.leb_le in Hk1, Hk2.
  pose proof (days_in_month_range y m) as Hdim.
  unfold add_one_day, toordinal. cbn [year month day].
  destruct (Z.ltb_spec k (days_in_month y m)) as [Hlt|Hge].
  - unfold valid_date. cbn [year month day]. split; [lia|].
    rewrite Hvalid. apply andb_true_intro. split; apply Z.leb_le; lia.
  - destruct (Z.ltb_spec m 12) as [Hm12|Hm12].
    + cbn [year month day]. split.
      * rewrite days_before_next_month by lia. lia.
      * pose proof (days_in_month_range y (m + 1)).
        unfold valid_date, valid_month, MINYEAR, MAXYEAR.
        cbn [year month day].
        repeat (apply andb_true_intro; split); apply Z.leb_le; lia.
    + unfold MAXYEAR. destruct (Z.ltb_spec y 9999) as [Hy9|Hy9].
      * cbn [year month day]. split.
        -- rewrite days_before_next_year.
           assert (m = 12) by lia. subst m.
           assert (Hk31 : k = 31).
           { unfold days_in_month in *. cbn in *. lia. }
           subst k.
           assert (H1 : days_before_month (y + 1) 1 = 0) by reflexivity.
           assert (H12 : days_before_month y 12
                         = 334 + (if is_leap y then 1 else 0)).
           { unfold days_before_month. destruct (is_leap y); reflexivity. }
           rewrite H1, H12. lia.
        -- unfold valid_date, valid_month, MINYEAR, MAXYEAR.
           cbn [year month day].
           repeat (apply andb_true_intro; split); apply Z.leb_le;
             cbn; lia.
      * assert (m = 12) by lia. subst m.
        assert (y = 9999) by lia. subst y.
        f_equal. cbn in Hge, Hk2. lia.
Qed.

End DateArithmetic.

Module ThirdFriday.
Import CalendarFacts.

Ltac enumerate_week w :=
  let H := fresh in
  assert (H : w = 0 \/ w = 1 \/ w = 2 \/ w = 3 \/ w = 4 \/ w = 5 \/ w = 6)
    by lia;
  repeat (destruct H as [H|H]); subst w.

(** Every month has at least four Fridays, the third on the day
    [third_friday_day] names. *)
Lemma friday_days_shape w dim :
  0 <= w < 7 -> 28 <= dim <= 31 ->
  exists a b rest,
    friday_days w dim = a :: b :: third_friday_day w :: rest /\ rest <> [].
Proof.
  intros Hw Hdim.
  assert (Hd : dim = 28 \/ dim = 29 \/ dim = 30 \/ dim = 31) by lia.
  enumerate_week w; repeat (destruct Hd as [Hd|Hd]); subst dim;
    vm_compute; do 3 eexists; (split; [reflexivity|discriminate]).
Qed.

Lemma third_friday_day_spec w k :
  0 <= w < 7 ->
  k = third_friday_day w <-> (w + (k - 1)) mod 7 = 4 /\ 15 <= k <= 21.
Proof.
  intros Hw. enumerate_week w; split.
  all: try (intros ->; vm_compute; intuition discriminate).
  all: intros [Hmod Hk];
    assert (Hc : k = 15 \/ k = 16 \/ k = 17 \/ k = 18 \/ k = 19 \/ k = 20
                 \/ k = 21) by lia;
    repeat (destruct Hc as [Hc|Hc]); subst k;
    (reflexivity || (vm_compute in Hmod; discriminate)).
Qed.

(** In a month the loop can finish, the predicate names one day. *)
Lemma is_third_friday_day d :
  valid_date d = true ->
  ~ (year d = 9999 /\ month d = 12) ->
  is_third_friday d = true
  <-> day d = third_friday_day (weekday (mkdate (year d) (month d) 1)).
Proof.
  intros Hvalid Hlast. unfold valid_date in Hvalid.
  apply andb_prop in Hvalid. destruct Hvalid as [Hvalid _].
  apply andb_prop in Hvalid. destruct Hvalid as [Hvalid _].
  unfold is_third_friday.
  rewrite (month_fridays_returns _ _ Hvalid Hlast), fridays_of_month_days.
  destruct (friday_days_shape (weekday (mkdate (year d) (month d) 1))
              (days_in_month (year d) (month d))
              (weekday_range _) (days_in_month_range _ _))
    as (a & b & rest & -> & _).
  cbn [map length nth_error].
  replace (3 <=? Z.of_nat (S (S (S (length (map (mkdate (year d) (month d))
                                             rest))))))
    with true by (symmetry; apply Z.leb_le; lia).
  rewrite date_eqb_eq. destruct d as [y m k]. cbn [year month day].
  split; [intros H; injection H as ->; reflexivity|intros ->; reflexivity].
Qed.

Lemma third_or_last_friday_day d :
  third_or_last_friday d
  <-> day d = third_friday_day (weekday (mkdate (year d) (month d) 1)).
Proof.
  unfold third_or_last_friday. rewrite fridays_of_month_days.
  destruct (friday_days_shape (weekday (mkdate (year d) (month d) 1))
              (days_in_month (year d) (month d))
              (weekday_range _) (days_in_month_range _ _))
    as (a & b & rest & -> & _).
  cbn [map length nth_error]. destruct d as [y m k]. cbn [year month day].
  split.
  - intros [[_ H]|[H _]]; [injection H as ->; reflexivity|lia].
  - intros ->. left. split; [lia|reflexivity].
Qed.

Lemma month_fridays_total y m : month_fridays y m <> None.
Proof.
  destruct (valid_month y m) eqn:Hvalid.
  - destruct (Z.eq_dec y 9999) as [->|Hy].
    + destruct (Z.eq_dec m 12) as [->|Hm].
      * vm_compute. discriminate.
      * rewrite month_fridays_returns by (auto; lia). discriminate.
    + rewrite month_fridays_returns by (auto; lia). discriminate.
  - unfold month_fridays, first_of_month. rewrite Hvalid. discriminate.
Qed.

End ThirdFriday.

(** C8 at the input where the code departs from it. December 17th, 9999
    is a valid date and the third Friday of its month, yet the predicate
    answers false: the enumeration steps past December 31st, 9999, the
    addition raises and the handler answers [False]. *)
Lemma third_friday_of_last_month_is_missed :
  valid_date Scenarios.dec17_9999 = true
  /\ third_or_last_friday Scenarios.dec17_9999
  /\ is_third_friday Scenarios.dec17_9999 = false.
Proof.
  split; [reflexivity|]. split; [|vm_compute; reflexivity].
  left. split; vm_compute; [lia|reflexivity].
Qed.

(** X8. Everywhere else the predicate is the third-Friday test. For
    every valid date outside December 9999 the loop ends within its 32
    iterations and returns the Fridays of the whole month in ascending
    order, of which there are at least four; the predicate is true exactly
    when the date is the third of them, that is, a Friday whose day of the
    month lies between 15 and 21. (The fewer-than-three branch never
    runs.) In December 9999 the predicate is false for every date. *)
Theorem is_third_friday_before_last_month :
  (forall d,
     valid_date d = true ->
     ~ (year d = 9999 /\ month d = 12) ->
     month_fridays (year d) (month d)
     = Some (Returned (fridays_of_month (year d) (month d)))
     /\ (4 <= length (fridays_of_month (year d) (month d)))%nat
     /\ (is_third_friday d = true <-> third_or_last_friday d)
     /\ (is_third_friday d = true <->
         weekday d = 4 /\ 15 <= day d <= 21))
  /\ (forall d,
        year d = 9999 -> month d = 12 -> is_third_friday d = false)
  /\ (forall y m, month_fridays y m <> None).
Proof.
  split; [|split].
  - intros d Hvalid Hlast.
    assert (Hm : valid_month (year d) (month d) = true).
    { unfold valid_date in Hvalid.
      apply andb_prop in Hvalid. destruct Hvalid as [Hvalid _].
      apply andb_prop in Hvalid. destruct Hvalid as [Hvalid _].
      exact Hvalid. }
    split; [apply CalendarFacts.month_fridays_returns; assumption|].
    split; [|split].
    + rewrite CalendarFacts.fridays_of_month_days.
      destruct (ThirdFriday.friday_days_shape
                  (weekday (mkdate (year d) (month d) 1))
                  (days_in_month (year d) (month d))
                  (CalendarFacts.weekday_range _)
                  (CalendarFacts.days_in_month_range _ _))
        as (a & b & rest & -> & Hrest).
      destruct rest; [contradiction|]. cbn [map length]. lia.
    + rewrite ThirdFriday.is_third_friday_day by assumption.
      rewrite ThirdFriday.third_or_last_friday_day. reflexivity.
    + rewrite ThirdFriday.is_third_friday_day by assumption.
      rewrite (ThirdFriday.third_friday_day_spec _ (day d)
                 (CalendarFacts.weekday_range _)).
      rewrite <- CalendarFacts.weekday_of_day.
      destruct d; reflexivity.
  - intros [y m k] Hy Hm. cbn in Hy, Hm. subst y m.
    vm_compute. reflexivity.
  - apply ThirdFriday.month_fridays_total.
Qed.

Lemma is_third_friday_before_last_month_witness :
  is_third_friday Scenarios.aug16 = true
  <-> weekday Scenarios.aug16 = 4 /\ 15 <= day Scenarios.aug16 <= 21.
Proof.
  refine (proj2 (proj2 (proj2 (proj1 is_third_friday_before_last_month
                                 Scenarios.aug16 eq_refl _)))).
  vm_compute. intros [H _]. discriminate.
Defined.

(** * The breadth providers *)

Module Clamp.

Lemma ltb_leb x y : ltb x y = true -> leb x y = true.
Proof.
  unfold ltb, leb, SFltb, SFleb.
  destruct (SFcompare x y) as [[| |]|]; auto.
Qed.

(** [max(lo, min(hi, x))] lies between [lo] and [hi] whatever [x] is, NaN
    and the infinities included. *)
Lemma clamp_between lo hi x :
  leb lo lo = true -> leb lo hi = true -> leb hi hi = true ->
  ltb lo hi = true ->
  leb lo (py_max lo (py_min hi x)) = true
  /\ leb (py_max lo (py_min hi x)) hi = true.
Proof.
  intros Hlo Hlohi Hhi Hlt. unfold py_max, py_min.
  destruct (ltb x hi) eqn:Hx.
  - destruct (ltb lo x) eqn:Hl.
    + split; apply ltb_leb; assumption.
    + split; assumption.
  - rewrite Hlt. split; assumption.
Qed.

End Clamp.

(** C9. Whatever the date, the volatility argument and the state of the
    generator, [simulate_market_breadth] returns a value between 5.0 and
    50.0: the numeric path clamps, and the error path answers 25.0. The
    seed replaces the generator's state before the draw, so the value (and
    the state left behind) is the same for equal dates and volatilities,
    whatever state the generator was in. *)
Theorem simulated_breadth_in_range_and_seeded :
  (forall (R : Rng) date_val volatility g,
     leb f5 (fst (RSPBacktestMonitor.simulate_market_breadth date_val
                    volatility g)) = true
     /\ leb (fst (RSPBacktestMonitor.simulate_market_breadth date_val
                    volatility g)) f50 = true)
  /\ (forall (R : Rng) date_val g,
        fst (RSPBacktestMonitor.simulate_market_breadth date_val
               RSPBacktestMonitor.NonNumeric g) = f25)
  /\ (forall (R : Rng) date_val volatility g1 g2,
        RSPBacktestMonitor.simulate_market_breadth date_val volatility g1
        = RSPBacktestMonitor.simulate_market_breadth date_val volatility g2).
Proof.
  split; [|split].
  - intros R date_val volatility g.
    unfold RSPBacktestMonitor.simulate_market_breadth.
    destruct volatility as [v|].
    + destruct (uniform fm15 f15 _) as [variation g2]. cbn [fst].
      apply Clamp.clamp_between; reflexivity.
    + split; reflexivity.
  - reflexivity.
  - reflexivity.
Qed.

(** ** Rounding of binary64 sums

    What [SFadd] and [SFmul] do to a positive integer mantissa: the
    mantissa is brought to the exponent its magnitude calls for, by an
    exact shift to the left or by a shift to the right followed by
    rounding to nearest even. *)

Module Rounding.

Lemma digits2_pos_size p : digits2_pos p = Pos.size p.
Proof. induction p; cbn; congruence. Qed.

Lemma digits2_pos_bounds p :
  2 ^ (Zpos (digits2_pos p) - 1) <= Zpos p < 2 ^ Zpos (digits2_pos p).
Proof.
  rewrite digits2_pos_size. split.
  - pose proof (Pos.size_le p) as H.
    assert (H2 : 2 ^ Zpos (Pos.size p) <= 2 * Zpos p).
    { change 2 with (Zpos 2) at 1. rewrite <- Pos2Z.inj_pow.
      change (2 * Zpos p) with (Zpos p~0). apply Pos2Z.pos_le_pos. exact H. }
    replace (Zpos (Pos.size p)) with (Zpos (Pos.size p) - 1 + 1) in H2
      by lia.
    rewrite Z.pow_add_r in H2 by lia. lia.
  - pose proof (Pos.size_gt p) as H.
    change 2 with (Zpos 2). rewrite <- Pos2Z.inj_pow.
    apply Pos2Z.pos_lt_pos. exact H.
Qed.

Lemma iter_pos_nat {A : Type} (f : A -> A) p x :
  iter_pos f p x = Nat.iter (Pos.to_nat p) f x.
Proof.
  revert x. induction p as [p IH|p IH|]; intros x; cbn [iter_pos].
  - rewrite !IH, Pos2Nat.inj_xI.
    replace (S (2 * Pos.to_nat p))%nat
      with (Pos.to_nat p + (Pos.to_nat p + 1))%nat by lia.
    rewrite !Nat.iter_add. reflexivity.
  - rewrite !IH, Pos2Nat.inj_xO.
    replace (2 * Pos.to_nat p)%nat with (Pos.to_nat p + Pos.to_nat p)%nat
      by lia.
    rewrite Nat.iter_add. reflexivity.
  - reflexivity.
Qed.

Lemma shr_1_nonneg m r s :
  0 <= m ->
  shr_1 (Build_shr_record m r s)
  = Build_shr_record (m / 2) (Z.odd m) (r || s).
Proof.
  intros Hm. destruct m as [|[p|p|]|p]; try lia; cbn [shr_1 Z.odd].
  - reflexivity.
  - f_equal. rewrite Pos2Z.inj_xI.
    apply (Z.div_unique _ _ _ 1); lia.
  - f_equal. rewrite Pos2Z.inj_xO.
    apply (Z.div_unique _ _ _ 0); lia.
  - reflexivity.
Qed.

(** After [k] halvings the record holds the quotient by [2 ^ k], and its
    two low bits are clear exactly when nothing was shifted out. *)
Lemma shr_iter k m0 :
  0 <= m0 ->
  let rec := Nat.iter k shr_1 (Build_shr_record m0 false false) in
  exists rem,
    m0 = shr_m rec * 2 ^ Z.of_nat k + rem
    /\ 0 <= rem < 2 ^ Z.of_nat k
    /\ 0 <= shr_m rec
    /\ (shr_r rec || shr_s rec = false <-> rem = 0).
Proof.
  intros Hm0. induction k as [|k IH]; intros rec.
  - exists 0. subst rec. cbn. repeat split; try lia.
  - cbn zeta in IH. destruct IH as (rem & Heq & Hrem & Hpos & Hex).
    subst rec.
    change (Nat.iter (S k) shr_1 (Build_shr_record m0 false false))
      with (shr_1 (Nat.iter k shr_1 (Build_shr_record m0 false false))).
    destruct (Nat.iter k shr_1 (Build_shr_record m0 false false))
      as [mk rk sk].
    cbn [shr_m shr_r shr_s] in *.
    rewrite shr_1_nonneg by assumption. cbn [shr_m shr_r shr_s].
    pose proof (Z.div_mod mk 2 ltac:(lia)) as Hdm.
    pose proof (Z.mod_pos_bound mk 2 ltac:(lia)) as Hmb.
    assert (Hodd : Z.odd mk = true <-> mk mod 2 = 1).
    { rewrite Zmod_odd. destruct (Z.odd mk); intuition (auto; discriminate). }
    assert (Hpow : 2 ^ Z.of_nat (S k) = 2 * 2 ^ Z.of_nat k).
    { rewrite Nat2Z.inj_succ, Z.pow_succ_r by lia. reflexivity. }
    assert (Hp0 : 0 < 2 ^ Z.of_nat k) by (apply Z.pow_pos_nonneg; lia).
    exists ((mk mod 2) * 2 ^ Z.of_nat k + rem).
    rewrite Hpow. repeat split.
    + rewrite Heq at 1. rewrite Hdm at 1. ring.
    + nia.
    + nia.
    + apply Z.div_pos; lia.
    + intros Hx. apply orb_false_elim in Hx. destruct Hx as [Ho Hrs].
      assert (mk mod 2 = 0).
      { destruct (Z.eq_dec (mk mod 2) 1) as [H1|H1]; [|lia].
        apply Hodd in H1. congruence. }
      apply Hex in Hrs. nia.
    + intros Hz.
      assert (Hr0 : rem = 0) by nia.
      assert (Hm2 : mk mod 2 = 0) by nia.
      apply orb_false_intro.
      * destruct (Z.odd mk) eqn:Ho; [|reflexivity].
        assert (mk mod 2 = 1) by (apply Hodd; reflexivity). lia.
      * apply Hex. exact Hr0.
Qed.

End Rounding.

Module RoundingCases.
Import Rounding.

Lemma fexp_eq k : fexp prec emax k = Z.max (k - 53) (-1074).
Proof. reflexivity. Qed.

Lemma Zdigits2_bounds m :
  0 < m -> 2 ^ (Zdigits2 m - 1) <= m < 2 ^ Zdigits2 m /\ 0 < Zdigits2 m.
Proof.
  destruct m as [|p|p]; try lia. intros _. cbn [Zdigits2].
  split; [apply digits2_pos_bounds|lia].
Qed.

Lemma Zdigits2_le m k : 0 < m -> 0 <= k -> m < 2 ^ k -> Zdigits2 m <= k.
Proof.
  intros Hm Hk Hlt. destruct (Zdigits2_bounds m Hm) as [[Hlo _] Hd].
  destruct (Z_le_gt_dec (Zdigits2 m) k) as [|Hgt]; [assumption|].
  assert (2 ^ k <= 2 ^ (Zdigits2 m - 1)) by (apply Z.pow_le_mono_r; lia).
  lia.
Qed.

Lemma Zdigits2_pow53 : Zdigits2 (2 ^ 53) = 54.
Proof. reflexivity. Qed.

(** The second half of [binary_round_aux]: a mantissa that already fits
    is kept, one that rounding pushed to [2 ^ 53] is halved. *)
Lemma second_stage sx m e :
  0 <= m <= 2 ^ 53 -> -1074 <= e ->
  (let '(mrs, e') := shr_fexp prec emax m e loc_Exact in
   match shr_m mrs with
   | Z0 => S754_zero sx
   | Zpos p =>
       if e' <=? emax - prec then S754_finite sx p e' else S754_infinity sx
   | Zneg _ => S754_nan
   end)
  = finalize sx m e.
Proof.
  intros Hm He. unfold shr_fexp, finalize. rewrite fexp_eq.
  destruct (Z.eq_dec m 0) as [->|Hm0].
  - cbn [Zdigits2 Z.eqb].
    destruct (Z.max (0 + e - 53) (-1074) - e) eqn:Hn; try lia; reflexivity.
  - replace (m =? 0) with false by (symmetry; apply Z.eqb_neq; assumption).
    destruct (Z.eq_dec m (2 ^ 53)) as [->|Hm53].
    + rewrite Z.eqb_refl, Zdigits2_pow53.
      replace (Z.max (54 + e - 53) (-1074) - e) with 1 by lia.
      cbn [shr shr_record_of_loc iter_pos].
      rewrite shr_1_nonneg by lia. cbn [shr_m].
      change (2 ^ 53 / 2) with (2 ^ 52).
      change (emax - prec) with 971.
      destruct (e + 1 <=? 971); reflexivity.
    + replace (m =? 2 ^ 53) with false
        by (symmetry; apply Z.eqb_neq; assumption).
      assert (Hd : Zdigits2 m <= 53) by (apply Zdigits2_le; lia).
      destruct (Z.max (Zdigits2 m + e - 53) (-1074) - e) eqn:Hn; try lia;
        cbn [shr shr_record_of_loc shr_m];
        change (emax - prec) with 971;
        destruct m as [|pm|pm]; try lia; reflexivity.
Qed.

(** [binary_round_aux] on an exact positive mantissa. *)
Lemma binary_round_aux_exact sx m e :
  0 < m ->
  let E := fexp prec emax (Zdigits2 m + e) in
  exists m',
    0 <= m' <= 2 ^ 53
    /\ (E <= e -> m' = m)
    /\ (e < E ->
        m / 2 ^ (E - e) <= m' <= m / 2 ^ (E - e) + 1
        /\ (m mod 2 ^ (E - e) = 0 -> m' = m / 2 ^ (E - e)))
    /\ binary_round_aux prec emax sx m e loc_Exact
       = finalize sx m' (Z.max e E).
Proof.
  intros Hm E.
  destruct (Zdigits2_bounds m Hm) as [[Hlo Hhi] Hd].
  assert (HE : E = Z.max (Zdigits2 m + e - 53) (-1074)) by reflexivity.
  unfold binary_round_aux.
  destruct (shr_fexp prec emax m e loc_Exact) as [mrs e'] eqn:Hshr.
  unfold shr_fexp in Hshr. fold E in Hshr.
  cbn [shr_record_of_loc] in Hshr.
  destruct (E - e) as [|p|p] eqn:Hn.
  - (* no shift *)
    cbn [shr] in Hshr. injection Hshr as <- <-.
    cbn [shr_m loc_of_shr_record round_nearest_even].
    exists m. assert (Hd53 : Zdigits2 m <= 53) by lia.
    assert (m < 2 ^ 53).
    { apply Z.lt_le_trans with (1 := Hhi). apply Z.pow_le_mono_r; lia. }
    split; [lia|]. split; [reflexivity|]. split; [lia|].
    replace (Z.max e E) with e by lia.
    apply second_stage; lia.
  - (* a shift to the right by [p] bits *)
    cbn [shr] in Hshr. injection Hshr as <- <-.
    rewrite iter_pos_nat.
    destruct (shr_iter (Pos.to_nat p) m ltac:(lia))
      as (rem & Heq & Hrem & Hq & Hex).
    rewrite positive_nat_Z in Heq, Hrem.
    set (rec := Nat.iter (Pos.to_nat p) shr_1 (Build_shr_record m false false))
      in *.
    assert (Hp2 : 0 < 2 ^ Zpos p) by (apply Z.pow_pos_nonneg; lia).
    assert (Hdiv : m / 2 ^ Zpos p = shr_m rec).
    { symmetry. apply (Z.div_unique _ _ _ rem); lia. }
    assert (Hmod : m mod 2 ^ Zpos p = rem).
    { symmetry. apply (Z.mod_unique _ _ (shr_m rec)); lia. }
    assert (Hq53 : shr_m rec < 2 ^ 53).
    { destruct (Z_lt_le_dec (shr_m rec) (2 ^ 53)) as [|Hge]; [assumption|].
      exfalso.
      assert (Hbig : 2 ^ 53 * 2 ^ Zpos p <= m) by nia.
      rewrite <- Z.pow_add_r in Hbig by lia.
      assert (Hlt : 2 ^ (53 + Zpos p) < 2 ^ Zdigits2 m) by lia.
      apply Z.pow_lt_mono_r_iff in Hlt; lia. }
    set (m' := round_nearest_even (shr_m rec) (loc_of_shr_record rec)).
    assert (Hm' : shr_m rec <= m' <= shr_m rec + 1
                  /\ (rem = 0 -> m' = shr_m rec)).
    { subst m'. destruct rec as [q r s]. cbn [shr_m shr_r shr_s] in *.
      destruct r, s; cbn [loc_of_shr_record round_nearest_even];
        try destruct (Z.even q); split; try lia; intros Hr;
        apply Hex in Hr; discriminate. }
    exists m'. rewrite Hdiv, Hmod.
    split; [lia|]. split; [lia|]. split; [intros _; exact Hm'|].
    replace (Z.max e E) with (e + Zpos p) by lia.
    apply second_stage; lia.
  - (* the exponent is already above the one called for *)
    cbn [shr] in Hshr. injection Hshr as <- <-.
    cbn [shr_m loc_of_shr_record round_nearest_even].
    exists m. assert (Hd53 : Zdigits2 m <= 53) by lia.
    assert (m < 2 ^ 53).
    { apply Z.lt_le_trans with (1 := Hhi). apply Z.pow_le_mono_r; lia. }
    split; [lia|]. split; [reflexivity|]. split; [lia|].
    replace (Z.max e E) with e by lia.
    apply second_stage; lia.
Qed.

End RoundingCases.

Module RoundingSums.
Import Rounding RoundingCases.

Lemma pos_iter_xO m d :
  Zpos (Pos.iter xO m d) = Zpos m * 2 ^ Zpos d
  /\ digits2_pos (Pos.iter xO m d) = (digits2_pos m + d)%positive.
Proof.
  induction d as [|d IH] using Pos.peano_ind.
  - cbn [Pos.iter digits2_pos]. split; [lia|]. lia.
  - rewrite Pos.iter_succ. destruct IH as [IHv IHd].
    cbn [digits2_pos]. rewrite Pos2Z.inj_xO, IHv, IHd, Pos2Z.inj_succ.
    rewrite Z.pow_succ_r by lia. split; lia.
Qed.

Lemma shl_align_value mx ex ez :
  ez <= ex ->
  Zpos (fst (shl_align mx ex ez)) = Zpos mx * 2 ^ (ex - ez).
Proof.
  intros Hle. unfold shl_align.
  destruct (ez - ex) as [|d|d] eqn:Hd; try lia; cbn [fst].
  - replace (ex - ez) with 0 by lia. lia.
  - rewrite (proj1 (pos_iter_xO mx d)). f_equal. f_equal. lia.
Qed.

(** [binary_round] on a positive mantissa: the mantissa [m'] kept is the
    given one scaled to the exponent [E] its magnitude calls for, exactly
    when that is a shift to the left, within one unit above the quotient
    when it is a shift to the right; above the subnormal range it has its
    top bit set. *)
Lemma binary_round_cases sx mx ex :
  let E := fexp prec emax (Zpos (digits2_pos mx) + ex) in
  exists m',
    0 <= m' <= 2 ^ 53
    /\ (E <= ex -> m' = Zpos mx * 2 ^ (ex - E))
    /\ (ex < E ->
        Zpos mx / 2 ^ (E - ex) <= m' <= Zpos mx / 2 ^ (E - ex) + 1
        /\ (Zpos mx mod 2 ^ (E - ex) = 0 -> m' = Zpos mx / 2 ^ (E - ex)))
    /\ (-1074 < E -> 2 ^ 52 <= m')
    /\ binary_round prec emax sx mx ex = finalize sx m' E.
Proof.
  intros E.
  assert (HE : E = Z.max (Zpos (digits2_pos mx) + ex - 53) (-1074))
    by reflexivity.
  pose proof (digits2_pos_bounds mx) as [Hlo Hhi].
  unfold binary_round. fold E.
  destruct (shl_align mx ex E) as [mz ez] eqn:Hal.
  unfold shl_align in Hal.
  destruct (E - ex) as [|d|d] eqn:Hd.
  - (* already at the exponent called for *)
    injection Hal as <- <-.
    destruct (binary_round_aux_exact sx (Zpos mx) ex ltac:(lia))
      as (m' & Hm' & Hex & _ & Hres).
    cbn [Zdigits2] in Hex, Hres. fold E in Hex, Hres.
    specialize (Hex ltac:(lia)).
    exists m'. split; [exact Hm'|].
    replace (ex - E) with 0 by lia.
    split; [intros _; lia|]. split; [lia|]. split.
    + intros HEn.
      assert (Hdd : Zpos (digits2_pos mx) - 1 = 52) by lia.
      rewrite Hdd in Hlo. lia.
    + rewrite Hres. f_equal. lia.
  - (* a shift to the right, done by [binary_round_aux] *)
    injection Hal as <- <-.
    destruct (binary_round_aux_exact sx (Zpos mx) ex ltac:(lia))
      as (m' & Hm' & _ & Hin & Hres).
    cbn [Zdigits2] in Hin, Hres. fold E in Hin, Hres.
    rewrite Hd in Hin. specialize (Hin ltac:(lia)).
    exists m'. split; [exact Hm'|]. split; [lia|].
    split; [intros _; exact Hin|]. split.
    + intros HEn.
      assert (Hdd : Zpos (digits2_pos mx) - 1 = 52 + Zpos d) by lia.
      rewrite Hdd, Z.pow_add_r in Hlo by lia.
      assert (Hp2 : 0 < 2 ^ Zpos d) by (apply Z.pow_pos_nonneg; lia).
      assert (2 ^ 52 <= Zpos mx / 2 ^ Zpos d).
      { apply Z.div_le_lower_bound; lia. }
      lia.
    + rewrite Hres. f_equal. lia.
  - (* a shift to the left, exact *)
    injection Hal as <- <-.
    destruct (pos_iter_xO mx d) as [Hv Hdg].
    destruct (binary_round_aux_exact sx (Zpos (Pos.iter xO mx d)) E
                ltac:(lia)) as (m' & Hm' & Hex & _ & Hres).
    cbn [Zdigits2] in Hex, Hres. rewrite Hdg in Hex, Hres.
    replace (fexp prec emax (Zpos (digits2_pos mx + d) + E)) with E
      in Hex, Hres
      by (rewrite fexp_eq, Pos2Z.inj_add; lia).
    specialize (Hex ltac:(lia)). rewrite Hv in Hex.
    exists m'. split; [exact Hm'|].
    replace (ex - E) with (Zpos d) by lia.
    split; [intros _; exact Hex|]. split; [lia|]. split.
    + intros HEn.
      assert (Hdd : Zpos (digits2_pos mx) - 1 + Zpos d = 52) by lia.
      assert (Hp2 : 0 < 2 ^ Zpos d) by (apply Z.pow_pos_nonneg; lia).
      rewrite <- Hdd, Z.pow_add_r by lia. nia.
    + rewrite Hres. f_equal. lia.
Qed.

End RoundingSums.

(** ** The simulated breadth of the fetcher is 15 or above *)

Module SimulatedBreadth.
Import Rounding RoundingCases RoundingSums.

Lemma leb_zero_nonneg r : leb zero r = true -> nonneg r.
Proof. destruct r as [s|[|]| |[|] m e]; cbn; auto; discriminate. Qed.

Lemma finalize_nonneg m e : nonneg (finalize false m e).
Proof.
  unfold finalize.
  destruct (m =? 0); [exact I|].
  destruct (m =? 2 ^ 53); [destruct (e + 1 <=? 971)|destruct (e <=? 971)];
    exact I.
Qed.

Lemma nonneg_at_least_m10 x : nonneg x -> at_least_m10 x.
Proof.
  destruct x as [s|[|]| |[|] m e]; cbn; intros H; auto; contradiction.
Qed.

(** [20.0 * r] for [r] zero or above. *)
Lemma mul_20_nonneg r : nonneg r -> nonneg (mul f20 r).
Proof.
  destruct r as [s|[|]| |[|] m e]; cbn [nonneg]; intros H; try contradiction.
  - destruct s; exact I.
  - exact I.
  - unfold mul, f20, SFmul. cbn [xorb].
    destruct (binary_round_aux_exact false
                (Zpos (5629499534213120 * m)) (-48 + e) ltac:(lia))
      as (m' & _ & _ & _ & ->).
    apply finalize_nonneg.
Qed.

Lemma pow2_pos k : 0 <= k -> 0 < 2 ^ k.
Proof. intros. apply Z.pow_pos_nonneg; lia. Qed.

Lemma pow2_split a b : 0 <= a -> 0 <= b -> 2 ^ (a + b) = 2 ^ a * 2 ^ b.
Proof. intros. apply Z.pow_add_r; assumption. Qed.

(** A magnitude of at most 10 rounds to a magnitude of at most 10. *)
Lemma finalize_at_least_m10 m' E :
  0 <= m' <= 2 ^ 53 -> E <= -49 -> m' <= 10 * 2 ^ (- E) ->
  at_least_m10 (finalize true m' E).
Proof.
  intros Hm' HE Hle. unfold finalize.
  destruct (Z.eqb_spec m' 0) as [|Hm0]; [exact I|].
  destruct (Z.eqb_spec m' (2 ^ 53)) as [Hm53|Hm53].
  - assert (Hk : 53 < - E + 4).
    { apply (Z.pow_lt_mono_r_iff 2); try lia.
      rewrite pow2_split by lia. change (2 ^ 4) with 16.
      pose proof (pow2_pos (- E) ltac:(lia)). lia. }
    replace (E + 1 <=? 971) with true by (symmetry; apply Z.leb_le; lia).
    cbn [at_least_m10]. split; [lia|].
    change (Zpos (Z.to_pos (2 ^ 52))) with (2 ^ 52).
    replace (- E) with (- (E + 1) + 1) in Hle by lia.
    rewrite pow2_split in Hle by lia. change (2 ^ 1) with 2 in Hle.
    change (2 ^ 53) with (2 * 2 ^ 52) in Hm53. lia.
  - replace (E <=? 971) with true by (symmetry; apply Z.leb_le; lia).
    cbn [at_least_m10]. rewrite Z2Pos.id by lia. split; assumption.
Qed.

(** A positive magnitude of 15 or more rounds to 15 or more. *)
Lemma finalize_leb_15 m' E :
  0 < m' <= 2 ^ 53 ->
  -49 < E \/ (E = -49 /\ 15 * 2 ^ 49 <= m') ->
  leb f15 (finalize false m' E) = true.
Proof.
  intros Hm' HE. unfold finalize.
  destruct (Z.eqb_spec m' 0) as [|Hm0]; [lia|].
  destruct (Z.eqb_spec m' (2 ^ 53)) as [Hm53|Hm53].
  - destruct (E + 1 <=? 971); [|reflexivity].
    unfold leb, f15, SFleb, SFcompare.
    replace (-49 ?= E + 1) with Lt by (symmetry; apply Z.compare_lt_iff; lia).
    reflexivity.
  - destruct (E <=? 971); [|reflexivity].
    unfold leb, f15, SFleb, SFcompare.
    destruct HE as [HE|[-> Hbig]].
    + replace (-49 ?= E) with Lt by (symmetry; apply Z.compare_lt_iff; lia).
      reflexivity.
    + rewrite Z.compare_refl.
      change (Pos.compare_cont Eq 8444249301319680 (Z.to_pos m'))
        with (8444249301319680 ?= Z.to_pos m')%positive.
      assert (Hle : (8444249301319680 <= Z.to_pos m')%positive).
      { change (15 * 2 ^ 49) with 8444249301319680 in Hbig. lia. }
      apply Pos.compare_le_iff in Hle.
      destruct (8444249301319680 ?= Z.to_pos m')%positive;
        [reflexivity|reflexivity|contradiction].
Qed.

(** From a bound on a mantissa to the exponent rounding gives it. *)
Lemma digits_above p k :
  0 <= k -> 2 ^ k <= Zpos p -> k < Zpos (digits2_pos p).
Proof.
  intros Hk Hle. destruct (digits2_pos_bounds p) as [_ Hhi].
  apply (Z.pow_lt_mono_r_iff 2); lia.
Qed.

Lemma digits_below p k :
  0 <= k -> Zpos p < 2 ^ k -> Zpos (digits2_pos p) <= k.
Proof.
  intros Hk Hlt. destruct (digits2_pos_bounds p) as [Hlo _].
  assert (H : Zpos (digits2_pos p) - 1 < k).
  { apply (Z.pow_lt_mono_r_iff 2); lia. }
  lia.
Qed.

(** [-10.0 + y] for [y] zero or above is -10 or above. *)
Lemma add_m10_nonneg y : nonneg y -> at_least_m10 (add fm10 y).
Proof.
  destruct y as [s|[|]| |[|] my ey]; cbn [nonneg]; intros H;
    try contradiction.
  - cbn. split; [lia|]. vm_compute. discriminate.
  - exact I.
  - unfold add, fm10, SFadd. cbv zeta.
    set (ez := Z.min (-49) ey).
    rewrite !shl_align_value by lia. cbn [cond_Zopp].
    assert (HA : Zpos 5629499534213120 * 2 ^ (-49 - ez) = 10 * 2 ^ (- ez)).
    { change (Zpos 5629499534213120) with (10 * 2 ^ 49).
      replace (- ez) with (49 + (-49 - ez)) by lia.
      rewrite pow2_split by lia. ring. }
    pose proof (pow2_pos (ey - ez) ltac:(lia)) as HB.
    pose proof (pow2_pos (- ez) ltac:(lia)) as Hz.
    destruct (- (Zpos 5629499534213120 * 2 ^ (-49 - ez))
              + Zpos my * 2 ^ (ey - ez)) as [|p|p] eqn:HN;
      cbn [binary_normalize].
    + exact I.
    + destruct (binary_round_cases false p ez)
        as (m' & _ & _ & _ & _ & ->).
      apply nonneg_at_least_m10, finalize_nonneg.
    + assert (Hp : Zpos p <= 10 * 2 ^ (- ez)) by nia.
      destruct (binary_round_cases true p ez)
        as (m' & Hm' & Hex & Hin & _ & ->).
      set (E := fexp prec emax (Zpos (digits2_pos p) + ez)) in *.
      assert (HEeq : E = Z.max (Zpos (digits2_pos p) + ez - 53) (-1074))
        by reflexivity.
      assert (Hd : Zpos (digits2_pos p) <= - ez + 4).
      { apply digits_below; [lia|].
        rewrite pow2_split by lia. change (2 ^ 4) with 16. lia. }
      assert (HE : E <= -49) by lia.
      apply finalize_at_least_m10; [exact Hm'|exact HE|].
      destruct (Z_le_gt_dec E ez) as [Hle|Hgt].
      * rewrite (Hex Hle).
        replace (- E) with (- ez + (ez - E)) by lia.
        rewrite pow2_split by lia.
        pose proof (pow2_pos (ez - E) ltac:(lia)). nia.
      * destruct (Hin ltac:(lia)) as [[_ Hup] Hexact].
        pose proof (pow2_pos (E - ez) ltac:(lia)) as Hn.
        pose proof (pow2_pos (- E) ltac:(lia)) as HnE.
        assert (Hsplit : 10 * 2 ^ (- ez) = 10 * 2 ^ (- E) * 2 ^ (E - ez)).
        { replace (- ez) with (- E + (E - ez)) by lia.
          rewrite pow2_split by lia. ring. }
        pose proof (Z.mul_div_le (Zpos p) (2 ^ (E - ez)) Hn) as Hq.
        destruct (Z_lt_le_dec (Zpos p / 2 ^ (E - ez)) (10 * 2 ^ (- E)))
          as [Hlt|Hge]; [lia|].
        assert (Hpeq : Zpos p = 10 * 2 ^ (- E) * 2 ^ (E - ez)) by nia.
        rewrite Hexact.
        -- rewrite Hpeq, Z.div_mul by lia. lia.
        -- rewrite Hpeq. apply Z.mod_mul. lia.
Qed.

(** [25.0 + v] for [v] at -10 or above is 15 or above. *)
Lemma add_25_at_least_m10 v :
  at_least_m10 v -> leb f15 (add f25 v) = true.
Proof.
  destruct v as [s|[|]| |[|] mv ev]; cbn [at_least_m10]; intros H;
    try contradiction.
  - destruct s; reflexivity.
  - reflexivity.
  - (* a negative [v] of magnitude at most 10 *)
    destruct H as [Hev Hmv].
    unfold add, f25, SFadd. cbv zeta.
    replace (Z.min (-48) ev) with ev by lia.
    rewrite !shl_align_value by lia. cbn [cond_Zopp].
    replace (ev - ev) with 0 by lia. rewrite Z.pow_0_r, Z.mul_1_r.
    assert (HA : Zpos 7036874417766400 * 2 ^ (-48 - ev) = 25 * 2 ^ (- ev)).
    { change (Zpos 7036874417766400) with (25 * 2 ^ 48).
      replace (- ev) with (48 + (-48 - ev)) by lia.
      rewrite pow2_split by lia. ring. }
    pose proof (pow2_pos (- ev) ltac:(lia)) as Hz.
    destruct (Zpos 7036874417766400 * 2 ^ (-48 - ev) + - Zpos mv)
      as [|p|p] eqn:HN; try lia.
    cbn [binary_normalize].
    assert (Hp : 15 * 2 ^ (- ev) <= Zpos p) by lia.
    destruct (binary_round_cases false p ev)
      as (m' & Hm' & Hex & Hin & Hnorm & ->).
    set (E := fexp prec emax (Zpos (digits2_pos p) + ev)) in *.
    assert (HEeq : E = Z.max (Zpos (digits2_pos p) + ev - 53) (-1074))
      by reflexivity.
    assert (Hd : - ev + 3 < Zpos (digits2_pos p)).
    { apply digits_above; [lia|].
      rewrite pow2_split by lia. change (2 ^ 3) with 8. lia. }
    assert (HE : -49 <= E) by lia.
    specialize (Hnorm ltac:(lia)).
    apply finalize_leb_15; [change (2 ^ 52) with 4503599627370496 in Hnorm; lia|].
    destruct (Z.eq_dec E (-49)) as [HE49|HE49]; [right|left; lia].
    split; [exact HE49|].
    destruct (Z_le_gt_dec E ev) as [Hle|Hgt].
    + rewrite (Hex Hle). replace ev with (-49) in * by lia.
      rewrite HE49. change (-49 - -49) with 0. rewrite Z.pow_0_r.
      change (- -49) with 49 in Hp. lia.
    + destruct (Hin ltac:(lia)) as [[Hlow _] _].
      pose proof (pow2_pos (E - ev) ltac:(lia)) as Hn.
      assert (Hsplit : 15 * 2 ^ (- ev) = 15 * 2 ^ 49 * 2 ^ (E - ev)).
      { replace (- ev) with (49 + (E - ev)) by lia.
        rewrite pow2_split by lia. ring. }
      assert (15 * 2 ^ 49 <= Zpos p / 2 ^ (E - ev)).
      { apply Z.div_le_lower_bound; lia. }
      lia.
  - (* a positive [v] *)
    unfold add, f25, SFadd. cbv zeta.
    set (ez := Z.min (-48) ev).
    rewrite !shl_align_value by lia. cbn [cond_Zopp].
    assert (HA : Zpos 7036874417766400 * 2 ^ (-48 - ez) = 25 * 2 ^ (- ez)).
    { change (Zpos 7036874417766400) with (25 * 2 ^ 48).
      replace (- ez) with (48 + (-48 - ez)) by lia.
      rewrite pow2_split by lia. ring. }
    pose proof (pow2_pos (- ez) ltac:(lia)) as Hz.
    pose proof (pow2_pos (ev - ez) ltac:(lia)) as HB.
    destruct (Zpos 7036874417766400 * 2 ^ (-48 - ez)
              + Zpos mv * 2 ^ (ev - ez)) as [|p|p] eqn:HN; try nia.
    cbn [binary_normalize].
    assert (Hp : 25 * 2 ^ (- ez) <= Zpos p) by nia.
    destruct (binary_round_cases false p ez)
      as (m' & Hm' & _ & _ & Hnorm & ->).
    set (E := fexp prec emax (Zpos (digits2_pos p) + ez)) in *.
    assert (HEeq : E = Z.max (Zpos (digits2_pos p) + ez - 53) (-1074))
      by reflexivity.
    assert (Hd : - ez + 4 < Zpos (digits2_pos p)).
    { apply digits_above; [lia|].
      rewrite pow2_split by lia. change (2 ^ 4) with 16. lia. }
    specialize (Hnorm ltac:(lia)).
    apply finalize_leb_15;
      [change (2 ^ 52) with 4503599627370496 in Hnorm; lia|left; lia].
Qed.

End SimulatedBreadth.

Module BreadthFallback.
Import SimulatedBreadth.

Lemma leb_15_ltb_5 x : leb f15 x = true -> ltb f5 x = true.
Proof.
  destruct x as [s|[|]| |[|] m e];
    try (intros H; (discriminate H || reflexivity)).
  unfold leb, ltb, f15, f5, SFleb, SFltb, SFcompare.
  destruct (Z.compare_spec (-49) e) as [He|He|He]; try discriminate;
    intros _.
  - subst e. reflexivity.
  - replace (-50 ?= e) with Lt by (symmetry; apply Z.compare_lt_iff; lia).
    reflexivity.
Qed.

Lemma leb_15_not_below x : leb f15 x = true -> ltb x f15 = false.
Proof.
  destruct x as [s|[|]| |[|] m e];
    try (intros H; (discriminate H || reflexivity)).
  unfold leb, ltb, f15, SFleb, SFltb, SFcompare.
  rewrite (Z.compare_antisym (-49) e).
  destruct (-49 ?= e); cbn [CompOpp]; try discriminate; try reflexivity.
  generalize (Pos.compare_cont_antisym 8444249301319680 m Eq).
  cbn [CompOpp]. intros <-.
  destruct (Pos.compare_cont Eq 8444249301319680 m); cbn [CompOpp];
    intros H; (discriminate H || reflexivity).
Qed.

(** The clamp to [5, 45] keeps a value that is 15 or above at 15 or
    above. *)
Lemma clamp_keeps_15 x :
  leb f15 x = true -> leb f15 (py_max f5 (py_min f45 x)) = true.
Proof.
  intros Hx. unfold py_max, py_min.
  destruct (ltb x f45).
  - rewrite (leb_15_ltb_5 x Hx). exact Hx.
  - reflexivity.
Qed.

Section WithRng.
Context {R : Rng}.
Hypothesis draws_nonneg : random_nonneg R.

Lemma uniform_m10_10 g : at_least_m10 (fst (uniform fm10 f10 g)).
Proof.
  unfold uniform. pose proof (draws_nonneg g) as Hr.
  destruct (rng_random g) as [r g']. cbn [fst] in *.
  change (sub f10 fm10) with f20.
  apply add_m10_nonneg, mul_20_nonneg, leb_zero_nonneg, Hr.
Qed.

Lemma simulated_breadth_at_least_15 now g :
  leb f15 (fst (MarketBreadthFetcher._get_simulated_breadth now g)) = true.
Proof.
  unfold MarketBreadthFetcher._get_simulated_breadth.
  pose proof (uniform_m10_10 (rng_seed (date_number now mod 1000))) as Hv.
  destruct (uniform fm10 f10 _) as [variation g2]. cbn [fst] in *.
  apply clamp_keeps_15, add_25_at_least_m10, Hv.
Qed.

End WithRng.
End BreadthFallback.

(** C4 at the input where the code departs from it. The class the monitor
    defines when the fetcher cannot be imported answers
    [random.uniform(10, 30)]: a draw of 0.125 from [random()] gives 12.5,
    which is below 15 and, with the second stage fired, sends the
    third-dip message. *)
Lemma substitute_breadth_can_trigger :
  leb zero f0_125 = true /\ ltb f0_125 f1 = true
  /\ fst (@SubstituteFetcher.get_market_breadth Scenarios.eighth_rng tt)
     = f12_5
  /\ ltb f12_5 f15 = true
  /\ map t_type
       (RSPMonitor.messages
          (RSPMonitor.check_triggers Scenarios.st_second_fired
             Scenarios.df_aug15 Scenarios.aug15
             (Returned
                (fst (@SubstituteFetcher.get_market_breadth
                        Scenarios.eighth_rng tt)))))
     = [third_dip].
Proof. repeat split; vm_compute; reflexivity. Qed.

(** X9. The two other failure paths do return a value that cannot
    trigger. The monitor's breadth lookup always answers: when the fetcher
    raises it answers 20.0. When every source of the fetcher fails (each answers
    [None], or the loop raises) the fetcher answers its simulated value,
    25 plus a uniform draw from [-10, 10] clamped to [5, 45], which is 15
    or above for every draw of [random()]. Neither value is below 15, and
    an evaluation whose lookup raised does not turn the third flag on. *)
Theorem breadth_failure_defaults_do_not_trigger :
  (RSPMonitor.get_market_breadth Raised = f20
   /\ leb f15 f20 = true /\ ltb f20 f15 = false)
  /\ (forall st today row,
        RSPMonitor.third_dip_triggered
          (RSPMonitor.state_after (RSPMonitor.evaluate st today row Raised))
        = RSPMonitor.third_dip_triggered st)
  /\ (forall (R : Rng),
        random_nonneg R ->
        forall loop now g,
          (loop = Raised
           \/ exists results,
                loop = Returned results
                /\ MarketBreadthFetcher.first_available results = None) ->
          MarketBreadthFetcher.get_market_breadth loop now g
          = MarketBreadthFetcher._get_simulated_breadth now g
          /\ leb f15 (fst (MarketBreadthFetcher.get_market_breadth loop now g))
             = true
          /\ ltb (fst (MarketBreadthFetcher.get_market_breadth loop now g))
               f15 = false).
Proof.
  split; [repeat split|]. split.
  - intros st today row.
    destruct (LiveFacts.evaluate_transition st today row Raised)
      as (_ & _ & _ & Ht & _).
    rewrite Ht.
    change (ltb (RSPMonitor.get_market_breadth Raised) f15) with false.
    rewrite andb_false_r, orb_false_r. reflexivity.
  - intros R Hdraws loop now g Hfail.
    assert (Heq : MarketBreadthFetcher.get_market_breadth loop now g
                  = MarketBreadthFetcher._get_simulated_breadth now g).
    { unfold MarketBreadthFetcher.get_market_breadth.
      destruct Hfail as [->|(results & -> & ->)]; reflexivity. }
    rewrite Heq. split; [reflexivity|].
    pose proof (BreadthFallback.simulated_breadth_at_least_15 Hdraws now g)
      as H15.
    split; [exact H15|]. apply BreadthFallback.leb_15_not_below, H15.
Qed.

Lemma constant_rng_nonneg r : leb zero r = true -> random_nonneg (constant_rng r).
Proof. intros Hr g. exact Hr. Qed.

Lemma breadth_failure_defaults_do_not_trigger_witness :
  ltb (fst (@MarketBreadthFetcher.get_market_breadth Scenarios.eighth_rng
              (Returned [None; None]) Scenarios.aug15 tt)) f15 = false.
Proof.
  exact (proj2 (proj2 (proj2 (proj2 breadth_failure_defaults_do_not_trigger)
                         Scenarios.eighth_rng
                         (constant_rng_nonneg f0_125 eq_refl)
                         (Returned [None; None]) Scenarios.aug15 tt
                         (or_intror
                            (ex_intro _ [None; None]
                               (conj eq_refl eq_refl)))))).
Defined.

(** * Further properties of the sources *)

(** ** Order of floats *)

Module FloatOrder.

Lemma SFcompare_antisym a b :
  SFcompare b a = option_map CompOpp (SFcompare a b).
Proof.
  destruct a as [[|]|[|]| |[|] ma ea], b as [[|]|[|]| |[|] mb eb];
    try reflexivity; unfold SFcompare; cbn [option_map CompOpp].
  - rewrite (Z.compare_antisym ea eb).
    generalize (Pos.compare_cont_antisym ma mb Eq). cbn [CompOpp].
    intros <-.
    destruct (ea ?= eb); cbn [CompOpp];
      rewrite ?CompOpp_involutive; reflexivity.
  - rewrite (Z.compare_antisym ea eb).
    generalize (Pos.compare_cont_antisym ma mb Eq). cbn [CompOpp].
    intros <-.
    destruct (ea ?= eb); cbn [CompOpp];
      rewrite ?CompOpp_involutive; reflexivity.
Qed.

Lemma ltb_antisym a b : ltb a b = true -> ltb b a = false.
Proof.
  unfold ltb, SFltb. rewrite (SFcompare_antisym a b).
  destruct (SFcompare a b) as [[| |]|]; cbn; intros H;
    (discriminate H || reflexivity).
Qed.

Lemma SFcompare_refl a : SFcompare a a = Some Eq \/ SFcompare a a = None.
Proof.
  destruct a as [s|s| |s m e]; cbn; auto.
  - destruct s; auto.
  - rewrite Z.compare_refl, Pos.compare_cont_refl. destruct s; auto.
Qed.

Lemma ltb_irrefl a : ltb a a = false.
Proof.
  unfold ltb, SFltb. destruct (SFcompare_refl a) as [-> | ->]; reflexivity.
Qed.

(** [min(a, b)] is above neither argument. *)
Lemma py_min_not_above a b :
  ltb a (py_min a b) = false /\ ltb b (py_min a b) = false
  /\ (py_min a b = a \/ py_min a b = b).
Proof.
  unfold py_min. destruct (ltb b a) eqn:Hba.
  - split; [apply ltb_antisym; exact Hba|].
    split; [apply ltb_irrefl|right; reflexivity].
  - split; [apply ltb_irrefl|]. split; [exact Hba|left; reflexivity].
Qed.

(** [max(a, b)] is below neither argument. *)
Lemma py_max_not_below a b :
  ltb (py_max a b) a = false /\ ltb (py_max a b) b = false
  /\ (py_max a b = a \/ py_max a b = b).
Proof.
  unfold py_max. destruct (ltb a b) eqn:Hab.
  - split; [apply ltb_antisym; exact Hab|].
    split; [apply ltb_irrefl|right; reflexivity].
  - split; [apply ltb_irrefl|]. split; [exact Hab|left; reflexivity].
Qed.

(** A float strictly above one that is zero or above is zero or above. *)
Lemma nonneg_ltb a b : nonneg a -> ltb a b = true -> nonneg b.
Proof.
  destruct a as [[|]|[|]| |[|] ma ea]; cbn [nonneg]; intros Ha;
    try contradiction;
    destruct b as [sb|[|]| |[|] mb eb]; cbn [nonneg];
    intros H; try exact I; discriminate H.
Qed.

Lemma nonneg_py_max a b : nonneg a -> nonneg (py_max a b).
Proof.
  intros Ha. unfold py_max. destruct (ltb a b) eqn:Hab; [|exact Ha].
  apply (nonneg_ltb a b Ha Hab).
Qed.

End FloatOrder.

(** ** The live monitor: what a completed check leaves behind *)

Module LiveState.
Import RSPMonitor LiveFacts CheckFacts.

(** The stages leave the running low and the returns alone. *)
Lemma evaluate_low_and_date st today row call :
  month_low_price (state_after (evaluate st today row call))
  = month_low_price (update_month_low st (bar_close row))
  /\ last_check_date (state_after (evaluate st today row call))
     = strftime_Ymd today
  /\ monthly_returns (state_after (evaluate st today row call))
     = monthly_returns st.
Proof.
  unfold evaluate, stage_first, stage_second, stage_third.
  assert (Hr : monthly_returns (update_month_low st (bar_close row))
               = monthly_returns st).
  { unfold update_month_low. destruct (month_low_price st); reflexivity. }
  revert Hr.
  generalize (cumulative_decline_of (update_month_low st (bar_close row))
                (bar_close row)).
  generalize (update_month_low st (bar_close row)).
  intros st1 decline Hr.
  generalize (geb decline f0_05) (ltb (get_market_breadth call) f15)
    (is_third_friday today) (strftime_Ymd today).
  generalize (leb (if negb (isna (bar_daily_return row))
                   then bar_daily_return row else zero) fm0_01).
  intros dip deep low friday stamp.
  destruct st1 as [cm fd md sd td msp mlp lcd mr]. cbn in Hr. subst mr.
  destruct fd, md, sd, td, dip, friday, deep, low; cbn; repeat split.
Qed.

Lemma todays_row_nonempty df today row :
  todays_row df today = Some row -> df <> [].
Proof. intros H ->. discriminate H. Qed.

Lemma check_triggers_with_row st df today call row :
  todays_row df today = Some row ->
  check_triggers st df today call
  = evaluate (month_rollover st df today) today row call.
Proof.
  intros Hrow. destruct df as [|b df']; [discriminate Hrow|].
  rewrite Reevaluation.check_triggers_by_row, Hrow. reflexivity.
Qed.

Lemma check_triggers_without_row st df today call :
  todays_row df today = None ->
  messages (check_triggers st df today call) = []
  /\ saved (check_triggers st df today call) = None.
Proof.
  intros Hrow. destruct df as [|b df']; [split; reflexivity|].
  rewrite Reevaluation.check_triggers_by_row, Hrow. split; reflexivity.
Qed.

End LiveState.

(** X1. After a completed check the dictionary holds a running low for
    the month: a price not above today's close and not above the low the
    month check left, and one of the two. In a new month the low restarts
    at today's close. *)
Theorem month_low_is_running_minimum :
  forall st df today call row,
    todays_row df today = Some row ->
    let st0 := RSPMonitor.month_rollover st df today in
    let r := RSPMonitor.check_triggers st df today call in
    exists low,
      RSPMonitor.month_low_price (RSPMonitor.state_after r) = Some low
      /\ ltb (bar_close row) low = false
      /\ (low = bar_close row \/ RSPMonitor.month_low_price st0 = Some low)
      /\ (forall prev,
            RSPMonitor.month_low_price st0 = Some prev ->
            ltb prev low = false)
      /\ (RSPMonitor.current_month st <> strftime_Ym today ->
          low = bar_close row).
Proof.
  intros st df today call row Hrow st0 r. subst r.
  rewrite (LiveState.check_triggers_with_row _ _ _ _ _ Hrow). fold st0.
  destruct (LiveState.evaluate_low_and_date st0 today row call) as (Hl & _).
  rewrite Hl. clear Hl. unfold RSPMonitor.update_month_low.
  assert (Hnew : RSPMonitor.current_month st <> strftime_Ym today ->
                 RSPMonitor.month_low_price st0 = None).
  { intros Hne. subst st0. unfold RSPMonitor.month_rollover.
    apply String.eqb_neq in Hne. rewrite Hne. cbn [negb].
    destruct (filter _ df); reflexivity. }
  destruct (RSPMonitor.month_low_price st0) as [prev|] eqn:Hprev.
  - exists (py_min prev (bar_close row)). cbn.
    destruct (FloatOrder.py_min_not_above prev (bar_close row))
      as (Ha & Hb & Hc).
    split; [reflexivity|]. split; [exact Hb|]. split.
    + destruct Hc as [Hc|Hc]; rewrite Hc; auto.
    + split.
      * intros p Hp. injection Hp as <-. exact Ha.
      * intros Hne. discriminate (Hnew Hne).
  - exists (bar_close row). cbn.
    split; [reflexivity|]. split; [apply FloatOrder.ltb_irrefl|].
    split; [left; reflexivity|]. split; [discriminate|reflexivity].
Qed.

Lemma month_low_is_running_minimum_witness :
  exists low,
    RSPMonitor.month_low_price
      (RSPMonitor.state_after
         (RSPMonitor.check_triggers Scenarios.st_second_fired
            Scenarios.df_aug15 Scenarios.aug15 Raised)) = Some low
    /\ ltb Scenarios.f95 low = false.
Proof.
  destruct (month_low_is_running_minimum Scenarios.st_second_fired
              Scenarios.df_aug15 Scenarios.aug15 Raised
              (Scenarios.row Scenarios.aug15 Scenarios.f95 Scenarios.f95 zero)
              eq_refl) as (low & H1 & H2 & _).
  exists low. split; [exact H1|exact H2].
Defined.

(** X2. A check writes the state file exactly when the frame holds a row
    for today. What it writes is the dictionary it leaves in memory,
    stamped with today's date and month; messages are sent only by a check
    that writes. *)
Theorem check_saves_exactly_with_todays_row :
  forall st df today call,
    let r := RSPMonitor.check_triggers st df today call in
    (RSPMonitor.saved r = None <-> todays_row df today = None)
    /\ (RSPMonitor.messages r <> [] -> RSPMonitor.saved r <> None)
    /\ (forall s,
          RSPMonitor.saved r = Some s ->
          s = RSPMonitor.state_after r
          /\ RSPMonitor.last_check_date s = strftime_Ymd today
          /\ RSPMonitor.current_month s = strftime_Ym today
          /\ RSPMonitor.monthly_returns s = RSPMonitor.monthly_returns st).
Proof.
  intros st df today call r. subst r.
  destruct (todays_row df today) as [row|] eqn:Hrow.
  - rewrite (LiveState.check_triggers_with_row _ _ _ _ _ Hrow).
    destruct (LiveFacts.evaluate_transition
                (RSPMonitor.month_rollover st df today) today row call)
      as (_ & _ & _ & _ & _ & _ & Hc & Hs).
    destruct (LiveState.evaluate_low_and_date
                (RSPMonitor.month_rollover st df today) today row call)
      as (_ & Hd & Hr).
    rewrite Hs. split; [split; discriminate|]. split; [discriminate|].
    intros s H. injection H as <-.
    rewrite Hc, Hd, Hr, CheckFacts.month_rollover_current.
    repeat split.
    destruct (CheckFacts.month_rollover_cases st df today)
      as [[_ ->]|(Hne & _)]; [reflexivity|].
    unfold RSPMonitor.month_rollover.
    apply String.eqb_neq in Hne. rewrite Hne. cbn [negb].
    destruct (filter _ df); reflexivity.
  - destruct (LiveState.check_triggers_without_row st df today call Hrow)
      as [Hm Hs].
    rewrite Hm, Hs. split; [split; reflexivity|].
    split; [intros H; elim H; reflexivity|discriminate].
Qed.

(** ** The live monitor: months and stages *)

Module LiveMonths.
Import RSPMonitor LiveFacts CheckFacts.

Lemma evaluate_same_month_record a b today row call :
  same_month_record a b ->
  messages (evaluate a today row call) = messages (evaluate b today row call)
  /\ same_month_record (state_after (evaluate a today row call))
       (state_after (evaluate b today row call)).
Proof.
  intros (Hc & Hf & Hd & Hs & Ht & Hp & Hl).
  destruct (evaluate_transition a today row call)
    as (Af & Ad & As & At & Am & Ap & Ac & _).
  destruct (evaluate_transition b today row call)
    as (Bf & Bd & Bs & Bt & Bm & Bp & Bc & _).
  destruct (LiveState.evaluate_low_and_date a today row call) as (Al & _).
  destruct (LiveState.evaluate_low_and_date b today row call) as (Bl & _).
  unfold same_month_record.
  rewrite Am, Bm, Af, Bf, Ad, Bd, As, Bs, At, Bt, Ap, Bp, Ac, Bc, Al, Bl.
  rewrite (Reevaluation.cumulative_decline_of_ext a b _ Hp).
  rewrite Hc, Hf, Hd, Hs, Ht, Hp.
  unfold update_month_low. rewrite Hl.
  repeat split. destruct (month_low_price b); reflexivity.
Qed.

Lemma month_rollover_new_month a b df today :
  current_month a <> strftime_Ym today ->
  current_month b <> strftime_Ym today ->
  same_month_record (month_rollover a df today) (month_rollover b df today).
Proof.
  intros Ha Hb. unfold month_rollover.
  apply String.eqb_neq in Ha. apply String.eqb_neq in Hb.
  rewrite Ha, Hb. cbn [negb].
  destruct (filter _ df); repeat split.
Qed.

(** One evaluation adds to each stage's messages what it adds to the
    stage's record in the dictionary. *)
Lemma evaluate_stage_balance st today row call s :
  (stage_count s (messages (evaluate st today row call))
   + Nat.b2n (stage_done s st))%nat
  = Nat.b2n (stage_done s (state_after (evaluate st today row call))).
Proof.
  destruct (evaluate_transition st today row call)
    as (Hf & Hd & Hs & Ht & _).
  unfold stage_count. rewrite Ordering.evaluate_message_types.
  assert (Hdone : forall x,
            stage_done s x
            = match s with
              | 1%nat => first_dip_triggered x || monthly_deadline_triggered x
              | 2%nat => second_dip_triggered x
              | 3%nat => third_dip_triggered x
              | _ => false
              end) by reflexivity.
  rewrite !Hdone.
  destruct s as [|[|[|[|s']]]]; rewrite ?Hf, ?Hd, ?Hs, ?Ht; clear Hf Hd Hs Ht.
  all: generalize (leb (if negb (isna (bar_daily_return row))
                        then bar_daily_return row else zero) fm0_01)
         (is_third_friday today)
         (geb (cumulative_decline_of st (bar_close row)) f0_05)
         (ltb (get_market_breadth call) f15);
    intros dip friday deep low;
    destruct (first_dip_triggered st), (monthly_deadline_triggered st),
      (second_dip_triggered st), (third_dip_triggered st),
      dip, friday, deep, low; reflexivity.
Qed.

Lemma stage_count_app s ts us :
  stage_count s (ts ++ us) = (stage_count s ts + stage_count s us)%nat.
Proof.
  unfold stage_count. rewrite map_app, filter_app, length_app. reflexivity.
Qed.

Lemma main_stage_balance file i s :
  (stage_count s (snd (main file i))
   + carried (strftime_Ym (in_today i)) s file)%nat
  = carried (strftime_Ym (in_today i)) s (fst (main file i)).
Proof.
  destruct i as [init df today call]. unfold main, run_daily_check.
  cbn [in_initialized in_df in_today in_call fst snd].
  destruct init; [|reflexivity].
  destruct (todays_row df today) as [row|] eqn:Hrow.
  - rewrite (LiveState.check_triggers_with_row _ _ _ _ _ Hrow).
    destruct (evaluate_transition
                (month_rollover (load_state file) df today) today row call)
      as (_ & _ & _ & _ & _ & _ & Hc & Hs).
    rewrite Hs. unfold carried at 2. cbn [load_state].
    rewrite Hc, month_rollover_current, String.eqb_refl.
    rewrite <- evaluate_stage_balance. f_equal.
    unfold carried.
    destruct (month_rollover_cases (load_state file) df today)
      as [[He ->]|(Hne & _ & Hf & Hd & Hsd & Htd & _)].
    + rewrite He, String.eqb_refl. reflexivity.
    + apply String.eqb_neq in Hne. rewrite Hne.
      destruct s as [|[|[|[|s']]]]; cbn [stage_done];
        rewrite ?Hf, ?Hd, ?Hsd, ?Htd; reflexivity.
  - destruct (LiveState.check_triggers_without_row (load_state file) df today
                call Hrow) as [Hm Hs].
    rewrite Hm, Hs. reflexivity.
Qed.

Lemma main_runs_stage_balance month_key s inputs :
  forall file,
    (forall i, In i inputs -> strftime_Ym (in_today i) = month_key) ->
    (stage_count s (snd (main_runs file inputs))
     + carried month_key s file)%nat
    = carried month_key s (fst (main_runs file inputs)).
Proof.
  induction inputs as [|i rest IH]; intros file Hmonth; [reflexivity|].
  cbn [main_runs].
  pose proof (main_stage_balance file i s) as H1.
  rewrite (Hmonth i (or_introl eq_refl)) in H1.
  destruct (main file i) as [file1 sent1]. cbn [fst snd] in H1.
  specialize (IH file1 (fun j Hj => Hmonth j (or_intror Hj))).
  destruct (main_runs file1 rest) as [file2 sent2]. cbn [fst snd] in IH |- *.
  rewrite stage_count_app. lia.
Qed.

Lemma carried_le_1 month_key s file : (carried month_key s file <= 1)%nat.
Proof.
  unfold carried. destruct (String.eqb _ _); [|lia].
  destruct (stage_done s (load_state file)); cbn; lia.
Qed.

End LiveMonths.

(** X3. The first check of a new month does not depend on what the
    previous month left in the dictionary: from any two dictionaries of
    other months it sends the same messages and leaves the same month,
    flags, start price and low. *)
Theorem new_month_starts_clean :
  forall st1 st2 df today call,
    RSPMonitor.current_month st1 <> strftime_Ym today ->
    RSPMonitor.current_month st2 <> strftime_Ym today ->
    df <> [] ->
    let r1 := RSPMonitor.check_triggers st1 df today call in
    let r2 := RSPMonitor.check_triggers st2 df today call in
    RSPMonitor.messages r1 = RSPMonitor.messages r2
    /\ same_month_record (RSPMonitor.state_after r1)
         (RSPMonitor.state_after r2)
    /\ RSPMonitor.current_month (RSPMonitor.state_after r1)
       = strftime_Ym today.
Proof.
  intros st1 st2 df today call H1 H2 Hdf r1 r2. subst r1 r2.
  pose proof (LiveMonths.month_rollover_new_month st1 st2 df today H1 H2)
    as Hroll.
  destruct df as [|b df']; [contradiction|].
  rewrite !Reevaluation.check_triggers_by_row.
  destruct (todays_row (b :: df') today) as [row|].
  - destruct (LiveMonths.evaluate_same_month_record _ _ today row call Hroll)
      as [Hm Hs].
    split; [exact Hm|]. split; [exact Hs|].
    destruct (LiveFacts.evaluate_transition
                (RSPMonitor.month_rollover st1 (b :: df') today) today row
                call) as (_ & _ & _ & _ & _ & _ & Hc & _).
    rewrite Hc. apply CheckFacts.month_rollover_current.
  - cbn [RSPMonitor.messages RSPMonitor.state_after].
    split; [reflexivity|]. split; [exact Hroll|].
    apply CheckFacts.month_rollover_current.
Qed.

Lemma new_month_starts_clean_witness :
  RSPMonitor.messages
    (RSPMonitor.check_triggers Scenarios.st_july Scenarios.df_aug02
       Scenarios.aug02 Raised)
  = RSPMonitor.messages
      (RSPMonitor.check_triggers RSPMonitor.default_state Scenarios.df_aug02
         Scenarios.aug02 Raised).
Proof.
  refine (proj1 (new_month_starts_clean Scenarios.st_july
                   RSPMonitor.default_state Scenarios.df_aug02
                   Scenarios.aug02 Raised _ _ _)).
  - vm_compute. discriminate.
  - vm_compute. discriminate.
  - discriminate.
Defined.


(** X5. In a completed check no flag of the month is turned off, and a
    message of a type is sent exactly when the flag of that type goes from
    unset, as the month check left it, to set. *)
Theorem alert_sent_exactly_when_flag_turns_on :
  forall st df today call row,
    todays_row df today = Some row ->
    let st0 := RSPMonitor.month_rollover st df today in
    let r := RSPMonitor.check_triggers st df today call in
    forall ty,
      (flag_of ty st0 = true -> flag_of ty (RSPMonitor.state_after r) = true)
      /\ (In ty (map t_type (RSPMonitor.messages r))
          <-> flag_of ty st0 = false
              /\ flag_of ty (RSPMonitor.state_after r) = true).
Proof.
  intros st df today call row Hrow st0 r ty. subst r.
  rewrite (LiveState.check_triggers_with_row _ _ _ _ _ Hrow). fold st0.
  destruct (LiveFacts.evaluate_transition st0 today row call)
    as (Hf & Hd & Hs & Ht & _).
  rewrite Ordering.evaluate_message_types.
  assert (Hflag : forall x,
            flag_of ty x
            = match ty with
              | first_dip => RSPMonitor.first_dip_triggered x
              | monthly_deadline => RSPMonitor.monthly_deadline_triggered x
              | second_dip => RSPMonitor.second_dip_triggered x
              | third_dip => RSPMonitor.third_dip_triggered x
              end) by reflexivity.
  rewrite !Hflag. clear Hflag.
  destruct ty; rewrite ?Hf, ?Hd, ?Hs, ?Ht; clear Hf Hd Hs Ht.
  all: generalize (leb (if negb (isna (bar_daily_return row))
                        then bar_daily_return row else zero) fm0_01)
         (is_third_friday today)
         (geb (RSPMonitor.cumulative_decline_of st0 (bar_close row)) f0_05)
         (ltb (RSPMonitor.get_market_breadth call) f15);
    intros dip friday deep low;
    destruct (RSPMonitor.first_dip_triggered st0),
      (RSPMonitor.monthly_deadline_triggered st0),
      (RSPMonitor.second_dip_triggered st0),
      (RSPMonitor.third_dip_triggered st0), dip, friday, deep, low;
    cbn [negb andb orb app In];
    (split; [auto|split; [intros H|intros [H1 H2]]]);
    repeat match goal with
           | H : _ \/ _ |- _ => destruct H
           | H : False |- _ => destruct H
           end; try discriminate; auto.
Qed.

Lemma alert_sent_exactly_when_flag_turns_on_witness :
  In second_dip
    (map t_type
       (RSPMonitor.messages
          (RSPMonitor.check_triggers RSPMonitor.default_state
             Scenarios.df_aug02 Scenarios.aug02 Raised)))
  <-> flag_of second_dip
        (RSPMonitor.month_rollover RSPMonitor.default_state
           Scenarios.df_aug02 Scenarios.aug02) = false
      /\ flag_of second_dip
           (RSPMonitor.state_after
              (RSPMonitor.check_triggers RSPMonitor.default_state
                 Scenarios.df_aug02 Scenarios.aug02 Raised)) = true.
Proof.
  exact (proj2 (alert_sent_exactly_when_flag_turns_on
                  RSPMonitor.default_state Scenarios.df_aug02
                  Scenarios.aug02 Raised
                  (Scenarios.row Scenarios.aug02 Scenarios.f90 Scenarios.f90
                     zero)
                  eq_refl second_dip)).
Defined.

(** X6. However often the program runs within one calendar month, and
    whatever the state file held before, each stage sends at most one
    message: one first-dip or deadline message, one second-dip message and
    one third-dip message. A stage the file already records as done for
    that month sends none. *)
Theorem each_stage_alerts_once_a_month :
  forall file inputs month_key,
    (forall i, In i inputs ->
       strftime_Ym (RSPMonitor.in_today i) = month_key) ->
    forall s,
      (stage_count s (snd (RSPMonitor.main_runs file inputs)) <= 1)%nat
      /\ (RSPMonitor.current_month (RSPMonitor.load_state file) = month_key ->
          stage_done s (RSPMonitor.load_state file) = true ->
          stage_count s (snd (RSPMonitor.main_runs file inputs)) = 0%nat).
Proof.
  intros file inputs month_key Hmonth s.
  pose proof (LiveMonths.main_runs_stage_balance month_key s inputs file
                Hmonth) as Hbal.
  pose proof (LiveMonths.carried_le_1 month_key s
                (fst (RSPMonitor.main_runs file inputs))) as Hle.
  split; [lia|].
  intros Hkey Hdone. unfold carried in Hbal at 1.
  rewrite Hkey, String.eqb_refl, Hdone in Hbal. cbn [Nat.b2n] in Hbal. lia.
Qed.

Lemma each_stage_alerts_once_a_month_witness :
  (stage_count 2
     (snd (RSPMonitor.main_runs None
             [RSPMonitor.mkinput true Scenarios.df_aug02 Scenarios.aug02
                Raised;
              RSPMonitor.mkinput true Scenarios.df_aug02 Scenarios.aug02
                (Returned f10)])) <= 1)%nat.
Proof.
  refine (proj1 (each_stage_alerts_once_a_month None _ "2024-08"%string _
                   2%nat)).
  intros i [<-|[<-|[]]]; reflexivity.
Defined.

(** ** The deadline reminder and the calendar *)

Module Deadline.

(** A date the predicate accepts is a Friday between the 15th and the
    21st. *)
Lemma is_third_friday_true d :
  valid_date d = true ->
  is_third_friday d = true ->
  weekday d = 4 /\ 15 <= day d <= 21.
Proof.
  intros Hvalid Htrue.
  destruct (Z.eq_dec (year d) 9999) as [Hy|Hy].
  - destruct (Z.eq_dec (month d) 12) as [Hm|Hm].
    + destruct d as [y m k]. cbn in Hy, Hm. subst y m.
      vm_compute in Htrue. discriminate Htrue.
    + assert (Hlast : ~ (year d = 9999 /\ month d = 12)) by tauto.
      apply (ThirdFriday.is_third_friday_day d Hvalid Hlast) in Htrue.
      apply (ThirdFriday.third_friday_day_spec _ (day d)
               (CalendarFacts.weekday_range _)) in Htrue.
      rewrite <- CalendarFacts.weekday_of_day in Htrue.
      destruct d; exact Htrue.
  - assert (Hlast : ~ (year d = 9999 /\ month d = 12)) by tauto.
    apply (ThirdFriday.is_third_friday_day d Hvalid Hlast) in Htrue.
    apply (ThirdFriday.third_friday_day_spec _ (day d)
             (CalendarFacts.weekday_range _)) in Htrue.
    rewrite <- CalendarFacts.weekday_of_day in Htrue.
    destruct d; exact Htrue.
Qed.

Section Backtest.
Import RSPBacktestMonitor BacktestFacts.
Context {R : Rng}.
Variable std : list float -> float.

Lemma analyze_day_deadline_dates monthly_data i row ms g ms' g' :
  (forall t, In t (triggers ms) -> t_type t = monthly_deadline ->
     is_third_friday (t_date t) = true) ->
  analyze_day std monthly_data i row (ms, g) = Returned (ms', g') ->
  forall t, In t (triggers ms') -> t_type t = monthly_deadline ->
    is_third_friday (t_date t) = true.
Proof.
  intros Hinv Hday t Hin Hty.
  destruct (analyze_day_transition std _ _ _ _ _ _ _ Hday)
    as (p & decline & _ & _ & _ & _ & _ & _ & Ht & _).
  rewrite Ht in Hin. clear Ht Hday.
  apply in_app_or in Hin. destruct Hin as [Hin|Hin]; [auto|].
  destruct (is_third_friday (bar_date row)) eqn:Hfriday.
  - repeat match type of Hin with
           | context [if ?c then _ else _] => destruct c
           end; cbn [app In] in Hin;
      repeat match goal with
             | H : _ \/ _ |- _ => destruct H
             | H : False |- _ => destruct H
             end; subst t; solve [discriminate Hty | exact Hfriday].
  - rewrite andb_false_r in Hin.
    repeat match type of Hin with
           | context [if ?c then _ else _] => destruct c
           end; cbn [app In] in Hin;
      repeat match goal with
             | H : _ \/ _ |- _ => destruct H
             | H : False |- _ => destruct H
             end; subst t; discriminate Hty.
Qed.

End Backtest.
End Deadline.

(** X7. The deadline reminder goes out only on a third Friday: a check
    sends it only when today is a Friday between the 15th and the 21st,
    and every deadline trigger of a backtest month is dated on such a
    day. *)
Theorem deadline_only_on_third_friday :
  (forall st df today call,
     valid_date today = true ->
     In monthly_deadline
       (map t_type
          (RSPMonitor.messages (RSPMonitor.check_triggers st df today call)))
     ->
     weekday today = 4 /\ 15 <= day today <= 21)
  /\ (forall (R : Rng) std monthly_data month_str g ms g',
        RSPBacktestMonitor.analyze_month std monthly_data month_str g
        = Some (ms, g') ->
        forall t,
          In t (RSPBacktestMonitor.triggers ms) ->
          t_type t = monthly_deadline ->
          valid_date (t_date t) = true ->
          weekday (t_date t) = 4 /\ 15 <= day (t_date t) <= 21).
Proof.
  split.
  - intros st df today call Hvalid Hin.
    apply (Deadline.is_third_friday_true today Hvalid).
    destruct (todays_row df today) as [row|] eqn:Hrow.
    + rewrite (LiveState.check_triggers_with_row _ _ _ _ _ Hrow) in Hin.
      rewrite Ordering.evaluate_message_types in Hin.
      destruct (is_third_friday today); [reflexivity|].
      rewrite andb_false_r in Hin.
      repeat match type of Hin with
             | context [if ?c then _ else _] => destruct c
             end; cbn [app In] in Hin;
        repeat match goal with
               | H : _ \/ _ |- _ => destruct H
               | H : False |- _ => destruct H
               end; discriminate.
    + destruct (LiveState.check_triggers_without_row st df today call Hrow)
        as [Hm _].
      rewrite Hm in Hin. destruct Hin.
  - intros R std monthly_data month_str g ms g' Hrun t Hin Hty Hvalid.
    apply (Deadline.is_third_friday_true (t_date t) Hvalid).
    clear Hvalid. revert t Hin Hty.
    refine (Invariants.analyze_month_invariant std
              (fun ms => forall t, In t (RSPBacktestMonitor.triggers ms) ->
                 t_type t = monthly_deadline ->
                 is_third_friday (t_date t) = true)
              _ _ _ _ _ _ _ Hrun).
    + intros data i row ms0 g0 ms1 g1 Hinv Hday.
      exact (Deadline.analyze_day_deadline_dates std data i row ms0 g0 ms1 g1
               Hinv Hday).
    + intros data label ms0 Hs.
      destruct (Invariants.month_state_at_start_flags _ _ _ Hs)
        as (_ & _ & _ & _ & Ht & _).
      rewrite Ht. intros t [].
Qed.

Lemma deadline_only_on_third_friday_witness :
  weekday Scenarios.aug16 = 4 /\ 15 <= day Scenarios.aug16 <= 21.
Proof.
  refine (proj1 deadline_only_on_third_friday RSPMonitor.default_state
            [Scenarios.row Scenarios.aug16 Scenarios.f95 Scenarios.f95 zero]
            Scenarios.aug16 Raised eq_refl _).
  vm_compute. left. reflexivity.
Defined.

(** ** Simulated breadth values and the validity test *)

Module Validation.

(** A float at or below a positive float is at or below every positive
    float of a larger exponent. *)
Lemma leb_weaken x m e m' e' :
  e < e' ->
  leb x (S754_finite false m e) = true ->
  leb x (S754_finite false m' e') = true.
Proof.
  intros He. unfold leb, SFleb.
  destruct x as [[|]|[|]| |[|] mx ex]; cbn [SFcompare]; try (intros H; exact H).
  destruct (Z.compare_spec ex e) as [Heq|Hlt|Hgt].
  - intros _. replace (ex ?= e') with Lt; [reflexivity|].
    symmetry. apply Z.compare_lt_iff. lia.
  - intros _. replace (ex ?= e') with Lt; [reflexivity|].
    symmetry. apply Z.compare_lt_iff. lia.
  - intros H. discriminate H.
Qed.

Lemma leb_5_leb_zero x : leb f5 x = true -> leb zero x = true.
Proof.
  destruct x as [[|]|[|]| |[|] mx ex]; intros H;
    (reflexivity || discriminate H).
Qed.

Lemma between_validates x hi_m hi_e :
  hi_e < -46 ->
  leb f5 x = true ->
  leb x (S754_finite false hi_m hi_e) = true ->
  MarketBreadthFetcher.validate_breadth_value x = true.
Proof.
  intros He Hlo Hhi. unfold MarketBreadthFetcher.validate_breadth_value.
  rewrite (leb_5_leb_zero x Hlo).
  apply (leb_weaken x hi_m hi_e _ _ He Hhi).
Qed.

End Validation.

(** X10. Every simulated breadth passes [validate_breadth_value]: the value
    the fetcher falls back to when no source answers, whatever the date and
    the draw, and the value the backtest simulates, whatever the date, the
    volatility and the draw; so does the monitor's default of 20. *)
Theorem simulated_breadth_validates :
  (forall (R : Rng) now g,
     MarketBreadthFetcher.validate_breadth_value
       (fst (MarketBreadthFetcher._get_simulated_breadth now g)) = true)
  /\ (forall (R : Rng) results now g,
        MarketBreadthFetcher.first_available results = None ->
        MarketBreadthFetcher.validate_breadth_value
          (fst (MarketBreadthFetcher.get_market_breadth (Returned results)
                  now g)) = true)
  /\ (forall (R : Rng) date_val volatility g,
        MarketBreadthFetcher.validate_breadth_value
          (fst (RSPBacktestMonitor.simulate_market_breadth date_val
                  volatility g)) = true)
  /\ MarketBreadthFetcher.validate_breadth_value
       (RSPMonitor.get_market_breadth Raised) = true.
Proof.
  assert (Hsim : forall (R : Rng) now g,
     MarketBreadthFetcher.validate_breadth_value
       (fst (MarketBreadthFetcher._get_simulated_breadth now g)) = true).
  { intros R now g. unfold MarketBreadthFetcher._get_simulated_breadth.
    destruct (uniform fm10 f10 _) as [variation g2]. cbn [fst].
    destruct (Clamp.clamp_between f5 f45 (add f25 variation))
      as [Hlo Hhi]; try reflexivity.
    apply (Validation.between_validates _ 6333186975989760%positive (-47));
      [lia|exact Hlo|exact Hhi]. }
  split; [exact Hsim|]. split; [|split].
  - intros R results now g Hnone.
    unfold MarketBreadthFetcher.get_market_breadth. rewrite Hnone.
    apply Hsim.
  - intros R date_val volatility g.
    unfold RSPBacktestMonitor.simulate_market_breadth.
    destruct volatility as [v|]; [|reflexivity].
    destruct (uniform fm15 f15 _) as [variation g2]. cbn [fst].
    destruct (Clamp.clamp_between f5 f50
                (add (sub f30 (mul v f100)) variation))
      as [Hlo Hhi]; try reflexivity.
    apply (Validation.between_validates _ 7036874417766400%positive (-47));
      [lia|exact Hlo|exact Hhi].
  - reflexivity.
Qed.

Lemma simulated_breadth_validates_witness :
  MarketBreadthFetcher.validate_breadth_value
    (fst (@MarketBreadthFetcher.get_market_breadth Scenarios.eighth_rng
            (Returned [None; None]) Scenarios.aug15 tt)) = true.
Proof.
  exact (proj1 (proj2 simulated_breadth_validates) Scenarios.eighth_rng
           [None; None] Scenarios.aug15 tt eq_refl).
Defined.

(** ** The backtest of one month *)

Module MonthResult.
Import RSPBacktestMonitor BacktestFacts.

Lemma type_count_app ty ts us :
  type_count ty (ts ++ us) = (type_count ty ts + type_count ty us)%nat.
Proof.
  unfold type_count. rewrite map_app, filter_app, length_app. reflexivity.
Qed.

Lemma length_by_type ts :
  length ts
  = (type_count first_dip ts + type_count monthly_deadline ts
     + type_count second_dip ts + type_count third_dip ts)%nat.
Proof.
  unfold type_count. induction ts as [|t ts IH]; [reflexivity|].
  cbn [map filter length]. destruct (t_type t); cbn; lia.
Qed.

Section WithLibraries.
Context {R : Rng}.
Variable std : list float -> float.

(** Every iteration adds one trigger per flag it sets. *)
Lemma analyze_day_counts monthly_data i row ms g ms' g' :
  (forall ty, type_count ty (triggers ms) = Nat.b2n (month_flag_of ty ms)) ->
  analyze_day std monthly_data i row (ms, g) = Returned (ms', g') ->
  forall ty, type_count ty (triggers ms') = Nat.b2n (month_flag_of ty ms').
Proof.
  intros Hinv Hday ty.
  destruct (analyze_day_transition std _ _ _ _ _ _ _ Hday)
    as (p & decline & _ & _ & Hf & Hd & Hs & Ht & Htr & _).
  specialize (Hinv ty). rewrite Htr, !type_count_app, Hinv.
  clear Htr Hinv Hday.
  assert (Hflag : forall x,
            month_flag_of ty x
            = match ty with
              | first_dip => first_dip_triggered x
              | monthly_deadline => monthly_deadline_triggered x
              | second_dip => second_dip_triggered x
              | third_dip => third_dip_triggered x
              end) by reflexivity.
  rewrite !Hflag. clear Hflag.
  destruct ty; rewrite ?Hf, ?Hd, ?Hs, ?Ht; clear Hf Hd Hs Ht.
  all: generalize (leb (if negb (isna (bar_daily_return row))
                        then bar_daily_return row else zero) fm0_01)
         (is_third_friday (bar_date row)) (geb decline f0_05)
         (ltb (fst (simulate_market_breadth (bar_date row)
                      (Num (recent_volatility std monthly_data i)) g))
            f15);
    intros dip friday deep low;
    destruct (first_dip_triggered ms), (monthly_deadline_triggered ms),
      (second_dip_triggered ms), (third_dip_triggered ms),
      dip, friday, deep, low; reflexivity.
Qed.

(** With a start price that is not a zero the loop body does not raise,
    and it keeps the start price. *)
Lemma analyze_day_returns monthly_data i row ms g p :
  month_start_price ms = Some p ->
  truthy p = true ->
  exists ms' g',
    analyze_day std monthly_data i row (ms, g) = Returned (ms', g')
    /\ month_start_price ms' = Some p.
Proof.
  intros Hp Hnz.
  destruct (analyze_day std monthly_data i row (ms, g)) as [[ms' g']|]
    eqn:Hday.
  - exists ms', g'. split; [reflexivity|].
    destruct (analyze_day_transition std _ _ _ _ _ _ _ Hday)
      as (p' & decline & _ & _ & _ & _ & _ & _ & _ & Hp').
    rewrite Hp'. exact Hp.
  - exfalso. revert Hday. unfold analyze_day. rewrite Hp.
    destruct p; (discriminate Hnz || (cbn [truediv]; discriminate)).
Qed.

Lemma analyze_days_returns monthly_data rows :
  forall i ms g p,
    month_start_price ms = Some p ->
    truthy p = true ->
    exists acc, analyze_days std monthly_data i rows (ms, g) = Returned acc.
Proof.
  induction rows as [|row rest IH]; intros i ms g p Hp Hnz.
  - exists (ms, g). reflexivity.
  - cbn [analyze_days].
    destruct (analyze_day_returns monthly_data i row ms g p Hp Hnz)
      as (ms' & g' & -> & Hp').
    apply (IH (S i) ms' g' p Hp' Hnz).
Qed.

(** The fields the loop does not write, and the largest decline. *)
Lemma analyze_day_frame monthly_data i row ms g ms' g' :
  analyze_day std monthly_data i row (ms, g) = Returned (ms', g') ->
  month_label ms' = month_label ms
  /\ trading_days ms' = trading_days ms
  /\ month_end_price ms' = month_end_price ms
  /\ month_return ms' = month_return ms
  /\ exists decline,
       max_decline ms' = py_max (max_decline ms) decline.
Proof.
  unfold analyze_day.
  destruct (month_start_price ms) as [p|]; [|discriminate].
  destruct (truediv (sub p (bar_close row)) p) as [decline|];
    [|discriminate].
  unfold stage_third, stage_second, stage_first.
  destruct (simulate_market_breadth (bar_date row)
              (Num (recent_volatility std monthly_data i)) g)
    as [breadth g2].
  generalize (ltb breadth f15) (is_third_friday (bar_date row))
    (geb decline f0_05).
  generalize (leb (if negb (isna (bar_daily_return row))
                   then bar_daily_return row else zero) fm0_01).
  generalize (if negb (isna (bar_daily_return row))
              then bar_daily_return row else zero).
  intros ret dip low friday deep.
  remember (py_max (max_decline ms) decline) as mx eqn:Emx.
  assert (Hex : exists d, mx = py_max (max_decline ms) d)
    by (exists decline; exact Emx).
  clear Emx.
  destruct ms as [lbl fd md sd td ts msp mep mret mdec days].
  cbn [max_decline month_label trading_days month_end_price month_return]
    in *.
  destruct fd, md, sd, td, dip, friday, deep, low; cbn;
    intros H; injection H as <- <-; cbn; repeat split; exact Hex.
Qed.

End WithLibraries.

(** What the loop establishes, read off the result of [analyze_month]. *)
Lemma analyze_month_counts (R : Rng) std monthly_data month_str g ms g' :
  analyze_month std monthly_data month_str g = Some (ms, g') ->
  forall ty, type_count ty (triggers ms) = Nat.b2n (month_flag_of ty ms).
Proof.
  intros Hrun.
  refine (Invariants.analyze_month_invariant std
            (fun ms => forall ty,
               type_count ty (triggers ms) = Nat.b2n (month_flag_of ty ms))
            _ _ _ _ _ _ _ Hrun).
  - intros data i row ms0 g0 ms1 g1 Hinv Hday.
    exact (analyze_day_counts std data i row ms0 g0 ms1 g1 Hinv Hday).
  - intros data label ms0 Hs.
    destruct (Invariants.month_state_at_start_flags _ _ _ Hs)
      as (Hf & Hd & Hsd & Htd & Ht & _).
    intros ty. rewrite Ht. destruct ty; cbn [month_flag_of];
      rewrite ?Hf, ?Hd, ?Hsd, ?Htd; reflexivity.
Qed.

Lemma analyze_month_exclusive (R : Rng) std monthly_data month_str g ms g' :
  analyze_month std monthly_data month_str g = Some (ms, g') ->
  first_dip_triggered ms && monthly_deadline_triggered ms = false.
Proof.
  intros Hrun.
  refine (proj1 (Invariants.analyze_month_invariant std resolved_once
                   _ _ _ _ _ _ _ Hrun)).
  - intros. eapply Ordering.analyze_day_resolved_once; eassumption.
  - intros data label ms0 Hs.
    destruct (Invariants.month_state_at_start_flags _ _ _ Hs)
      as (Hf & Hd & _ & _ & Ht & _).
    unfold resolved_once. rewrite Hf, Hd, Ht. split; reflexivity.
Qed.

Lemma analyze_month_third_after_second (R : Rng) std monthly_data month_str
    g ms g' :
  analyze_month std monthly_data month_str g = Some (ms, g') ->
  negb (third_dip_triggered ms) || second_dip_triggered ms = true.
Proof.
  intros Hrun.
  refine (Invariants.analyze_month_invariant std
            (fun ms => negb (third_dip_triggered ms)
                       || second_dip_triggered ms = true)
            _ _ _ _ _ _ _ Hrun).
  - intros. eapply Ordering.analyze_day_third_after_second; eassumption.
  - intros data label ms0 Hs.
    destruct (Invariants.month_state_at_start_flags _ _ _ Hs)
      as (_ & _ & _ & -> & _).
    reflexivity.
Qed.

Lemma analyze_month_length (R : Rng) std monthly_data month_str g ms g' :
  analyze_month std monthly_data month_str g = Some (ms, g') ->
  length (triggers ms)
  = (Nat.b2n (first_dip_triggered ms)
     + Nat.b2n (monthly_deadline_triggered ms)
     + Nat.b2n (second_dip_triggered ms)
     + Nat.b2n (third_dip_triggered ms))%nat.
Proof.
  intros Hrun.
  rewrite length_by_type, !(analyze_month_counts R std _ _ _ _ _ Hrun).
  reflexivity.
Qed.

(** The month's first open decides whether [analyze_month] answers. *)
Lemma analyze_month_cases (R : Rng) std first rest month_str g :
  (truthy (bar_open first) = false
   /\ analyze_month std (first :: rest) month_str g = None)
  \/ (truthy (bar_open first) = true
      /\ exists ms g',
           analyze_month std (first :: rest) month_str g = Some (ms, g')
           /\ month_label ms = month_str
           /\ trading_days ms = length (first :: rest)
           /\ month_start_price ms = Some (bar_open first)
           /\ month_end_price ms = Some (bar_close (last rest first))
           /\ month_return ms
              = div (sub (bar_close (last rest first)) (bar_open first))
                  (bar_open first)
           /\ nonneg (max_decline ms)).
Proof.
  unfold analyze_month, month_state_at_start.
  destruct (truthy (bar_open first)) eqn:Hnz.
  - right. split; [reflexivity|].
    assert (Hdiv : truediv (sub (bar_close (last rest first))
                              (bar_open first)) (bar_open first)
                   = Returned (div (sub (bar_close (last rest first))
                                      (bar_open first)) (bar_open first))).
    { destruct (bar_open first); (discriminate Hnz || reflexivity). }
    rewrite Hdiv.
    set (ms0 := set_prices _ _ _ _).
    destruct (analyze_days_returns std (first :: rest) (first :: rest) 0 ms0
                g (bar_open first) eq_refl Hnz) as [[ms1 g1] Hrun].
    rewrite Hrun. exists ms1, g1. split; [reflexivity|].
    apply (Invariants.analyze_days_invariant std
             (fun ms =>
                month_label ms = month_str
                /\ trading_days ms = length (first :: rest)
                /\ month_start_price ms = Some (bar_open first)
                /\ month_end_price ms = Some (bar_close (last rest first))
                /\ month_return ms
                   = div (sub (bar_close (last rest first)) (bar_open first))
                       (bar_open first)
                /\ nonneg (max_decline ms)))
      with (monthly_data := first :: rest) (rows := first :: rest)
           (i := 0%nat) (acc := (ms0, g)) (acc' := (ms1, g1)).
    + intros data i row ms g2 ms' g3 (Hl & Hn & Hp & He & Hr & Hm) Hday.
      destruct (analyze_day_frame std _ _ _ _ _ _ _ Hday)
        as (Fl & Fn & Fe & Fr & d & Fm).
      destruct (analyze_day_transition std _ _ _ _ _ _ _ Hday)
        as (p' & d' & _ & _ & _ & _ & _ & _ & _ & Fp).
      rewrite Fl, Fn, Fe, Fr, Fp, Fm.
      repeat split; try assumption.
      apply FloatOrder.nonneg_py_max. exact Hm.
    + subst ms0.
      cbn [set_prices initial_month_state month_label trading_days
           month_start_price month_end_price month_return max_decline fst].
      repeat split.
    + exact Hrun.
  - left. split; [reflexivity|].
    assert (Hdiv : truediv (sub (bar_close (last rest first))
                              (bar_open first)) (bar_open first) = Raised).
    { destruct (bar_open first); (discriminate Hnz || reflexivity). }
    rewrite Hdiv. reflexivity.
Qed.

End MonthResult.

(** X11. In the result of a month every flag that is set has exactly one
    trigger of its type in the list, and a flag that is not set has none:
    the list is as long as the number of flags set, which is at most
    three. *)
Theorem month_triggers_match_flags :
  forall (R : Rng) std monthly_data month_str g ms g',
    RSPBacktestMonitor.analyze_month std monthly_data month_str g
    = Some (ms, g') ->
    (forall ty,
       type_count ty (RSPBacktestMonitor.triggers ms)
       = Nat.b2n (month_flag_of ty ms))
    /\ length (RSPBacktestMonitor.triggers ms)
       = (Nat.b2n (RSPBacktestMonitor.first_dip_triggered ms)
          + Nat.b2n (RSPBacktestMonitor.monthly_deadline_triggered ms)
          + Nat.b2n (RSPBacktestMonitor.second_dip_triggered ms)
          + Nat.b2n (RSPBacktestMonitor.third_dip_triggered ms))%nat
    /\ (length (RSPBacktestMonitor.triggers ms) <= 3)%nat.
Proof.
  intros R std monthly_data month_str g ms g' Hrun.
  pose proof (MonthResult.analyze_month_exclusive R std _ _ _ _ _ Hrun)
    as Hexcl.
  pose proof (MonthResult.analyze_month_length R std _ _ _ _ _ Hrun) as Hlen.
  split; [exact (MonthResult.analyze_month_counts R std _ _ _ _ _ Hrun)|].
  split; [exact Hlen|]. rewrite Hlen. clear Hlen.
  destruct (RSPBacktestMonitor.first_dip_triggered ms),
    (RSPBacktestMonitor.monthly_deadline_triggered ms),
    (RSPBacktestMonitor.second_dip_triggered ms),
    (RSPBacktestMonitor.third_dip_triggered ms); cbn in *;
    (discriminate || lia).
Qed.

Lemma month_triggers_match_flags_witness :
  exists ms g',
    @RSPBacktestMonitor.analyze_month Scenarios.eighth_rng flat_std
      Scenarios.df_august "2024-08" tt = Some (ms, g')
    /\ (length (RSPBacktestMonitor.triggers ms) <= 3)%nat.
Proof.
  eexists. eexists. split.
  - vm_compute. reflexivity.
  - refine (proj2 (proj2 (month_triggers_match_flags Scenarios.eighth_rng
                            flat_std Scenarios.df_august "2024-08"%string tt
                            _ _ _))).
    vm_compute. reflexivity.
Defined.

(** X12. [analyze_month] answers [None] only for an empty month and for a
    month whose first open is a zero; the loop itself never fails. A
    result carries the label it was given, the number of rows, the open of
    the first row and the close of the last with the return between them,
    and a largest decline that is zero or above, never negative and never
    NaN. *)
Theorem analyze_month_outcome :
  forall (R : Rng) std monthly_data month_str g,
    (RSPBacktestMonitor.analyze_month std monthly_data month_str g = None
     <-> match monthly_data with
         | [] => True
         | first :: _ => truthy (bar_open first) = false
         end)
    /\ (forall ms g',
          RSPBacktestMonitor.analyze_month std monthly_data month_str g
          = Some (ms, g') ->
          exists first rest,
            monthly_data = first :: rest
            /\ RSPBacktestMonitor.month_label ms = month_str
            /\ RSPBacktestMonitor.trading_days ms = length monthly_data
            /\ RSPBacktestMonitor.month_start_price ms
               = Some (bar_open first)
            /\ RSPBacktestMonitor.month_end_price ms
               = Some (bar_close (last rest first))
            /\ RSPBacktestMonitor.month_return ms
               = div (sub (bar_close (last rest first)) (bar_open first))
                   (bar_open first)
            /\ nonneg (RSPBacktestMonitor.max_decline ms)).
Proof.
  intros R std monthly_data month_str g.
  destruct monthly_data as [|first rest]; [split; [tauto|discriminate]|].
  destruct (MonthResult.analyze_month_cases R std first rest month_str g)
    as [[Hz Hnone]|[Hnz (ms1 & g1 & Hsome & Hfields)]].
  - rewrite Hnone. split; [tauto|discriminate].
  - rewrite Hsome, Hnz. split; [split; discriminate|].
    intros ms g' H. injection H as <- <-.
    exists first, rest. split; [reflexivity|exact Hfields].
Qed.

Lemma analyze_month_outcome_witness :
  exists ms g',
    @RSPBacktestMonitor.analyze_month Scenarios.eighth_rng flat_std
      Scenarios.df_august "2024-08" tt = Some (ms, g')
    /\ RSPBacktestMonitor.trading_days ms = 6%nat
    /\ nonneg (RSPBacktestMonitor.max_decline ms).
Proof.
  destruct (@RSPBacktestMonitor.analyze_month Scenarios.eighth_rng flat_std
              Scenarios.df_august "2024-08" tt) as [[ms g']|] eqn:Hrun.
  - exists ms, g'. split; [reflexivity|].
    destruct (proj2 (analyze_month_outcome Scenarios.eighth_rng flat_std
                       Scenarios.df_august "2024-08"%string tt) ms g' Hrun)
      as (first & rest & Hd & _ & Hn & _ & _ & _ & Hm).
    split; [exact Hn|exact Hm].
  - vm_compute in Hrun. discriminate Hrun.
Defined.

Module MonthTriggers.
Import RSPBacktestMonitor BacktestFacts.

Lemma truediv_returned x y d : truediv x y = Returned d -> d = div x y.
Proof.
  destruct y; cbn [truediv]; intros H;
    (discriminate H || (injection H as <-; reflexivity)).
Qed.

Section WithLibraries.
Context {R : Rng}.
Variable std : list float -> float.

Lemma simulated_breadth_at_least_5 date_val v g :
  leb f5 (fst (simulate_market_breadth date_val (Num v) g)) = true.
Proof.
  unfold simulate_market_breadth.
  destruct (uniform fm15 f15 _) as [variation g2]. cbn [fst].
  apply Clamp.clamp_between; reflexivity.
Qed.

Lemma analyze_day_justified monthly_data i row ms g ms' g' p :
  In row monthly_data ->
  month_start_price ms = Some p ->
  (forall t, In t (triggers ms) -> justified monthly_data p t) ->
  analyze_day std monthly_data i row (ms, g) = Returned (ms', g') ->
  forall t, In t (triggers ms') -> justified monthly_data p t.
Proof.
  intros Hrow Hp Hinv Hday t Hin.
  destruct (analyze_day_transition std _ _ _ _ _ _ _ Hday)
    as (p' & decline & Hp' & Hdiv & _ & _ & _ & _ & Ht & _).
  assert (p' = p) by congruence. subst p'.
  apply truediv_returned in Hdiv.
  rewrite Ht in Hin. clear Ht Hday.
  apply in_app_or in Hin. destruct Hin as [Hin|Hin]; [auto|].
  assert (Hret : (if negb (isna (bar_daily_return row))
                  then bar_daily_return row else zero)
                 = if isna (bar_daily_return row) then zero
                   else bar_daily_return row).
  { destruct (isna (bar_daily_return row)); reflexivity. }
  rewrite Hret in Hin. clear Hret.
  pose proof (simulated_breadth_at_least_5 (bar_date row)
                (recent_volatility std monthly_data i) g) as Hfive.
  remember (if isna (bar_daily_return row) then zero
            else bar_daily_return row) as ret eqn:Eret.
  remember (fst (simulate_market_breadth (bar_date row)
                   (Num (recent_volatility std monthly_data i)) g))
    as breadth eqn:Ebreadth.
  clear Ebreadth.
  destruct (leb ret fm0_01) eqn:Edip,
    (is_third_friday (bar_date row)) eqn:Efriday,
    (geb decline f0_05) eqn:Edeep, (ltb breadth f15) eqn:Elow;
    destruct (first_dip_triggered ms), (monthly_deadline_triggered ms),
      (second_dip_triggered ms), (third_dip_triggered ms);
    cbn [negb andb orb app In] in Hin;
    repeat match goal with
           | H : _ \/ _ |- _ => destruct H
           | H : False |- _ => destruct H
           end; subst t; exists row;
    cbn [t_date t_type t_daily_return t_price t_cumulative_decline
         t_market_breadth];
    (split; [exact Hrow|]); (split; [reflexivity|]);
    (split; [reflexivity|]); (split; [exact Eret|]);
    (split; [exact Hdiv|]);
    solve [ split; [assumption|reflexivity]
          | split; [assumption|split; [assumption|reflexivity]]
          | exists breadth; split; [reflexivity|split; assumption] ].
Qed.

Lemma analyze_days_justified monthly_data p rows :
  forall i ms g ms' g',
    (forall row, In row rows -> In row monthly_data) ->
    month_start_price ms = Some p ->
    (forall t, In t (triggers ms) -> justified monthly_data p t) ->
    analyze_days std monthly_data i rows (ms, g) = Returned (ms', g') ->
    forall t, In t (triggers ms') -> justified monthly_data p t.
Proof.
  induction rows as [|row rest IH]; intros i ms g ms' g' Hrows Hp Hinv Hrun.
  - cbn in Hrun. injection Hrun as <- <-. exact Hinv.
  - cbn [analyze_days] in Hrun.
    destruct (analyze_day std monthly_data i row (ms, g)) as [[ms1 g1]|]
      eqn:Hday; [|discriminate].
    apply (IH (S i) ms1 g1 ms' g'); [| | |exact Hrun].
    + intros r Hr. apply Hrows. right. exact Hr.
    + destruct (analyze_day_transition std _ _ _ _ _ _ _ Hday)
        as (p' & d & _ & _ & _ & _ & _ & _ & _ & Hp').
      rewrite Hp'. exact Hp.
    + apply (analyze_day_justified monthly_data i row ms g ms1 g1 p);
        auto. apply Hrows. left. reflexivity.
Qed.

End WithLibraries.
End MonthTriggers.

(** X13. Every trigger in the result of a month is justified by a row of
    that month: it is dated on the row and carries its close, its daily
    return (0 for a missing one) and the decline of that close from the
    month's first open. A first-dip trigger has a return at or below
    -0.01, a deadline trigger falls on a day the third-Friday test accepts
    with a return above -0.01, a second-dip trigger has a decline of 0.05
    or more, and a third-dip trigger carries the simulated breadth, which
    lies between 5 and 15. *)
Theorem month_triggers_are_justified :
  forall (R : Rng) std monthly_data month_str g ms g',
    RSPBacktestMonitor.analyze_month std monthly_data month_str g
    = Some (ms, g') ->
    exists first rest,
      monthly_data = first :: rest
      /\ forall t,
           In t (RSPBacktestMonitor.triggers ms) ->
           justified monthly_data (bar_open first) t.
Proof.
  intros R std monthly_data month_str g ms g' Hrun.
  destruct monthly_data as [|first rest]; [discriminate Hrun|].
  exists first, rest. split; [reflexivity|].
  revert Hrun. unfold RSPBacktestMonitor.analyze_month.
  destruct (RSPBacktestMonitor.month_state_at_start (first :: rest)
              month_str) as [ms0|] eqn:Hstart; [|discriminate].
  destruct (RSPBacktestMonitor.analyze_days std (first :: rest) 0
              (first :: rest) (ms0, g)) as [[ms1 g1]|] eqn:Hdays;
    [|discriminate].
  intros H. injection H as <- <-.
  destruct (Invariants.month_state_at_start_flags _ _ _ Hstart)
    as (_ & _ & _ & _ & Ht & f & r & Hd & Hp).
  injection Hd as <- <-.
  apply (MonthTriggers.analyze_days_justified std (first :: rest)
           (bar_open first) (first :: rest) 0 ms0 g ms1 g1); auto.
  rewrite Ht. intros t [].
Qed.

Lemma month_triggers_are_justified_witness :
  exists ms g',
    @RSPBacktestMonitor.analyze_month Scenarios.eighth_rng flat_std
      Scenarios.df_august "2024-08" tt = Some (ms, g')
    /\ RSPBacktestMonitor.triggers ms <> []
    /\ forall t,
         In t (RSPBacktestMonitor.triggers ms) ->
         justified Scenarios.df_august f100 t.
Proof.
  destruct (@RSPBacktestMonitor.analyze_month Scenarios.eighth_rng flat_std
              Scenarios.df_august "2024-08" tt) as [[ms g']|] eqn:Hrun.
  - exists ms, g'. split; [reflexivity|]. split.
    + vm_compute in Hrun. injection Hrun as <- _. discriminate.
    + destruct (month_triggers_are_justified Scenarios.eighth_rng flat_std
                  Scenarios.df_august "2024-08"%string tt ms g' Hrun)
        as (first & rest & Hd & Hj).
      injection Hd as <- _. exact Hj.
  - vm_compute in Hrun. discriminate Hrun.
Defined.

(** ** The backtest run and its summary *)

Module BacktestRun.
Import RSPBacktestMonitor.

Lemma months_with_app flag rs us :
  months_with flag (rs ++ us)
  = (months_with flag rs + months_with flag us)%nat.
Proof. unfold months_with. rewrite filter_app, length_app. reflexivity. Qed.

Lemma months_with_le flag rs : (months_with flag rs <= length rs)%nat.
Proof. apply filter_length_le. Qed.

Lemma bump_months_with flag n rs ms :
  n = months_with flag rs ->
  bump (flag ms) n = months_with flag (rs ++ [ms]).
Proof.
  intros ->. rewrite months_with_app. unfold months_with, bump.
  cbn [filter]. destruct (flag ms); cbn [length]; lia.
Qed.

Lemma record_month_consistent bt ms :
  backtest_consistent bt ->
  well_formed_month ms ->
  backtest_consistent (record_month bt ms).
Proof.
  intros (Hn & Hf & Hd & Hs & Ht & Hall) Hms.
  unfold backtest_consistent, record_month.
  cbn [trigger_summary backtest_results total_months count_first_dip
       count_monthly_deadline count_second_dip count_third_dip].
  rewrite length_app. cbn [length].
  repeat split; try (apply bump_months_with; assumption).
  - lia.
  - apply Forall_app. split; [exact Hall|].
    constructor; [exact Hms|constructor].
Qed.

(** What the well-formed results give for the counters. *)
Lemma well_formed_counts rs :
  Forall well_formed_month rs ->
  (months_with first_dip_triggered rs
   + months_with monthly_deadline_triggered rs <= length rs)%nat
  /\ (months_with third_dip_triggered rs
      <= months_with second_dip_triggered rs)%nat
  /\ list_sum (map (fun r => length (triggers r)) rs)
     = (months_with first_dip_triggered rs
        + months_with monthly_deadline_triggered rs
        + months_with second_dip_triggered rs
        + months_with third_dip_triggered rs)%nat.
Proof.
  unfold months_with. induction 1 as [|ms rs Hms _ IH]; [cbn; lia|].
  destruct Hms as (Hx & Ho & Hl & _). destruct IH as (I1 & I2 & I3).
  cbn [filter map].
  match goal with
  | |- context [list_sum (?a :: ?l)] =>
      change (list_sum (a :: l)) with (a + list_sum l)%nat
  end.
  rewrite Hl, I3. clear Hl I3.
  destruct (first_dip_triggered ms), (monthly_deadline_triggered ms),
    (second_dip_triggered ms), (third_dip_triggered ms);
    cbn [length Nat.b2n] in *; try discriminate; lia.
Qed.

Section WithLibraries.
Context {R : Rng}.
Variable std : list float -> float.
Variable groupby : list bar -> list (string * list bar).

Lemma analyze_month_well_formed monthly_data month_str g ms g' :
  (5 <= length monthly_data)%nat ->
  analyze_month std monthly_data month_str g = Some (ms, g') ->
  well_formed_month ms.
Proof.
  intros Hlen Hrun. unfold well_formed_month.
  split; [exact (MonthResult.analyze_month_exclusive R std _ _ _ _ _ Hrun)|].
  split; [exact (MonthResult.analyze_month_third_after_second R std _ _ _ _ _
                   Hrun)|].
  split; [exact (MonthResult.analyze_month_length R std _ _ _ _ _ Hrun)|].
  destruct monthly_data as [|first rest]; [discriminate Hrun|].
  destruct (MonthResult.analyze_month_cases R std first rest month_str g)
    as [[_ Hnone]|[_ (ms1 & g1 & Hsome & _ & Hn & _)]].
  - rewrite Hnone in Hrun. discriminate Hrun.
  - rewrite Hsome in Hrun. injection Hrun as <- <-. rewrite Hn. exact Hlen.
Qed.

Lemma run_backtest_month_consistent bt g group :
  backtest_consistent bt ->
  let acc := run_backtest_month std (bt, g) group in
  backtest_consistent (fst acc)
  /\ exists added,
       backtest_results (fst acc) = backtest_results bt ++ added
       /\ (length added <= 1)%nat
       /\ Forall (fun ms => month_label ms = fst group
                            /\ trading_days ms = length (snd group)) added.
Proof.
  intros Hbt. destruct group as [month_str monthly_data].
  unfold run_backtest_month.
  destruct (length monthly_data <? 5)%nat eqn:Hshort.
  - cbn [fst]. split; [exact Hbt|]. exists [].
    rewrite app_nil_r. repeat split; [cbn; lia|constructor].
  - apply Nat.ltb_ge in Hshort.
    destruct (analyze_month std monthly_data month_str g) as [[ms g']|]
      eqn:Hrun.
    + cbn [fst snd]. split.
      * apply record_month_consistent; [exact Hbt|].
        exact (analyze_month_well_formed _ _ _ _ _ Hshort Hrun).
      * exists [ms]. split; [reflexivity|]. split; [cbn; lia|].
        constructor; [|constructor].
        destruct monthly_data as [|first rest]; [discriminate Hrun|].
        destruct (MonthResult.analyze_month_cases R std first rest
                    month_str g)
          as [[_ Hnone]|[_ (ms1 & g1 & Hsome & Hl & Hn & _)]].
        -- rewrite Hnone in Hrun. discriminate Hrun.
        -- rewrite Hsome in Hrun. injection Hrun as <- <-. split; assumption.
    + cbn [fst]. split; [exact Hbt|]. exists [].
      rewrite app_nil_r. repeat split; [cbn; lia|constructor].
Qed.

Lemma run_backtest_months_consistent groups :
  forall bt g,
    backtest_consistent bt ->
    let acc := fold_left (run_backtest_month std) groups (bt, g) in
    backtest_consistent (fst acc)
    /\ exists added,
         backtest_results (fst acc) = backtest_results bt ++ added
         /\ (length added <= length groups)%nat.
Proof.
  induction groups as [|group rest IH]; intros bt g Hbt.
  - cbn [fold_left fst]. split; [exact Hbt|]. exists [].
    rewrite app_nil_r. split; [reflexivity|cbn; lia].
  - cbn [fold_left].
    destruct (run_backtest_month_consistent bt g group Hbt)
      as (Hbt1 & added1 & Hadd1 & Hlen1 & _).
    destruct (run_backtest_month std (bt, g) group) as [bt1 g1].
    cbn [fst] in Hbt1, Hadd1.
    destruct (IH bt1 g1 Hbt1) as (Hbt2 & added2 & Hadd2 & Hlen2).
    split; [exact Hbt2|]. exists (added1 ++ added2).
    rewrite Hadd2, Hadd1, <- app_assoc, length_app.
    split; [reflexivity|cbn [length]; lia].
Qed.

End WithLibraries.
End BacktestRun.

(** X14. [run_backtest] keeps the summary in step with the results: a
    new monitor's counters agree with its empty list, and after any run
    the month counter is the number of results and each trigger counter is
    the number of results with that flag set. Results are only added, at
    most one for each group, and each has five rows or more. So the first-dip
    and deadline counts together do not exceed the months, the third-dip
    count does not exceed the second-dip count, and the months the report
    divides by are not zero when there are results. *)
Theorem run_backtest_keeps_summary_consistent :
  backtest_consistent RSPBacktestMonitor.new_backtest
  /\ forall (R : Rng) std groupby bt df g,
       backtest_consistent bt ->
       let bt' := fst (RSPBacktestMonitor.run_backtest std groupby bt df g) in
       let ts := RSPBacktestMonitor.trigger_summary bt' in
       backtest_consistent bt'
       /\ (exists added,
             RSPBacktestMonitor.backtest_results bt'
             = RSPBacktestMonitor.backtest_results bt ++ added
             /\ (length added <= length (groupby df))%nat)
       /\ (RSPBacktestMonitor.count_first_dip ts
           + RSPBacktestMonitor.count_monthly_deadline ts
           <= RSPBacktestMonitor.total_months ts)%nat
       /\ (RSPBacktestMonitor.count_third_dip ts
           <= RSPBacktestMonitor.count_second_dip ts)%nat
       /\ (RSPBacktestMonitor.count_second_dip ts
           <= RSPBacktestMonitor.total_months ts)%nat
       /\ (RSPBacktestMonitor.backtest_results bt' <> [] ->
           RSPBacktestMonitor.total_months ts <> 0%nat)
       /\ Forall (fun ms => (5 <= RSPBacktestMonitor.trading_days ms)%nat)
            (RSPBacktestMonitor.backtest_results bt').
Proof.
  split.
  - unfold backtest_consistent. cbn. repeat split. constructor.
  - intros R std groupby bt df g Hbt bt' ts.
    assert (Hrun : backtest_consistent bt'
                   /\ exists added,
                        RSPBacktestMonitor.backtest_results bt'
                        = RSPBacktestMonitor.backtest_results bt ++ added
                        /\ (length added <= length (groupby df))%nat).
    { subst bt'. unfold RSPBacktestMonitor.run_backtest.
      destruct df as [|b df'].
      - cbn [fst]. split; [exact Hbt|]. exists [].
        rewrite app_nil_r. split; [reflexivity|cbn; lia].
      - apply BacktestRun.run_backtest_months_consistent. exact Hbt. }
    destruct Hrun as [Hbt' Hadded].
    split; [exact Hbt'|]. split; [exact Hadded|].
    destruct Hbt' as (Hn & Hf & Hd & Hs & Ht & Hall).
    destruct (BacktestRun.well_formed_counts _ Hall) as (C1 & C2 & _).
    subst ts. rewrite Hn, Hf, Hd, Hs, Ht.
    split; [exact C1|]. split; [exact C2|].
    split; [apply BacktestRun.months_with_le|].
    split.
    + destruct (RSPBacktestMonitor.backtest_results bt');
        [intros H; elim H; reflexivity|cbn; discriminate].
    + apply (Forall_impl _ (P := well_formed_month)); [|exact Hall].
      intros ms (_ & _ & _ & H). exact H.
Qed.

Lemma run_backtest_keeps_summary_consistent_witness :
  let bt' :=
    fst (@RSPBacktestMonitor.run_backtest Scenarios.eighth_rng flat_std
           one_group RSPBacktestMonitor.new_backtest Scenarios.df_august tt)
  in
  backtest_consistent bt'
  /\ RSPBacktestMonitor.total_months (RSPBacktestMonitor.trigger_summary bt')
     = 1%nat.
Proof.
  split.
  - exact (proj1 (proj2 run_backtest_keeps_summary_consistent
                    Scenarios.eighth_rng flat_std one_group
                    RSPBacktestMonitor.new_backtest Scenarios.df_august tt
                    (proj1 run_backtest_keeps_summary_consistent))).
  - vm_compute. reflexivity.
Defined.

(** ** The saved results *)

Module SavedResults.
Import RSPBacktestMonitor.

Lemma row_triggers_app rows rows' :
  row_triggers (rows ++ rows') = row_triggers rows ++ row_triggers rows'.
Proof. unfold row_triggers. apply flat_map_app. Qed.

Lemma row_triggers_of_month result ts :
  row_triggers (map (fun t => base_record result (Some t)) ts) = ts.
Proof.
  unfold row_triggers. induction ts as [|t ts IH]; [reflexivity|].
  cbn [map flat_map base_record d_trigger app]. rewrite IH. reflexivity.
Qed.

Lemma detailed_results_cons result results :
  detailed_results (result :: results)
  = match triggers result with
    | [] => [base_record result None]
    | _ :: _ => map (fun t => base_record result (Some t)) (triggers result)
    end ++ detailed_results results.
Proof. reflexivity. Qed.

Lemma detailed_results_triggers results :
  row_triggers (detailed_results results) = flat_map triggers results.
Proof.
  induction results as [|result results IH]; [reflexivity|].
  rewrite detailed_results_cons, row_triggers_app, IH.
  cbn [flat_map]. f_equal.
  destruct (triggers result) as [|t ts] eqn:Ht; [reflexivity|].
  apply row_triggers_of_month.
Qed.

Lemma total_triggers_flat results :
  list_sum (map (fun r => length (triggers r)) results)
  = length (flat_map triggers results).
Proof.
  induction results as [|result results IH]; [reflexivity|].
  cbn [map flat_map]. rewrite length_app, <- IH. reflexivity.
Qed.

Lemma detailed_results_length results :
  length (detailed_results results)
  = (length (flat_map triggers results) + months_with no_triggers results)%nat.
Proof.
  unfold months_with.
  induction results as [|result results IH]; [reflexivity|].
  rewrite detailed_results_cons, length_app, IH.
  cbn [flat_map filter]. rewrite length_app.
  assert (Hno : no_triggers result
                = match triggers result with [] => true | _ :: _ => false end)
    by reflexivity.
  rewrite Hno. clear Hno.
  destruct (triggers result) as [|t ts].
  - cbn [length]. lia.
  - rewrite length_map. lia.
Qed.

Lemma detailed_results_rows results d :
  In d (detailed_results results) ->
  exists result,
    In result results
    /\ d_month d = month_label result
    /\ d_trading_days d = trading_days result
    /\ d_total_triggers d = length (triggers result)
    /\ match d_trigger d with
       | Some t => In t (triggers result)
       | None => triggers result = []
       end.
Proof.
  induction results as [|result results IH]; [intros []|].
  rewrite detailed_results_cons. intros Hin. apply in_app_or in Hin.
  destruct Hin as [Hin|Hin].
  - exists result. split; [left; reflexivity|].
    destruct (triggers result) as [|t ts] eqn:Ht.
    + destruct Hin as [<-|[]]. cbn. rewrite Ht. repeat split.
    + apply in_map_iff in Hin. destruct Hin as (t' & <- & Hin').
      cbn. rewrite Ht. repeat split. exact Hin'.
  - destruct (IH Hin) as (r & Hr & H). exists r. split; [right; exact Hr|].
    exact H.
Qed.

End SavedResults.

(** X15. The saved results account for every trigger once: read in order,
    the rows of the CSV file carry the triggers of the months in order;
    the summary's [total_triggers] is their number; a month without
    triggers has one row and no other row lacks a trigger. Every row
    belongs to a month of the results and states that month's trigger
    count. For a monitor whose summary is consistent the total is the sum
    of the four trigger counters saved beside it. *)
Theorem saved_results_account_for_every_trigger :
  forall bt,
    let results := RSPBacktestMonitor.backtest_results bt in
    let rows := fst (RSPBacktestMonitor.save_backtest_results bt) in
    let sm := snd (RSPBacktestMonitor.save_backtest_results bt) in
    row_triggers rows = flat_map RSPBacktestMonitor.triggers results
    /\ RSPBacktestMonitor.total_triggers sm
       = length (flat_map RSPBacktestMonitor.triggers results)
    /\ length rows
       = (RSPBacktestMonitor.total_triggers sm
          + months_with no_triggers results)%nat
    /\ (forall d,
          In d rows ->
          exists result,
            In result results
            /\ RSPBacktestMonitor.d_month d
               = RSPBacktestMonitor.month_label result
            /\ RSPBacktestMonitor.d_trading_days d
               = RSPBacktestMonitor.trading_days result
            /\ RSPBacktestMonitor.d_total_triggers d
               = length (RSPBacktestMonitor.triggers result)
            /\ match RSPBacktestMonitor.d_trigger d with
               | Some t => In t (RSPBacktestMonitor.triggers result)
               | None => RSPBacktestMonitor.triggers result = []
               end)
    /\ (backtest_consistent bt ->
        let ts := RSPBacktestMonitor.backtest_summary sm in
        RSPBacktestMonitor.total_triggers sm
        = (RSPBacktestMonitor.count_first_dip ts
           + RSPBacktestMonitor.count_monthly_deadline ts
           + RSPBacktestMonitor.count_second_dip ts
           + RSPBacktestMonitor.count_third_dip ts)%nat).
Proof.
  intros bt results rows sm. subst rows sm.
  unfold RSPBacktestMonitor.save_backtest_results.
  cbn [fst snd RSPBacktestMonitor.total_triggers
       RSPBacktestMonitor.backtest_summary].
  fold results.
  split; [apply SavedResults.detailed_results_triggers|].
  split; [apply SavedResults.total_triggers_flat|].
  split; [rewrite SavedResults.total_triggers_flat;
          apply SavedResults.detailed_results_length|].
  split; [apply SavedResults.detailed_results_rows|].
  intros (_ & Hf & Hd & Hs & Ht & Hall).
  destruct (BacktestRun.well_formed_counts _ Hall) as (_ & _ & Hsum).
  fold results in Hf, Hd, Hs, Ht, Hsum.
  rewrite Hf, Hd, Hs, Ht. exact Hsum.
Qed.

Lemma saved_results_account_for_every_trigger_witness :
  let bt :=
    fst (@RSPBacktestMonitor.run_backtest Scenarios.eighth_rng flat_std
           one_group RSPBacktestMonitor.new_backtest Scenarios.df_august tt)
  in
  let sm := snd (RSPBacktestMonitor.save_backtest_results bt) in
  let ts := RSPBacktestMonitor.backtest_summary sm in
  RSPBacktestMonitor.total_triggers sm = 2%nat
  /\ RSPBacktestMonitor.total_triggers sm
     = (RSPBacktestMonitor.count_first_dip ts
        + RSPBacktestMonitor.count_monthly_deadline ts
        + RSPBacktestMonitor.count_second_dip ts
        + RSPBacktestMonitor.count_third_dip ts)%nat.
Proof.
  split; [vm_compute; reflexivity|].
  refine (proj2 (proj2 (proj2 (proj2
            (saved_results_account_for_every_trigger _)))) _).
  apply (@BacktestRun.run_backtest_months_consistent Scenarios.eighth_rng
           flat_std (one_group Scenarios.df_august)
           RSPBacktestMonitor.new_backtest tt).
  unfold backtest_consistent. cbn. repeat split. constructor.
Defined.

(** ** The requests of [get_historical_data] *)

Module Batches.
Import RSPBacktestMonitor.

Section WithService.
Variable row : Type.
Variable candlesticks : nat -> Z -> outcome (list row).
Variable days : Z.

(** While fewer than [days] rows are held, every further request asks for
    between 1 and 200 rows, and a service that honours the count never
    takes the rows held past [days]. *)
Lemma fetch_batches_bounded remaining :
  forall batch all_data asked,
    Z.of_nat (length all_data) < days ->
    let r := fetch_batches row candlesticks days remaining batch all_data
               asked in
    (exists more,
       snd r = asked ++ more
       /\ Forall (fun c => 1 <= c <= 200) more
       /\ (length more <= remaining)%nat
       /\ (remaining <> O ->
           hd_error more
           = Some (Z.min 200 (days - Z.of_nat (length all_data)))))
    /\ (exists rows, fst r = all_data ++ rows)
    /\ (honours_count candlesticks -> Z.of_nat (length (fst r)) <= days).
Proof.
  induction remaining as [|remaining IH]; intros batch all_data asked Hlt r.
  - subst r. cbn [fetch_batches fst snd]. split.
    + exists []. rewrite app_nil_r.
      split; [reflexivity|]. split; [constructor|].
      split; [cbn; lia|]. intros H. elim H. reflexivity.
    + split; [exists []; rewrite app_nil_r; reflexivity|]. intros _. lia.
  - subst r. cbn [fetch_batches].
    set (count := Z.min 200 (days - Z.of_nat (length all_data))).
    assert (Hcount : 1 <= count <= 200) by (subst count; lia).
    destruct (candlesticks batch count) as [batch_data|] eqn:Hcall.
    + destruct batch_data as [|k batch_data].
      * cbn [fst snd]. split.
        -- exists [count]. split; [reflexivity|].
           split; [repeat constructor; lia|]. split; [cbn; lia|].
           intros _. reflexivity.
        -- split; [exists []; rewrite app_nil_r; reflexivity|].
           intros _. lia.
      * set (all_data' := all_data ++ k :: batch_data).
        assert (Hhon : honours_count candlesticks ->
                       Z.of_nat (length all_data') <= days).
        { intros Hh. specialize (Hh batch count). rewrite Hcall in Hh.
          subst all_data'. rewrite length_app.
          rewrite Nat2Z.inj_add. subst count. lia. }
        destruct (Z.of_nat (length all_data') >=? days) eqn:Hfull.
        -- cbn [fst snd]. split.
           ++ exists [count]. split; [reflexivity|].
              split; [repeat constructor; lia|]. split; [cbn; lia|].
              intros _. reflexivity.
           ++ split; [exists (k :: batch_data); reflexivity|exact Hhon].
        -- assert (Hlt' : Z.of_nat (length all_data') < days).
           { destruct (Z.geb_spec (Z.of_nat (length all_data')) days);
               [discriminate|lia]. }
           destruct (IH (S batch) all_data' (asked ++ [count]) Hlt')
             as ((more & Hmore & Hall & Hlen & _) & (rows & Hrows) & Hh).
           split.
           ++ exists (count :: more). rewrite Hmore, <- app_assoc.
              split; [reflexivity|].
              split; [constructor; [lia|exact Hall]|].
              split; [cbn; lia|]. intros _. reflexivity.
           ++ split; [|exact Hh].
              exists ((k :: batch_data) ++ rows). rewrite Hrows.
              subst all_data'. rewrite <- app_assoc. reflexivity.
    + destruct (IH (S batch) all_data (asked ++ [count]) Hlt)
        as ((more & Hmore & Hall & Hlen & _) & Hrows & Hh).
      split.
      * exists (count :: more). rewrite Hmore, <- app_assoc.
        split; [reflexivity|].
        split; [constructor; [lia|exact Hall]|].
        split; [cbn; lia|]. intros _. reflexivity.
      * split; [exact Hrows|exact Hh].
Qed.

End WithService.
End Batches.

(** X16. Asked for one day or more, [get_historical_data] sends at least
    one and at most [max(days // 200, 2)] requests, the first for
    [min(200, days)] bars and every one for between 1 and 200 bars. When
    the service answers no more bars than it is asked for, the rows
    collected never exceed [days], and so never exceed 200 bars for each
    request made. *)
Theorem historical_requests_are_bounded :
  forall (row : Type) (candlesticks : nat -> Z -> outcome (list row)) days,
    1 <= days ->
    let r := RSPBacktestMonitor.get_historical_batches row candlesticks days
    in
    Forall (fun c => 1 <= c <= 200) (snd r)
    /\ hd_error (snd r) = Some (Z.min 200 days)
    /\ Z.of_nat (length (snd r)) <= RSPBacktestMonitor.batches_of days
    /\ (honours_count candlesticks ->
        Z.of_nat (length (fst r)) <= days).
Proof.
  intros row candlesticks days Hdays r. subst r.
  unfold RSPBacktestMonitor.get_historical_batches.
  assert (Hb : 2 <= RSPBacktestMonitor.batches_of days)
    by (unfold RSPBacktestMonitor.batches_of; lia).
  destruct (Batches.fetch_batches_bounded row candlesticks days
              (Z.to_nat (RSPBacktestMonitor.batches_of days)) 0%nat [] [])
    as ((more & Hmore & Hall & Hlen & Hhd) & _ & Hh); [cbn; lia|].
  cbn [app] in Hmore. rewrite Hmore.
  split; [exact Hall|]. split.
  - rewrite Hhd by lia. cbn [length]. do 2 f_equal. lia.
  - split; [lia|exact Hh].
Qed.

Lemma historical_requests_are_bounded_witness :
  let r := RSPBacktestMonitor.get_historical_batches nat latest_of_250 395 in
  snd r = [200; 195]
  /\ Forall (fun c => 1 <= c <= 200) (snd r)
  /\ Z.of_nat (length (fst r)) <= 395.
Proof.
  split; [vm_compute; reflexivity|].
  destruct (historical_requests_are_bounded nat latest_of_250 395
              ltac:(lia)) as (Hall & _ & _ & Hh).
  split; [exact Hall|]. apply Hh.
  intros batch count. unfold latest_of_250.
  destruct (Z.ltb_spec count 0); [exact I|].
  rewrite length_firstn, length_seq. lia.
Defined.

(** ** The backtest against the live monitor *)

(** X17. The backtest decides a day as the live monitor does. From the
    same flags and the same start price, not a zero, one iteration of the
    backtest loop on a row appends exactly the triggers that a live
    evaluation of that row on its date sends as messages, given the
    simulated breadth as the lookup's answer, and leaves the same four
    flags. *)
Theorem backtest_day_agrees_with_live_check :
  forall (R : Rng) std monthly_data i row ms g st p,
    RSPBacktestMonitor.month_start_price ms = Some p ->
    RSPMonitor.month_start_price st = Some p ->
    truthy p = true ->
    RSPBacktestMonitor.first_dip_triggered ms
    = RSPMonitor.first_dip_triggered st ->
    RSPBacktestMonitor.monthly_deadline_triggered ms
    = RSPMonitor.monthly_deadline_triggered st ->
    RSPBacktestMonitor.second_dip_triggered ms
    = RSPMonitor.second_dip_triggered st ->
    RSPBacktestMonitor.third_dip_triggered ms
    = RSPMonitor.third_dip_triggered st ->
    let breadth :=
      fst (RSPBacktestMonitor.simulate_market_breadth (bar_date row)
             (RSPBacktestMonitor.Num
                (RSPBacktestMonitor.recent_volatility std monthly_data i))
             g) in
    let r := RSPMonitor.evaluate st (bar_date row) row (Returned breadth) in
    exists ms' g',
      RSPBacktestMonitor.analyze_day std monthly_data i row (ms, g)
      = Returned (ms', g')
      /\ RSPBacktestMonitor.triggers ms'
         = RSPBacktestMonitor.triggers ms ++ RSPMonitor.messages r
      /\ RSPBacktestMonitor.first_dip_triggered ms'
         = RSPMonitor.first_dip_triggered (RSPMonitor.state_after r)
      /\ RSPBacktestMonitor.monthly_deadline_triggered ms'
         = RSPMonitor.monthly_deadline_triggered (RSPMonitor.state_after r)
      /\ RSPBacktestMonitor.second_dip_triggered ms'
         = RSPMonitor.second_dip_triggered (RSPMonitor.state_after r)
      /\ RSPBacktestMonitor.third_dip_triggered ms'
         = RSPMonitor.third_dip_triggered (RSPMonitor.state_after r).
Proof.
  intros R std monthly_data i row ms g st p Hpm Hps Hnz Hf Hd Hs Ht
    breadth r.
  destruct (MonthResult.analyze_day_returns std monthly_data i row ms g p
              Hpm Hnz) as (ms' & g' & Hday & _).
  exists ms', g'. split; [exact Hday|].
  destruct (BacktestFacts.analyze_day_transition std _ _ _ _ _ _ _ Hday)
    as (p' & decline & Hp' & Hdiv & Bf & Bd & Bs & Bt & Btr & _).
  assert (p' = p) by congruence. subst p'.
  apply MonthTriggers.truediv_returned in Hdiv.
  destruct (LiveFacts.evaluate_transition st (bar_date row) row
              (Returned breadth)) as (Lf & Ld & Ls & Lt & Lm & _).
  assert (Hdecline : RSPMonitor.cumulative_decline_of st (bar_close row)
                     = decline).
  { unfold RSPMonitor.cumulative_decline_of. rewrite Hps, Hnz.
    symmetry. exact Hdiv. }
  subst r. rewrite Lf, Ld, Ls, Lt, Lm, Bf, Bd, Bs, Bt, Btr, Hdecline.
  rewrite Hf, Hd, Hs, Ht.
  change (RSPMonitor.get_market_breadth (Returned breadth)) with breadth.
  fold breadth. repeat split.
Qed.

Lemma backtest_day_agrees_with_live_check_witness :
  exists ms' g',
    @RSPBacktestMonitor.analyze_day Scenarios.eighth_rng flat_std
      Scenarios.df_aug15 0 (Scenarios.row Scenarios.aug15 Scenarios.f95
                              Scenarios.f95 zero)
      (RSPBacktestMonitor.mkmonth "2024-08" false false true false []
         (Some f100) (Some Scenarios.f95) zero zero 1, tt)
    = Returned (ms', g')
    /\ RSPBacktestMonitor.third_dip_triggered ms'
       = RSPMonitor.third_dip_triggered
           (RSPMonitor.state_after
              (RSPMonitor.evaluate Scenarios.st_second_fired Scenarios.aug15
                 (Scenarios.row Scenarios.aug15 Scenarios.f95 Scenarios.f95
                    zero)
                 (Returned
                    (fst (@RSPBacktestMonitor.simulate_market_breadth
                            Scenarios.eighth_rng Scenarios.aug15
                            (RSPBacktestMonitor.Num
                               (@RSPBacktestMonitor.recent_volatility
                                  flat_std Scenarios.df_aug15 0))
                            tt))))).
Proof.
  destruct (backtest_day_agrees_with_live_check Scenarios.eighth_rng flat_std
              Scenarios.df_aug15 0
              (Scenarios.row Scenarios.aug15 Scenarios.f95 Scenarios.f95 zero)
              (RSPBacktestMonitor.mkmonth "2024-08" false false true false []
                 (Some f100) (Some Scenarios.f95) zero zero 1)
              tt Scenarios.st_second_fired f100
              eq_refl eq_refl eq_refl eq_refl eq_refl eq_refl eq_refl)
    as (ms' & g' & Hday & _ & _ & _ & _ & Ht).
  exists ms', g'. split; [exact Hday|exact Ht].
Defined.

(** ** The backtest and the generator *)

Module Reproducible.
Import RSPBacktestMonitor.

Section WithLibraries.
Context {R : Rng}.
Variable std : list float -> float.
Variable groupby : list bar -> list (string * list bar).

(** The state the generator is in when a day is analysed does not show
    in the month dictionary. *)
Lemma analyze_day_any_state monthly_data i row ms g1 g2 :
  match analyze_day std monthly_data i row (ms, g1),
        analyze_day std monthly_data i row (ms, g2) with
  | Returned (ms1, _), Returned (ms2, _) => ms1 = ms2
  | Raised, Raised => True
  | _, _ => False
  end.
Proof.
  unfold analyze_day.
  destruct (month_start_price ms) as [p|]; [|exact I].
  destruct (truediv (sub p (bar_close row)) p) as [decline|]; [|exact I].
  unfold stage_third.
  rewrite (Reevaluation.simulate_market_breadth_seeded _ _ g1 g2).
  match goal with
  | |- context [if ?c then _ else _] => destruct c
  end; [|reflexivity].
  destruct (simulate_market_breadth _ _ g2) as [breadth g'].
  destruct (ltb breadth f15); reflexivity.
Qed.

Lemma analyze_days_any_state monthly_data rows :
  forall i ms g1 g2,
    match analyze_days std monthly_data i rows (ms, g1),
          analyze_days std monthly_data i rows (ms, g2) with
    | Returned (ms1, _), Returned (ms2, _) => ms1 = ms2
    | Raised, Raised => True
    | _, _ => False
    end.
Proof.
  induction rows as [|row rest IH]; intros i ms g1 g2; [reflexivity|].
  cbn [analyze_days].
  pose proof (analyze_day_any_state monthly_data i row ms g1 g2) as Hday.
  destruct (analyze_day std monthly_data i row (ms, g1)) as [[ms1 g1']|],
    (analyze_day std monthly_data i row (ms, g2)) as [[ms2 g2']|];
    try contradiction; [|exact I].
  subst ms2. apply IH.
Qed.

Lemma analyze_month_any_state monthly_data month_str g1 g2 :
  option_map fst (analyze_month std monthly_data month_str g1)
  = option_map fst (analyze_month std monthly_data month_str g2).
Proof.
  unfold analyze_month. destruct monthly_data as [|first rest];
    [reflexivity|].
  destruct (month_state_at_start (first :: rest) month_str) as [ms0|];
    [|reflexivity].
  pose proof (analyze_days_any_state (first :: rest) (first :: rest) 0 ms0
                g1 g2) as Hrun.
  destruct (analyze_days std (first :: rest) 0 (first :: rest) (ms0, g1))
    as [[ms1 g1']|],
    (analyze_days std (first :: rest) 0 (first :: rest) (ms0, g2))
    as [[ms2 g2']|]; try contradiction; [|reflexivity].
  subst ms2. reflexivity.
Qed.

Lemma run_backtest_month_any_state bt g1 g2 group :
  fst (run_backtest_month std (bt, g1) group)
  = fst (run_backtest_month std (bt, g2) group).
Proof.
  destruct group as [month_str monthly_data]. unfold run_backtest_month.
  destruct (length monthly_data <? 5)%nat; [reflexivity|].
  pose proof (analyze_month_any_state monthly_data month_str g1 g2) as Hm.
  destruct (analyze_month std monthly_data month_str g1) as [[ms1 g1']|],
    (analyze_month std monthly_data month_str g2) as [[ms2 g2']|];
    cbn [option_map fst] in Hm; try discriminate Hm; [|reflexivity].
  injection Hm as <-. reflexivity.
Qed.

Lemma run_backtest_months_any_state groups :
  forall bt g1 g2,
    fst (fold_left (run_backtest_month std) groups (bt, g1))
    = fst (fold_left (run_backtest_month std) groups (bt, g2)).
Proof.
  induction groups as [|group rest IH]; intros bt g1 g2; [reflexivity|].
  cbn [fold_left].
  pose proof (run_backtest_month_any_state bt g1 g2 group) as Hm.
  destruct (run_backtest_month std (bt, g1) group) as [bt1 g1'],
    (run_backtest_month std (bt, g2) group) as [bt2 g2'].
  cbn [fst] in Hm. subst bt2. apply IH.
Qed.

End WithLibraries.
End Reproducible.

(** X18. The backtest is reproducible: the result of a month, and the
    results and summary of a whole run, are the same whatever state the
    [random] generator is in when the run starts, since every draw is
    preceded by a seed taken from the row's date. *)
Theorem backtest_is_reproducible :
  forall (R : Rng) std groupby g1 g2,
    (forall monthly_data month_str,
       option_map fst
         (RSPBacktestMonitor.analyze_month std monthly_data month_str g1)
       = option_map fst
           (RSPBacktestMonitor.analyze_month std monthly_data month_str g2))
    /\ (forall bt df,
          fst (RSPBacktestMonitor.run_backtest std groupby bt df g1)
          = fst (RSPBacktestMonitor.run_backtest std groupby bt df g2)).
Proof.
  intros R std groupby g1 g2. split.
  - intros monthly_data month_str.
    apply Reproducible.analyze_month_any_state.
  - intros bt df. unfold RSPBacktestMonitor.run_backtest.
    destruct df as [|b df']; [reflexivity|].
    apply Reproducible.run_backtest_months_any_state.
Qed.

(** ** Month keys and seeds *)

Module MonthKey.

Lemma digit_inj a b : digit a = digit b -> a mod 10 = b mod 10.
Proof.
  unfold digit. intros H.
  apply (f_equal nat_of_ascii) in H.
  pose proof (Z.mod_pos_bound a 10 ltac:(lia)) as Ha.
  pose proof (Z.mod_pos_bound b 10 ltac:(lia)) as Hb.
  rewrite !nat_ascii_embedding in H by lia. lia.
Qed.

Lemma strftime_Ym_chars d :
  strftime_Ym d
  = String (digit (year d / 1000))
      (String (digit (year d / 100))
         (String (digit (year d / 10))
            (String (digit (year d))
               (String "-"%char
                  (String (digit (month d / 10))
                     (String (digit (month d)) EmptyString)))))).
Proof. reflexivity. Qed.

Lemma strftime_Ym_inj d1 d2 :
  0 <= year d1 < 10000 -> 0 <= year d2 < 10000 ->
  0 <= month d1 < 100 -> 0 <= month d2 < 100 ->
  strftime_Ym d1 = strftime_Ym d2 ->
  year d1 = year d2 /\ month d1 = month d2.
Proof.
  intros Hy1 Hy2 Hm1 Hm2 H. rewrite !strftime_Ym_chars in H.
  injection H as H3 H2 H1 H0 M1 M0.
  apply digit_inj in H3, H2, H1, H0, M1, M0.
  split.
  - assert (D : forall y, 0 <= y < 10000 ->
                y = 1000 * ((y / 1000) mod 10) + 100 * ((y / 100) mod 10)
                    + 10 * ((y / 10) mod 10) + y mod 10).
    { intros y Hy.
      pose proof (Z.div_mod y 10 ltac:(lia)) as E0.
      pose proof (Z.div_mod (y / 10) 10 ltac:(lia)) as E1.
      pose proof (Z.div_mod (y / 100) 10 ltac:(lia)) as E2.
      replace (y / 10 / 10) with (y / 100) in E1
        by (rewrite Z.div_div by lia; reflexivity).
      replace (y / 100 / 10) with (y / 1000) in E2
        by (rewrite Z.div_div by lia; reflexivity).
      assert (0 <= y / 1000 < 10)
        by (split; [apply Z.div_pos; lia|apply Z.div_lt_upper_bound; lia]).
      rewrite (Z.mod_small (y / 1000) 10) by lia. lia. }
    pose proof (D (year d1) Hy1) as D1. pose proof (D (year d2) Hy2) as D2.
    rewrite H3, H2, H1, H0 in D1. exact (eq_trans D1 (eq_sym D2)).
  - assert (D : forall m, 0 <= m < 100 ->
                m = 10 * ((m / 10) mod 10) + m mod 10).
    { intros m Hm.
      pose proof (Z.div_mod m 10 ltac:(lia)) as E0.
      assert (0 <= m / 10 < 10)
        by (split; [apply Z.div_pos; lia|apply Z.div_lt_upper_bound; lia]).
      rewrite (Z.mod_small (m / 10) 10) by lia. lia. }
    pose proof (D (month d1) Hm1) as D1. pose proof (D (month d2) Hm2) as D2.
    rewrite M1, M0 in D1. exact (eq_trans D1 (eq_sym D2)).
Qed.

Lemma valid_date_bounds d :
  valid_date d = true ->
  1 <= year d <= 9999 /\ 1 <= month d <= 12 /\ 1 <= day d <= 31.
Proof.
  unfold valid_date. intros H.
  apply andb_prop in H. destruct H as [H Hday].
  apply andb_prop in H. destruct H as [Hm Hd1].
  apply CalendarFacts.valid_month_bounds in Hm.
  pose proof (CalendarFacts.days_in_month_range (year d) (month d)).
  apply Z.leb_le in Hd1, Hday. lia.
Qed.

Lemma seed_of_backtest d :
  valid_date d = true -> date_number d mod 10000 = month d * 100 + day d.
Proof.
  intros Hv. apply valid_date_bounds in Hv. unfold date_number.
  rewrite <- Z.add_assoc, Z.add_comm, Z.mod_add by lia.
  apply Z.mod_small. lia.
Qed.

Lemma seed_of_fetcher d :
  valid_date d = true ->
  date_number d mod 1000 = (month d mod 10) * 100 + day d.
Proof.
  intros Hv. apply valid_date_bounds in Hv. unfold date_number.
  pose proof (Z.div_mod (month d) 10 ltac:(lia)) as Em.
  pose proof (Z.mod_pos_bound (month d) 10 ltac:(lia)) as Hm.
  replace (year d * 10000 + month d * 100 + day d)
    with ((month d mod 10) * 100 + day d
          + (year d * 10 + month d / 10) * 1000) by lia.
  rewrite Z.mod_add by lia. apply Z.mod_small. lia.
Qed.

End MonthKey.

(** X19. For dates of four-digit years the month key tells months apart:
    two dates have the same key exactly when they agree on year and month.
    So a dictionary stamped with the month of one date passes the month
    check unchanged on every date of that month, and on a date of any
    other month has its four flags and its low cleared. *)
Theorem month_key_identifies_the_month :
  forall d1 d2,
    valid_date d1 = true -> valid_date d2 = true ->
    1000 <= year d1 -> 1000 <= year d2 ->
    (strftime_Ym d1 = strftime_Ym d2
     <-> year d1 = year d2 /\ month d1 = month d2)
    /\ forall st df,
         RSPMonitor.current_month st = strftime_Ym d1 ->
         (year d1 = year d2 /\ month d1 = month d2 ->
          RSPMonitor.month_rollover st df d2 = st)
         /\ (~ (year d1 = year d2 /\ month d1 = month d2) ->
             let st' := RSPMonitor.month_rollover st df d2 in
             RSPMonitor.first_dip_triggered st' = false
             /\ RSPMonitor.monthly_deadline_triggered st' = false
             /\ RSPMonitor.second_dip_triggered st' = false
             /\ RSPMonitor.third_dip_triggered st' = false
             /\ RSPMonitor.month_low_price st' = None
             /\ RSPMonitor.current_month st' = strftime_Ym d2).
Proof.
  intros d1 d2 Hv1 Hv2 Hy1 Hy2.
  pose proof (MonthKey.valid_date_bounds d1 Hv1) as B1.
  pose proof (MonthKey.valid_date_bounds d2 Hv2) as B2.
  assert (Hiff : strftime_Ym d1 = strftime_Ym d2
                 <-> year d1 = year d2 /\ month d1 = month d2).
  { split.
    - apply MonthKey.strftime_Ym_inj; lia.
    - intros [Hy Hm]. rewrite !MonthKey.strftime_Ym_chars, Hy, Hm.
      reflexivity. }
  split; [exact Hiff|].
  intros st df Hst. split.
  - intros Hsame. apply Hiff in Hsame.
    destruct (CheckFacts.month_rollover_cases st df d2)
      as [[_ H]|[Hne _]]; [exact H|].
    elim Hne. rewrite Hst. exact Hsame.
  - intros Hother st'. subst st'.
    assert (Hne : RSPMonitor.current_month st <> strftime_Ym d2).
    { rewrite Hst. intros E. apply Hother, Hiff, E. }
    unfold RSPMonitor.month_rollover.
    apply String.eqb_neq in Hne. rewrite Hne. cbn [negb].
    destruct (filter _ df); cbn; repeat split.
Qed.

Lemma month_key_identifies_the_month_witness :
  strftime_Ym Scenarios.aug01 = strftime_Ym Scenarios.aug16
  <-> year Scenarios.aug01 = year Scenarios.aug16
      /\ month Scenarios.aug01 = month Scenarios.aug16.
Proof.
  refine (proj1 (month_key_identifies_the_month Scenarios.aug01
                   Scenarios.aug16 eq_refl eq_refl _ _)); cbn; lia.
Defined.

(** X20. The seed of a simulated breadth leaves out the year. The
    backtest's value for a row depends on the row's month, day and
    volatility only, so it repeats on the same calendar day of every
    year. The fetcher's fallback value depends on the day and the last
    digit of the month only: it is the same on the same day of January
    and November, and of February and December. *)
Theorem simulated_breadth_seed_ignores_the_year :
  (forall (R : Rng) d1 d2 volatility g1 g2,
     valid_date d1 = true -> valid_date d2 = true ->
     month d1 = month d2 -> day d1 = day d2 ->
     RSPBacktestMonitor.simulate_market_breadth d1 volatility g1
     = RSPBacktestMonitor.simulate_market_breadth d2 volatility g2)
  /\ (forall (R : Rng) d1 d2 g1 g2,
        valid_date d1 = true -> valid_date d2 = true ->
        month d1 mod 10 = month d2 mod 10 -> day d1 = day d2 ->
        MarketBreadthFetcher._get_simulated_breadth d1 g1
        = MarketBreadthFetcher._get_simulated_breadth d2 g2).
Proof.
  split.
  - intros R d1 d2 volatility g1 g2 Hv1 Hv2 Hm Hd.
    unfold RSPBacktestMonitor.simulate_market_breadth.
    rewrite (MonthKey.seed_of_backtest d1 Hv1),
      (MonthKey.seed_of_backtest d2 Hv2), Hm, Hd.
    reflexivity.
  - intros R d1 d2 g1 g2 Hv1 Hv2 Hm Hd.
    unfold MarketBreadthFetcher._get_simulated_breadth.
    rewrite (MonthKey.seed_of_fetcher d1 Hv1),
      (MonthKey.seed_of_fetcher d2 Hv2), Hm, Hd.
    reflexivity.
Qed.

Lemma simulated_breadth_seed_ignores_the_year_witness :
  @RSPBacktestMonitor.simulate_market_breadth parity_rng
    (mkdate 2023 8 15) (RSPBacktestMonitor.Num f0_01) 0
  = @RSPBacktestMonitor.simulate_market_breadth parity_rng
      Scenarios.aug15 (RSPBacktestMonitor.Num f0_01) 7.
Proof.
  exact (proj1 simulated_breadth_seed_ignores_the_year parity_rng
           (mkdate 2023 8 15) Scenarios.aug15 (RSPBacktestMonitor.Num f0_01)
           0 7 eq_refl eq_refl eq_refl eq_refl).
Defined.

(** ** When the live monitor alerts *)

(** X21. The conditions under which a completed check sends each message,
    on the dictionary as the month check left it. First dip: neither
    stage-1 flag is set and today's return (0 for a missing one) is at or
    below -0.01. Deadline: neither stage-1 flag is set, the return is
    above -0.01 and today passes the third-Friday test. Second dip: its
    flag is unset and the decline is 0.05 or more, which needs a start
    price that is set and not a zero. Third dip: its flag is unset, the
    second flag is set or the second stage has just fired, and the breadth
    read is below 15. *)
Theorem alert_conditions :
  forall st df today call row,
    todays_row df today = Some row ->
    let st0 := RSPMonitor.month_rollover st df today in
    let ret :=
      if isna (bar_daily_return row) then zero else bar_daily_return row in
    let decline := RSPMonitor.cumulative_decline_of st0 (bar_close row) in
    let breadth := RSPMonitor.get_market_breadth call in
    let sent ty :=
      In ty
        (map t_type
           (RSPMonitor.messages
              (RSPMonitor.check_triggers st df today call))) in
    (sent first_dip
     <-> RSPMonitor.first_dip_triggered st0 = false
         /\ RSPMonitor.monthly_deadline_triggered st0 = false
         /\ leb ret fm0_01 = true)
    /\ (sent monthly_deadline
        <-> RSPMonitor.first_dip_triggered st0 = false
            /\ RSPMonitor.monthly_deadline_triggered st0 = false
            /\ leb ret fm0_01 = false
            /\ is_third_friday today = true)
    /\ (sent second_dip
        <-> RSPMonitor.second_dip_triggered st0 = false
            /\ geb decline f0_05 = true)
    /\ (sent third_dip
        <-> (RSPMonitor.second_dip_triggered st0 = true
             \/ geb decline f0_05 = true)
            /\ RSPMonitor.third_dip_triggered st0 = false
            /\ ltb breadth f15 = true)
    /\ (geb decline f0_05 = true ->
        exists p,
          RSPMonitor.month_start_price st0 = Some p
          /\ truthy p = true
          /\ decline = div (sub p (bar_close row)) p).
Proof.
  intros st df today call row Hrow st0 ret decline breadth sent.
  assert (Hlast : geb decline f0_05 = true ->
                  exists p,
                    RSPMonitor.month_start_price st0 = Some p
                    /\ truthy p = true
                    /\ decline = div (sub p (bar_close row)) p).
  { subst decline. unfold RSPMonitor.cumulative_decline_of.
    destruct (RSPMonitor.month_start_price st0) as [p|];
      [|intros H; discriminate H].
    destruct (truthy p) eqn:Hnz; [|intros H; discriminate H].
    intros _. exists p. repeat split. exact Hnz. }
  subst sent. cbv beta.
  rewrite (LiveState.check_triggers_with_row _ _ _ _ _ Hrow). fold st0.
  rewrite Ordering.evaluate_message_types. fold decline breadth.
  assert (Hret : (if negb (isna (bar_daily_return row))
                  then bar_daily_return row else zero) = ret).
  { subst ret. destruct (isna (bar_daily_return row)); reflexivity. }
  rewrite Hret. clear Hret.
  refine (conj _ (conj _ (conj _ (conj _ Hlast)))); clear Hlast;
    generalize (leb ret fm0_01) (is_third_friday today) (geb decline f0_05)
      (ltb breadth f15);
    intros dip friday deep low;
    destruct (RSPMonitor.first_dip_triggered st0),
      (RSPMonitor.monthly_deadline_triggered st0),
      (RSPMonitor.second_dip_triggered st0),
      (RSPMonitor.third_dip_triggered st0), dip, friday, deep, low;
    cbn [negb andb orb app In]; split; intros H;
    repeat match goal with
           | H : _ /\ _ |- _ => destruct H
           | H : _ \/ _ |- _ => destruct H
           | H : False |- _ => destruct H
           end; try discriminate; auto 6.
Qed.

Lemma alert_conditions_witness :
  In second_dip
    (map t_type
       (RSPMonitor.messages
          (RSPMonitor.check_triggers RSPMonitor.default_state
             Scenarios.df_aug02 Scenarios.aug02 Raised)))
  <-> RSPMonitor.second_dip_triggered
        (RSPMonitor.month_rollover RSPMonitor.default_state
           Scenarios.df_aug02 Scenarios.aug02) = false
      /\ geb (RSPMonitor.cumulative_decline_of
                (RSPMonitor.month_rollover RSPMonitor.default_state
                   Scenarios.df_aug02 Scenarios.aug02)
                (bar_close
                   (Scenarios.row Scenarios.aug02 Scenarios.f90
                      Scenarios.f90 zero))) f0_05 = true.
Proof.
  exact (proj1 (proj2 (proj2 (alert_conditions RSPMonitor.default_state
                                Scenarios.df_aug02 Scenarios.aug02 Raised
                                (Scenarios.row Scenarios.aug02 Scenarios.f90
                                   Scenarios.f90 zero)
                                eq_refl)))).
Defined.

(** ** Runs in chronological order *)

Module Chronology.
Import RSPMonitor.









End Chronology.



(** X23. Every month before December 9999 has exactly one day that passes
    the third-Friday test: the deadline reminder has one day in the month
    on which it can be sent. *)
Theorem one_third_friday_a_month :
  forall y m,
    valid_month y m = true ->
    ~ (y = 9999 /\ m = 12) ->
    exists k,
      valid_date (mkdate y m k) = true
      /\ is_third_friday (mkdate y m k) = true
      /\ forall k',
           valid_date (mkdate y m k') = true ->
           is_third_friday (mkdate y m k') = true ->
           k' = k.
Proof.
  intros y m Hvalid Hlast.
  set (w := weekday (mkdate y m 1)).
  assert (Hw : 0 <= w < 7) by apply CalendarFacts.weekday_range.
  assert (Hk : 15 <= third_friday_day w <= 21).
  { apply (ThirdFriday.third_friday_day_spec w _ Hw). reflexivity. }
  pose proof (CalendarFacts.days_in_month_range y m) as Hdim.
  assert (Hday : forall k,
            valid_date (mkdate y m k) = true ->
            (is_third_friday (mkdate y m k) = true
             <-> k = third_friday_day w)).
  { intros k Hv.
    apply (ThirdFriday.is_third_friday_day (mkdate y m k) Hv Hlast). }
  assert (Hv : valid_date (mkdate y m (third_friday_day w)) = true).
  { unfold valid_date. cbn [year month day]. rewrite Hvalid. cbn [andb].
    apply andb_true_intro. split; apply Z.leb_le; lia. }
  exists (third_friday_day w). split; [exact Hv|]. split.
  - apply (Hday _ Hv). reflexivity.
  - intros k' Hv' Ht. apply (Hday _ Hv'). exact Ht.
Qed.

Lemma one_third_friday_a_month_witness :
  exists k,
    valid_date (mkdate 2024 8 k) = true
    /\ is_third_friday (mkdate 2024 8 k) = true.
Proof.
  destruct (one_third_friday_a_month 2024 8 eq_refl ltac:(lia))
    as (k & Hv & Ht & _).
  exists k. split; [exact Hv|exact Ht].
Defined.

(** ** The order of a month's triggers *)

Module TriggerOrder.
Import RSPBacktestMonitor BacktestFacts.

Section WithLibraries.
Context {R : Rng}.
Variable std : list float -> float.

Lemma analyze_day_appends monthly_data i row ms g ms' g' :
  analyze_day std monthly_data i row (ms, g) = Returned (ms', g') ->
  exists fired,
    triggers ms' = triggers ms ++ fired
    /\ (length fired <= 3)%nat
    /\ StronglySorted lt (map stage_of (map t_type fired))
    /\ forall t, In t fired -> t_date t = bar_date row.
Proof.
  intros Hday.
  destruct (analyze_day_transition std _ _ _ _ _ _ _ Hday)
    as (p & decline & _ & _ & _ & _ & _ & _ & Ht & _).
  eexists. split; [exact Ht|]. clear Ht Hday.
  generalize (leb (if negb (isna (bar_daily_return row))
                   then bar_daily_return row else zero) fm0_01)
    (is_third_friday (bar_date row)) (geb decline f0_05)
    (ltb (fst (simulate_market_breadth (bar_date row)
                 (Num (recent_volatility std monthly_data i)) g)) f15).
  intros dip friday deep low.
  destruct (first_dip_triggered ms), (monthly_deadline_triggered ms),
    (second_dip_triggered ms), (third_dip_triggered ms),
    dip, friday, deep, low;
    cbn [negb andb orb app length map t_type stage_of In];
    (split; [lia|]); (split; [repeat constructor|]);
    intros t Hin;
    repeat match goal with
           | H : _ \/ _ |- _ => destruct H
           | H : False |- _ => destruct H
           end; subst t; reflexivity.
Qed.

Lemma analyze_days_appends monthly_data rows :
  forall i ms g ms' g',
    analyze_days std monthly_data i rows (ms, g) = Returned (ms', g') ->
    exists per_row,
      triggers ms' = triggers ms ++ concat per_row
      /\ Forall2
           (fun row fired =>
              (length fired <= 3)%nat
              /\ StronglySorted lt (map stage_of (map t_type fired))
              /\ forall t, In t fired -> t_date t = bar_date row)
           rows per_row.
Proof.
  induction rows as [|row rest IH]; intros i ms g ms' g' Hrun.
  - cbn in Hrun. injection Hrun as <- <-. exists [].
    cbn [concat]. rewrite app_nil_r. split; [reflexivity|constructor].
  - cbn [analyze_days] in Hrun.
    destruct (analyze_day std monthly_data i row (ms, g)) as [[ms1 g1]|]
      eqn:Hday; [|discriminate].
    destruct (analyze_day_appends _ _ _ _ _ _ _ Hday)
      as (fired & Ht & Hfired).
    destruct (IH (S i) ms1 g1 ms' g' Hrun) as (per_row & Ht' & Hall).
    exists (fired :: per_row). cbn [concat].
    rewrite Ht', Ht, <- app_assoc. split; [reflexivity|].
    constructor; [exact Hfired|exact Hall].
Qed.

End WithLibraries.
End TriggerOrder.

(** X24. The triggers of a month are listed in the order of its rows:
    the list is made of one group for each row, in row order, each group
    dated on its row and holding at most three triggers in stage order.
    For a frame sorted by date the triggers are therefore in date
    order. *)
Theorem month_triggers_follow_the_rows :
  forall (R : Rng) std monthly_data month_str g ms g',
    RSPBacktestMonitor.analyze_month std monthly_data month_str g
    = Some (ms, g') ->
    exists per_row,
      RSPBacktestMonitor.triggers ms = concat per_row
      /\ Forall2
           (fun row fired =>
              (length fired <= 3)%nat
              /\ StronglySorted lt (map stage_of (map t_type fired))
              /\ forall t, In t fired -> t_date t = bar_date row)
           monthly_data per_row.
Proof.
  intros R std monthly_data month_str g ms g'.
  unfold RSPBacktestMonitor.analyze_month.
  destruct monthly_data as [|first rest] eqn:Hd; [discriminate|].
  rewrite <- Hd.
  destruct (RSPBacktestMonitor.month_state_at_start monthly_data month_str)
    as [ms0|] eqn:Hstart; [|discriminate].
  destruct (RSPBacktestMonitor.analyze_days std monthly_data 0 monthly_data
              (ms0, g)) as [[ms1 g1]|] eqn:Hdays; [|discriminate].
  intros H. injection H as <- <-.
  destruct (TriggerOrder.analyze_days_appends std _ _ _ _ _ _ _ Hdays)
    as (per_row & Ht & Hall).
  exists per_row. split; [|exact Hall].
  destruct (Invariants.month_state_at_start_flags _ _ _ Hstart)
    as (_ & _ & _ & _ & Ht0 & _).
  rewrite Ht, Ht0. reflexivity.
Qed.

Lemma month_triggers_follow_the_rows_witness :
  exists ms g' per_row,
    @RSPBacktestMonitor.analyze_month Scenarios.eighth_rng flat_std
      Scenarios.df_august "2024-08" tt = Some (ms, g')
    /\ RSPBacktestMonitor.triggers ms = concat per_row
    /\ length per_row = length Scenarios.df_august.
Proof.
  destruct (@RSPBacktestMonitor.analyze_month Scenarios.eighth_rng flat_std
              Scenarios.df_august "2024-08" tt) as [[ms g']|] eqn:Hrun.
  - destruct (month_triggers_follow_the_rows Scenarios.eighth_rng flat_std
                Scenarios.df_august "2024-08"%string tt ms g' Hrun)
      as (per_row & Ht & Hall).
    exists ms, g', per_row. split; [reflexivity|]. split; [exact Ht|].
    symmetry. exact (Forall2_length Hall).
  - vm_compute in Hrun. discriminate Hrun.
Defined.
